(** * BlockPatrol: from a document to an answer

    A shallow embedding of the retrieval pipeline of the BlockPatrol back
    end, and the properties of its specification.

    - [Chunker]: [BigQueryPDFChunkStorage.chunk_text]
      (app/utils/bigquery_storage.py);
    - [Gateway]: the other methods of [BigQueryPDFChunkStorage], the index
      write [store_chunks_in_bigquery] and the search [search_chunks];
    - [LLM]: [LLMService] (app/utils/llm.py): intent classification, query
      expansion, answer generation;
    - [Endpoints]: [search_document_chunks] and [chat_with_documents]
      (app/api/endpoints/documents.py);
    - [Crud]: [create_document] (app/crud/document.py) and the helpers
      it calls (app/utils/ipfs.py, pdf_extraction.py, aptos.py).

    Python text is a [string], read as a sequence of code points below 256;
    Python integers are [Z]; a dict with a fixed set of keys is a record or
    a variant, a free-form one a [pydict]; what [json.loads] returns is a
    [pyval].  Code that calls a service runs in the monad [Py.M]: it
    threads the trace of the calls made so far, and returns or raises.
    The libraries and services themselves (NLTK, json, the generative model,
    BigQuery, IPFS, the ledger, the database session) are the fields of a
    [world]. Log lines are left out, but for the values they read. *)

From Stdlib Require Import ZArith Ascii String List Lia DecimalString SpecFloat.
From Stdlib Require Import DecimalNat DecimalFacts FinFun.
From stdpp Require Import base decidable option list gmap strings.

Local Open Scope Z_scope.
Set Warnings "-register-all".

(* ===================================================================== *)
(** * Python strings *)
(* ===================================================================== *)

Module PyStr.

(** [len(s)] *)
Definition len (s : string) : Z := Z.of_nat (String.length s).

(** Truth value of a string: [if s:] holds for the non-empty ones. *)
Definition truthy (s : string) : bool :=
  match s with
  | EmptyString => false
  | String _ _ => true
  end.

(** [c.isspace()] for the code points below 256: TAB..CR, FS..US, SPACE,
    NEL (0x85) and NBSP (0xA0). *)
Definition isspace (c : ascii) : bool :=
  let n := nat_of_ascii c in
  ((9 <=? n) && (n <=? 13) || (28 <=? n) && (n <=? 32)
   || (n =? 133) || (n =? 160))%nat.

(** [s.lstrip()] *)
Fixpoint lstrip (s : string) : string :=
  match s with
  | EmptyString => EmptyString
  | String c s' => if isspace c then lstrip s' else s
  end.

(** [s.rstrip()] *)
Fixpoint rstrip (s : string) : string :=
  match s with
  | EmptyString => EmptyString
  | String c s' =>
      match rstrip s' with
      | EmptyString => if isspace c then EmptyString else String c EmptyString
      | r => String c r
      end
  end.

(** [s.strip()] *)
Definition strip (s : string) : string := lstrip (rstrip s).

(** [s[n:]] for a natural [n]. *)
Fixpoint drop (n : nat) (s : string) : string :=
  match n, s with
  | O, _ => s
  | S n', EmptyString => EmptyString
  | S n', String _ s' => drop n' s'
  end.

(** [s[start:]] for any integer [start]: a negative start counts from the
    end of the string and is clipped at its beginning. *)
Definition slice_from (s : string) (start : Z) : string :=
  if start <? 0
  then drop (Z.to_nat (Z.max 0 (len s + start))) s
  else drop (Z.to_nat start) s.

(** [s.replace(old, new)] for a pattern [old] of one character. *)
Fixpoint replace1 (old : ascii) (new : string) (s : string) : string :=
  match s with
  | EmptyString => EmptyString
  | String x s' =>
      if Ascii.eqb x old
      then new +:+ replace1 old new s'
      else String x (replace1 old new s')
  end.

(** The double quote and the line feed, as strings of one character. *)
Definition dq : string := String "034"%char EmptyString.
Definition nl : string := String "010"%char EmptyString.

(** [str(n)] for a natural number. *)
Definition of_nat (n : nat) : string := NilZero.string_of_uint (Nat.to_uint n).

(** [s * n] *)
Fixpoint times (s : string) (n : nat) : string :=
  match n with
  | O => EmptyString
  | S n' => s +:+ times s n'
  end.

End PyStr.

(* ===================================================================== *)
(** * The chunker: [BigQueryPDFChunkStorage.chunk_text] *)
(* ===================================================================== *)

(** The fields [__init__] gives a [BigQueryPDFChunkStorage]; the BigQuery
    client it also holds is the store of the [world] below. *)
Record storage := mk_storage {
  bq_table : string;
  chunk_size : Z;
  chunk_overlap : Z;
  gcs_bucket_name : string
}.

(** The field values of [__init__]: the table path, a chunk size of 1000
    and an overlap of 100 characters, the bucket of the environment. *)
Definition storage_fields (project_id bq_dataset table bucket : string) : storage :=
  {| bq_table := project_id +:+ "." +:+ bq_dataset +:+ "." +:+ table;
     chunk_size := 1000;
     chunk_overlap := 100;
     gcs_bucket_name := bucket |}.

(** A chunk as the chunker builds it: a dict with the keys [chunk_id],
    [doc_id] and [text]. *)
Record chunk := mk_chunk {
  chunk_id : string;
  chunk_doc_id : string;
  chunk_body : string
}.

Module Chunker.
Import PyStr.

(** The variables of the loop of [chunk_text]. *)
Record loop_state := mk_loop {
  chunks : list chunk;
  current_chunk : string;
  next_id : nat
}.

Definition loop_init : loop_state :=
  {| chunks := []; current_chunk := ""; next_id := 0 |}.

(** [f"{doc_id}_{chunk_id}"] with the stripped buffer as text. *)
Definition close_chunk (doc_id : string) (st : loop_state) : chunk :=
  {| chunk_id := doc_id +:+ "_" +:+ of_nat (next_id st);
     chunk_doc_id := doc_id;
     chunk_body := strip (current_chunk st) |}.

(** [current_chunk[-overlap:] if len(current_chunk) > overlap else current_chunk] *)
Definition overlap_text (self : storage) (cur : string) : string :=
  if chunk_overlap self <? len cur
  then slice_from cur (- chunk_overlap self)
  else cur.

(** The body of [for sentence in sentences]. *)
Definition loop_body (self : storage) (doc_id : string)
    (st : loop_state) (sentence : string) : loop_state :=
  let cur := current_chunk st in
  if len cur + len sentence <=? chunk_size self then
    {| chunks := chunks st;
       current_chunk := cur +:+ (sentence +:+ " ");
       next_id := next_id st |}
  else if truthy cur then
    {| chunks := chunks st ++ [close_chunk doc_id st];
       current_chunk := (overlap_text self cur +:+ sentence) +:+ " ";
       next_id := S (next_id st) |}
  else
    {| chunks := chunks st;
       current_chunk := sentence +:+ " ";
       next_id := next_id st |}.

(** The statements after the loop: flush a non-empty buffer. *)
Definition flush (doc_id : string) (st : loop_state) : list chunk :=
  if truthy (current_chunk st)
  then chunks st ++ [close_chunk doc_id st]
  else chunks st.

(** [chunk_text] once the text is split into sentences. *)
Definition chunk_sentences (self : storage) (sentences : list string)
    (doc_id : string) : list chunk :=
  flush doc_id (fold_left (loop_body self doc_id) sentences loop_init).

Section WithTokenizer.
(** [nltk.tokenize.sent_tokenize], the sentence splitter of NLTK. *)
Variable sent_tokenize : string -> list string.

Definition chunk_text (self : storage) (text doc_id : string) : list chunk :=
  chunk_sentences self (sent_tokenize text) doc_id.
End WithTokenizer.

End Chunker.

(* ===================================================================== *)
(** * Python values, exceptions and external calls *)
(* ===================================================================== *)

(** What [json.loads] can return, and the dicts the code builds by hand: a
    dict keeps its items in insertion order. *)
Inductive pyval :=
| PNone
| PBool (b : bool)
| PInt (n : Z)
| PFloat (x : spec_float)
| PStr (s : string)
| PList (items : list pyval)
| PDict (items : list (string * pyval)).

Definition pydict : Type := list (string * pyval).

(** The exceptions the pipeline meets; all of them derive from
    [Exception]. [ExternalError] is whatever the client library of an
    external service raises. *)
Inductive exn :=
| JSONDecodeError (msg : string)
| KeyError (key : string)
| TypeError (msg : string)
| AttributeError (msg : string)
| HTTPException (status_code : Z) (detail : string)
| ConnectionError (msg : string)
| ExternalError (msg : string).

Inductive outcome (A : Type) :=
| Returns (a : A)
| Raises (e : exn).
Arguments Returns {A} a.
Arguments Raises {A} e.

(** A row written by [insert_rows_json]. *)
Record bq_row := mk_bq_row {
  row_chunk_id : string;
  row_doc_id : string;
  row_filename : string;
  row_gcs_path : string;
  row_text : string;
  row_original_pdf_ipfs_path : string;
  row_pdf_metadata : string
}.

(** A row of the search query: [dict(row)] with the five selected columns. *)
Record hit := mk_hit {
  hit_chunk_id : string;
  hit_doc_id : string;
  hit_filename : string;
  hit_original_pdf_ipfs_path : string;
  hit_text : string
}.

(** [app.schemas.document.TextChunk] *)
Record TextChunk := mk_TextChunk {
  tc_chunk_id : string;
  tc_doc_id : string;
  tc_filename : string;
  tc_original_pdf_ipfs_path : string;
  tc_text : string
}.

(** [app.schemas.document.ChatMessage] *)
Record ChatMessage := mk_ChatMessage {
  role : string;
  content : string
}.

(** [app.models.document.Document]; [doc_id] is set by the database. *)
Record Document := mk_Document {
  doc_id : option Z;
  doc_filename : string;
  doc_ipfs_hash : string;
  doc_transaction_hash : string;
  doc_user_id : Z;
  doc_aptos_address : string;
  doc_extracted_data : string
}.

(** The calls that leave the process, and the calls of the gateway's
    [search_chunks], in the order they are made. *)
Inductive event :=
| GenerateContent (prompt : string)
| NewBigQueryClient (project_id : string)
| InsertRowsJson (table : string) (rows : list bq_row)
| RunQuery (query_str escaped_query : string) (limit : Z)
| SearchChunks (query : pyval) (limit : Z)
| Uuid4
| IpfsAddFile (filename : string)
| IpfsPinAdd (file_hash : string)
| PdfExtractText
| AptosStoreJson (account_address json_data : string)
| DbAdd (d : Document)
| DbCommit
| DbRefresh
| DbRollback.

Definition trace : Type := list event.

Module Py.

(** ** Dicts and values *)

Fixpoint dict_get (d : pydict) (key : string) : option pyval :=
  match d with
  | [] => None
  | (k, v) :: d' => if String.eqb k key then Some v else dict_get d' key
  end.

(** [v[key]] for a string key. *)
Definition getitem (v : pyval) (key : string) : outcome pyval :=
  match v with
  | PDict d =>
      match dict_get d key with
      | Some x => Returns x
      | None => Raises (KeyError key)
      end
  | PList _ => Raises (TypeError "list indices must be integers or slices, not str")
  | PStr _ => Raises (TypeError "string indices must be integers")
  | _ => Raises (TypeError "object is not subscriptable")
  end.

(** The truth value of [v]. *)
Definition truth (v : pyval) : bool :=
  match v with
  | PNone => false
  | PBool b => b
  | PInt n => negb (n =? 0)
  | PFloat x => match x with S754_zero _ => false | _ => true end
  | PStr s => PyStr.truthy s
  | PList l => match l with [] => false | _ => true end
  | PDict d => match d with [] => false | _ => true end
  end.

(** [d.get(key, None)] *)
Definition dict_get_or_none (d : pydict) (key : string) : pyval :=
  match dict_get d key with
  | Some v => v
  | None => PNone
  end.

(** [v == s] for a string literal [s]. *)
Definition eq_str (v : pyval) (s : string) : bool :=
  match v with
  | PStr x => String.eqb x s
  | _ => false
  end.

(** [v in [s1, ..., sn]] for string literals. *)
Definition in_strs (v : pyval) (l : list string) : bool :=
  existsb (eq_str v) l.

(** [all([s1, ..., sn])] for strings. *)
Definition all_truthy (l : list string) : bool := forallb PyStr.truthy l.

(** [l[:n]] for any integer [n]: a negative bound counts from the end. *)
Definition slice_to {A} (l : list A) (n : Z) : list A :=
  if n <? 0
  then firstn (Z.to_nat (Z.max 0 (Z.of_nat (length l) + n))) l
  else firstn (Z.to_nat n) l.

(** [sep.join(l)] *)
Fixpoint join (sep : string) (l : list string) : string :=
  match l with
  | [] => ""
  | [x] => x
  | x :: l' => x +:+ sep +:+ join sep l'
  end.

(** ** The monad of effectful code *)

Definition M (A : Type) : Type := trace -> outcome A * trace.

Definition ret {A} (a : A) : M A := fun t => (Returns a, t).

Definition raise {A} (e : exn) : M A := fun t => (Raises e, t).

Definition bind {A B} (m : M A) (k : A -> M B) : M B :=
  fun t =>
    match m t with
    | (Returns a, t') => k a t'
    | (Raises e, t') => (Raises e, t')
    end.

(** [try: body / except Exception as e: handler(e)] *)
Definition try_except {A} (body : M A) (handler : exn -> M A) : M A :=
  fun t =>
    match body t with
    | (Returns a, t') => (Returns a, t')
    | (Raises e, t') => handler e t'
    end.

(** The value or exception of a pure computation. *)
Definition lift {A} (o : outcome A) : M A := fun t => (o, t).

(** A call is entered: it is appended to the trace. *)
Definition log (ev : event) : M unit := fun t => (Returns tt, t ++ [ev]).

(** An external call: it is appended to the trace, and the service
    answers from the calls made before it. *)
Definition call {A} (ev : event) (answer : trace -> outcome A) : M A :=
  fun t => (answer t, t ++ [ev]).

(** [for x in l: body], threading the loop variables [acc]. *)
Fixpoint for_each {A S} (l : list A) (body : S -> A -> M S) (acc : S) : M S :=
  match l with
  | [] => ret acc
  | x :: l' => bind (body acc x) (for_each l' body)
  end.

End Py.

Notation "'let*' x ':=' m 'in' k" := (Py.bind m (fun x => k))
  (at level 10, x name, m at level 100, k at level 200).
Notation "m1 ';;' m2" := (Py.bind m1 (fun _ => m2))
  (at level 100, m2 at level 200, right associativity).

(* ===================================================================== *)
(** * The environment of the process *)
(* ===================================================================== *)

(** The environment variables the modules read when they are loaded. *)
Record environ := mk_environ {
  GEMINI_API_KEY : string;
  BQ_PROJECT_ID : string;
  BQ_DATASET : string;
  BQ_TABLE : string;
  BQ_CREDENTIALS_PATH : string;
  GCS_BUCKET_NAME : string
}.

(** The libraries and services behind the pipeline.  A library function
    is a function; a service answers a call from the calls made so far. *)
Record world := mk_world {
  env : environ;
  (** libraries *)
  sent_tokenize : string -> outcome (list string);  (* nltk; raises when its data are missing *)
  json_loads : string -> outcome pyval;             (* json.loads *)
  json_dumps : pyval -> string;                     (* json.dumps *)
  str_exc : exn -> string;                          (* str(e) *)
  str_val : pyval -> string;                        (* str(v) *)
  extract_data : string -> outcome pyval;           (* the regular expressions of extract_data *)
  new_generative_model : outcome unit;              (* genai.GenerativeModel(...) *)
  (** services *)
  generate_content : trace -> string -> outcome string;   (* model.generate_content(prompt).text *)
  new_bigquery_client : trace -> string -> outcome unit;
  insert_rows_json : trace -> string -> list bq_row -> outcome (list pyval);
  run_query : trace -> string -> string -> Z -> outcome (list hit);
  uuid4 : trace -> string;
  ipfs_add_file : trace -> string -> string -> outcome string;
  ipfs_pin_add : trace -> string -> outcome unit;
  pdf_extract_text : trace -> string -> outcome string;
  aptos_store_json : trace -> string -> string -> string -> outcome (string * string);
  db_add : trace -> Document -> outcome unit;
  db_commit : trace -> outcome unit;
  db_refresh : trace -> Document -> outcome Document
}.

(* ===================================================================== *)
(** * The chunk index gateway: [BigQueryPDFChunkStorage] *)
(* ===================================================================== *)

Module Gateway.
Import PyStr Py.

(** [BigQueryPDFChunkStorage(project_id, bq_dataset, bq_table, credentials_path)] *)
Definition init (w : world) (project_id bq_dataset table credentials_path : string)
    : M storage :=
  let* _ := call (NewBigQueryClient project_id)
                 (fun t => new_bigquery_client w t project_id) in
  ret (storage_fields project_id bq_dataset table (GCS_BUCKET_NAME (env w))).

(** [f"gs://{bucket_name}/{chunk['doc_id']}/{chunk['chunk_id']}.txt"] and
    the row of one chunk. *)
Definition row_of_chunk (w : world) (bucket_name filename ipfs_path : string)
    (metadata : pyval) (c : chunk) : bq_row :=
  {| row_chunk_id := chunk_id c;
     row_doc_id := chunk_doc_id c;
     row_filename := filename;
     row_gcs_path := "gs://" +:+ bucket_name +:+ "/" +:+ chunk_doc_id c
                     +:+ "/" +:+ chunk_id c +:+ ".txt";
     row_text := chunk_body c;
     row_original_pdf_ipfs_path := ipfs_path;
     row_pdf_metadata := json_dumps w metadata |}.

(** [self.gcs_bucket_name if self.gcs_bucket_name else "placeholder-bucket"] *)
Definition bucket_name (self : storage) : string :=
  if truthy (gcs_bucket_name self) then gcs_bucket_name self
  else "placeholder-bucket".

(** The rows the loop over [chunks] appends. *)
Definition rows_of_chunks (w : world) (self : storage) (chunks : list chunk)
    (metadata : pyval) (filename ipfs_path : string) : list bq_row :=
  map (row_of_chunk w (bucket_name self) filename ipfs_path metadata) chunks.

Definition store_chunks_in_bigquery (w : world) (self : storage)
    (chunks : list chunk) (metadata : pyval)
    (filename ipfs_path : string) : M pydict :=
  try_except
    (let rows := rows_of_chunks w self chunks metadata filename ipfs_path in
     let* errors := call (InsertRowsJson (bq_table self) rows)
                         (fun t => insert_rows_json w t (bq_table self) rows) in
     if truth (PList errors) then
       ret [("success", PBool false);
            ("error", PStr ("BigQuery insert errors: " +:+ str_val w (PList errors)))]
     else
       ret [("success", PBool true);
            ("chunks_count", PInt (Z.of_nat (length rows)))])
    (fun e => ret [("success", PBool false); ("error", PStr (str_exc w e))]).

Definition process_pdf_for_bigquery (w : world) (self : storage)
    (text ipfs_path filename : string) (metadata : pyval) : M pydict :=
  try_except
    (let* doc_id := call Uuid4 (fun t => Returns (uuid4 w t)) in
     (* [self.chunk_text(text, doc_id)]: the sentence splitter is the one
        call of it that can raise *)
     let* sentences := lift (sent_tokenize w text) in
     let chunks := Chunker.chunk_text (fun _ => sentences) self text doc_id in
     let* result := store_chunks_in_bigquery w self chunks metadata filename ipfs_path in
     let* success := lift (getitem (PDict result) "success") in
     let* success' := lift (getitem (PDict result) "success") in
     ret [("success", success);
          ("doc_id", PStr doc_id);
          ("chunks_count",
            if truth success' then PInt (Z.of_nat (length chunks)) else PInt 0);
          ("error", dict_get_or_none result "error")])
    (fun e => ret [("success", PBool false); ("error", PStr (str_exc w e))]).

(** The characters [search_chunks] escapes, in the order it escapes them. *)
Definition special_chars : list ascii :=
  ["\"; "?"; "!"; "034"; "'"; "+"; "-"; "="; "&"; "|"; ">"; "<";
   "("; ")"; "{"; "}"; "["; "]"; "^"; "~"; "*"; ":"; "/"]%char.

Definition backslash : ascii := "\"%char.

(** [escaped_query.replace(char, f"\\{char}")] *)
Definition escape_step (escaped_query : string) (char : ascii) : string :=
  replace1 char (String backslash (String char "")) escaped_query.

(** [for char in special_chars: escaped_query = escaped_query.replace(...)] *)
Definition escape_query (query : string) : string :=
  fold_left escape_step special_chars query.

Definition query_str (self : storage) : string :=
  nl +:+
  "                SELECT chunk_id, doc_id, filename, original_pdf_ipfs_path, text" +:+ nl +:+
  "                FROM `" +:+ bq_table self +:+ "`" +:+ nl +:+
  "                WHERE SEARCH(text, @query)" +:+ nl +:+
  "                LIMIT @limit" +:+ nl +:+
  "            ".

(** Membership in the special set. *)
Definition is_special (c : ascii) : bool := existsb (Ascii.eqb c) special_chars.

(** A string has no unescaped special character when, read from left to
    right, every backslash is followed by a special character, which it
    escapes, and no special character is met outside such a pair. *)
Fixpoint well_escaped (s : string) : bool :=
  match s with
  | EmptyString => true
  | String c s' =>
      if Ascii.eqb c "\"%char then
        match s' with
        | String d s'' => is_special d && well_escaped s''
        | EmptyString => false
        end
      else negb (is_special c) && well_escaped s'
  end.

(** Escaping in one pass: a backslash before each character of [set]. *)
Fixpoint escape_each (set : list ascii) (s : string) : string :=
  match s with
  | EmptyString => EmptyString
  | String c s' =>
      if existsb (Ascii.eqb c) set
      then String "\"%char (String c (escape_each set s'))
      else String c (escape_each set s')
  end.

(** [query.replace] exists for a string only. *)
Definition as_str (query : pyval) : outcome string :=
  match query with
  | PStr s => Returns s
  | _ => Raises (AttributeError "object has no attribute 'replace'")
  end.

Definition search_chunks (w : world) (self : storage) (query : pyval) (limit : Z)
    : M (list hit) :=
  let* _ := log (SearchChunks query limit) in
  try_except
    (let* q := lift (as_str query) in
     let escaped_query := escape_query q in
     call (RunQuery (query_str self) escaped_query limit)
          (fun t => run_query w t (query_str self) escaped_query limit))
    (fun e => ret []).

End Gateway.

(* ===================================================================== *)
(** * The generative model: [LLMService] *)
(* ===================================================================== *)

Module LLM.
Import PyStr Py.

(** [self.model] is [None] or the handle of the model. *)
Record LLMService := mk_LLMService { model : option unit }.

(** [LLMService()] *)
Definition init (w : world) : M LLMService :=
  if negb (truthy (GEMINI_API_KEY (env w))) then
    ret {| model := None |}
  else
    try_except
      (let* m := lift (new_generative_model w) in ret {| model := Some m |})
      (fun e => ret {| model := None |}).

Definition is_available (self : LLMService) : bool :=
  match model self with
  | Some _ => true
  | None => false
  end.

(** [self.model.generate_content(prompt)] and the [text] of the response. *)
Definition generate (w : world) (prompt : string) : M string :=
  call (GenerateContent prompt) (fun t => generate_content w t prompt).

(** [{"type": "general", "search_terms": query}] *)
Definition general_intent (query : string) : pyval :=
  PDict [("type", PStr "general"); ("search_terms", PStr query)].

Definition intent_prompt (query : string) : string :=
  nl +:+
  "            Analyze this query about case files and categorize its intent. Output a JSON object with the following structure:" +:+ nl +:+
  "            {" +:+ nl +:+
  "              " +:+ dq +:+ "type" +:+ dq +:+ ": " +:+ dq +:+ "[one of: comparison, pattern, timeline, entity, relationship, general]" +:+ dq +:+ "," +:+ nl +:+
  "              " +:+ dq +:+ "search_terms" +:+ dq +:+ ": " +:+ dq +:+ "extracted keywords for search" +:+ dq +:+ "," +:+ nl +:+
  "              " +:+ dq +:+ "cases_to_compare" +:+ dq +:+ ": [" +:+ dq +:+ "case1" +:+ dq +:+ ", " +:+ dq +:+ "case2" +:+ dq +:+ ", ...] (only if type is comparison)," +:+ nl +:+
  "              " +:+ dq +:+ "entities_to_track" +:+ dq +:+ ": [" +:+ dq +:+ "entity1" +:+ dq +:+ ", " +:+ dq +:+ "entity2" +:+ dq +:+ ", ...] (only if relevant)" +:+ nl +:+
  "            }" +:+ nl +:+
  "            " +:+ nl +:+
  "            Only include relevant fields based on the query type." +:+ nl +:+
  nl +:+
  "            Example intents:" +:+ nl +:+
  "            - comparison: Looking for similarities or differences between specific cases" +:+ nl +:+
  "            - pattern: Seeking recurring patterns across cases" +:+ nl +:+
  "            - timeline: Requesting chronological analysis " +:+ nl +:+
  "            - entity: Asking about specific persons, organizations, etc." +:+ nl +:+
  "            - relationship: Inquiring about connections between entities" +:+ nl +:+
  "            - general: General case information queries" +:+ nl +:+
  nl +:+
  "            User query: " +:+ dq +:+ query +:+ dq +:+ nl +:+
  "            ".

(** The categories the prompt asks the model to choose from. *)
Definition intent_categories : list string :=
  ["comparison"; "pattern"; "timeline"; "entity"; "relationship"; "general"].

(** [except json.JSONDecodeError] lets every other exception through. *)
Definition except_json_decode_error {A} (handler : M A) (e : exn) : M A :=
  match e with
  | JSONDecodeError _ => handler
  | _ => raise e
  end.

Definition analyze_query_intent (w : world) (self : LLMService) (query : string)
    : M pyval :=
  if negb (is_available self) then
    ret (general_intent query)
  else
    try_except
      (let* response_text := generate w (intent_prompt query) in
       try_except
         (let* intent_data := lift (json_loads w (strip response_text)) in
          (* the log line reads intent_data['type'] *)
          let* _ := lift (getitem intent_data "type") in
          ret intent_data)
         (except_json_decode_error (ret (general_intent query))))
      (fun e => ret (general_intent query)).

Definition comparison_keywords_prompt (query : string) : string :=
  nl +:+
  "                Extract the most specific keywords from this case comparison query." +:+ nl +:+
  "                Focus on case identifiers, unique details, entities mentioned, and key facts." +:+ nl +:+
  "                Only output the search terms with no explanation." +:+ nl +:+
  "                " +:+ nl +:+
  "                User query about comparing cases: " +:+ dq +:+ query +:+ dq +:+ nl +:+
  "                ".

Definition pattern_keywords_prompt (query : string) : string :=
  nl +:+
  "                Extract pattern-related keywords from this query about recurring elements across cases." +:+ nl +:+
  "                Focus on behaviors, methods, sequences, techniques or characteristics mentioned." +:+ nl +:+
  "                Only output the search terms with no explanation." +:+ nl +:+
  "                " +:+ nl +:+
  "                User query about patterns: " +:+ dq +:+ query +:+ dq +:+ nl +:+
  "                ".

Definition default_keywords_prompt (query : string) : string :=
  nl +:+
  "                Extract the most relevant search keywords from this case file query." +:+ nl +:+
  "                Focus on entities, actions, dates, locations, and specific case details." +:+ nl +:+
  "                Return only search terms without explanation or commentary." +:+ nl +:+
  "                " +:+ nl +:+
  "                User query: " +:+ dq +:+ query +:+ dq +:+ nl +:+
  "                ".

Definition enhance_search_query (w : world) (self : LLMService) (query : string)
    : M string :=
  if negb (is_available self) then
    ret query
  else
    try_except
      (let* intent := analyze_query_intent w self query in
       let* ty := lift (getitem intent "type") in
       let* prompt :=
         if eq_str ty "comparison" then ret (comparison_keywords_prompt query)
         else
           let* ty' := lift (getitem intent "type") in
           if eq_str ty' "pattern" then ret (pattern_keywords_prompt query)
           else ret (default_keywords_prompt query) in
       let* response_text := generate w prompt in
       ret (strip response_text))
      (fun e => ret query).

Definition multi_query_prompt (query : string) : string :=
  nl +:+
  "            Generate 3 different search queries to find relevant information about this question related to case files." +:+ nl +:+
  "            Format the output as a JSON array of strings, each representing a different query approach." +:+ nl +:+
  "            No explanation or commentary, just the JSON array." +:+ nl +:+
  "            " +:+ nl +:+
  "            User question: " +:+ dq +:+ query +:+ dq +:+ nl +:+
  "            ".

(** The queries are whatever the JSON array holds: its items need not be
    strings. *)
Definition generate_multi_query (w : world) (self : LLMService) (query : string)
    : M (list pyval) :=
  if negb (is_available self) then
    ret [PStr query]
  else
    try_except
      (let* response_text := generate w (multi_query_prompt query) in
       try_except
         (let* queries := lift (json_loads w (strip response_text)) in
          match queries with
          | PList (q :: qs) => ret (q :: qs)
          | _ => ret [PStr query]
          end)
         (except_json_decode_error (ret [PStr query])))
      (fun e => ret [PStr query]).

(** ** The prompt of the answer *)

(** [cases[chunk.doc_id].append(chunk)], a new key going last. *)
Fixpoint group_add (cases : list (string * list TextChunk)) (c : TextChunk)
    : list (string * list TextChunk) :=
  match cases with
  | [] => [(tc_doc_id c, [c])]
  | (k, v) :: rest =>
      if String.eqb k (tc_doc_id c) then (k, v ++ [c]) :: rest
      else (k, v) :: group_add rest c
  end.

Definition context_section (case : string * list TextChunk) : string :=
  let (doc_id, doc_chunks) := case in
  let filename :=
    match doc_chunks with
    | c :: _ => tc_filename c
    | [] => "Unknown"
    end in
  let combined_text := join (nl +:+ nl) (map tc_text doc_chunks) in
  "CASE FILE: " +:+ filename +:+ nl +:+ "CASE ID: " +:+ doc_id +:+ nl +:+
  "CONTENT:" +:+ nl +:+ combined_text.

Definition format_history (history : option (list ChatMessage)) : string :=
  match history with
  | Some (m :: ms) =>
      let lines := join nl (map (fun msg => role msg +:+ ": " +:+ content msg) (m :: ms)) in
      nl +:+ nl +:+ "Conversation history:" +:+ nl +:+ lines +:+ nl +:+ nl
  | _ => ""
  end.

Definition comparison_role : string :=
  "You are an advanced case analysis assistant specialized in comparing legal cases. " +:+ nl +:+
  "When analyzing similarities and differences between cases, focus on:" +:+ nl +:+
  "- Procedural similarities/differences" +:+ nl +:+
  "- Factual parallels" +:+ nl +:+
  "- Related entities across cases" +:+ nl +:+
  "- Similar legal arguments or precedents" +:+ nl +:+
  "- Timeline alignment or divergence" +:+ nl +:+
  "- Evidence patterns".

Definition pattern_role : string :=
  "You are an advanced case analysis assistant specialized in identifying patterns across cases." +:+ nl +:+
  "Identify recurring elements such as:" +:+ nl +:+
  "- Behavioral patterns of involved parties" +:+ nl +:+
  "- Procedural similarities" +:+ nl +:+
  "- Common tactics or methodologies" +:+ nl +:+
  "- Temporal patterns or sequences" +:+ nl +:+
  "- Geographic connections" +:+ nl +:+
  "- Recurring entities or relationships".

Definition chronology_role : string :=
  "You are an advanced case analysis assistant specialized in analyzing relationships and chronology." +:+ nl +:+
  "Focus on:" +:+ nl +:+
  "- Chronological sequence of events across cases" +:+ nl +:+
  "- Connections between entities" +:+ nl +:+
  "- Cause-effect relationships" +:+ nl +:+
  "- Network analysis of involved parties" +:+ nl +:+
  "- Temporal proximity of related events".

Definition general_role : string :=
  "You are an advanced case analysis assistant specialized in extracting insights from legal case files." +:+ nl +:+
  "Provide accurate, concise answers based solely on the case file content.".

Definition rag_prompt (system_role conversation_history context_text query : string)
    : string :=
  system_role +:+ nl +:+
  nl +:+
  "Format your response as a professional report on the case file contents." +:+ nl +:+
  "Use only the information from the provided case files to answer the question." +:+ nl +:+
  "If you cannot find the answer in the case files, admit that you don't know rather than making up information." +:+ nl +:+
  nl +:+
  conversation_history +:+ nl +:+
  "Here are the relevant case file contents:" +:+ nl +:+
  nl +:+
  context_text +:+ nl +:+
  nl +:+
  "Question: " +:+ query +:+ nl +:+
  nl +:+
  "Answer:".

Definition generate_rag_prompt (w : world) (self : LLMService) (query : string)
    (chunks : list TextChunk) (history : option (list ChatMessage)) : M string :=
  let* intent := analyze_query_intent w self query in
  let cases := fold_left group_add chunks [] in
  let context_sections := map context_section cases in
  let context_text :=
    join (nl +:+ nl +:+ "============================" +:+ nl +:+ nl) context_sections in
  let conversation_history := format_history history in
  let* ty := lift (getitem intent "type") in
  let* system_role :=
    if eq_str ty "comparison" then ret comparison_role
    else
      let* ty1 := lift (getitem intent "type") in
      if eq_str ty1 "pattern" then ret pattern_role
      else
        let* ty2 := lift (getitem intent "type") in
        if eq_str ty2 "timeline" then ret chronology_role
        else
          let* ty3 := lift (getitem intent "type") in
          if eq_str ty3 "relationship" then ret chronology_role
          else ret general_role in
  ret (rag_prompt system_role conversation_history context_text query).

Definition generate_response (w : world) (self : LLMService) (query : string)
    (chunks : list TextChunk) (history : option (list ChatMessage)) : M string :=
  if negb (is_available self) then
    ret "LLM service is not available. Please set the GEMINI_API_KEY environment variable."
  else
    try_except
      (let* prompt := generate_rag_prompt w self query chunks history in
       generate w prompt)
      (fun e => ret ("Error generating response: " +:+ str_exc w e)).

End LLM.

(* ===================================================================== *)
(** * The endpoints: [search_document_chunks] and [chat_with_documents] *)
(* ===================================================================== *)

(** [app.schemas.document.ChunkSearchRequest] *)
Record ChunkSearchRequest := mk_ChunkSearchRequest {
  search_query : string;
  search_limit : Z
}.

(** [app.schemas.document.ChunkSearchResponse] *)
Record ChunkSearchResponse := mk_ChunkSearchResponse {
  results : list TextChunk
}.

(** [app.schemas.document.ChatRequest] *)
Record ChatRequest := mk_ChatRequest {
  chat_query : string;
  chat_history : option (list ChatMessage)
}.

(** [app.schemas.document.ChatResponse] *)
Record ChatResponse := mk_ChatResponse {
  answer : string;
  response_chunks : list TextChunk
}.

Module Endpoints.
Import PyStr Py.

Definition HTTP_500_INTERNAL_SERVER_ERROR : Z := 500.

Definition config_not_set : exn :=
  HTTPException HTTP_500_INTERNAL_SERVER_ERROR
    "BigQuery configuration not set. Please set BQ_PROJECT_ID, BQ_DATASET, and BQ_TABLE environment variables.".

Definition bigquery_configured (w : world) : bool :=
  all_truthy [BQ_PROJECT_ID (env w); BQ_DATASET (env w); BQ_TABLE (env w)].

Definition new_storage (w : world) : M storage :=
  Gateway.init w (BQ_PROJECT_ID (env w)) (BQ_DATASET (env w)) (BQ_TABLE (env w))
               (BQ_CREDENTIALS_PATH (env w)).

(** The loop variables [all_chunks] and [seen_chunk_ids]. *)
Definition merged : Type := list hit * gset string.

(** The body of [for chunk in chunks]. *)
Definition add_unseen (acc : merged) (chunk : hit) : merged :=
  let (all_chunks, seen_chunk_ids) := acc in
  if decide (hit_chunk_id chunk ∈ seen_chunk_ids)
  then acc
  else (all_chunks ++ [chunk], seen_chunk_ids ∪ {[hit_chunk_id chunk]}).

(** The body of [for query in search_queries], for the limit of a query. *)
Definition search_and_merge (w : world) (bq_storage : storage) (limit : Z)
    (acc : merged) (query : pyval) : M merged :=
  let* chunks := Gateway.search_chunks w bq_storage query limit in
  ret (fold_left add_unseen chunks acc).

(** The raw results: what [search_chunks] returns for each query, in the
    order of the queries. *)
Fixpoint search_each (w : world) (bq_storage : storage) (limit : Z)
    (search_queries : list pyval) : M (list (list hit)) :=
  match search_queries with
  | [] => ret []
  | query :: rest =>
      let* chunks := Gateway.search_chunks w bq_storage query limit in
      let* more := search_each w bq_storage limit rest in
      ret (chunks :: more)
  end.

(** First seen wins, in the words of the specification: of the chunks
    that share a [chunk_id] the first one is kept, where it stands. *)
Fixpoint first_seen (l : list hit) : list hit :=
  match l with
  | [] => []
  | chunk :: l' =>
      chunk :: filter (fun c => hit_chunk_id c <> hit_chunk_id chunk) (first_seen l')
  end.

Definition to_text_chunk (chunk : hit) : TextChunk :=
  {| tc_chunk_id := hit_chunk_id chunk;
     tc_doc_id := hit_doc_id chunk;
     tc_filename := hit_filename chunk;
     tc_original_pdf_ipfs_path := hit_original_pdf_ipfs_path chunk;
     tc_text := hit_text chunk |}.

Definition complex_intents : list string := ["comparison"; "pattern"; "relationship"].

(** The local variables of [search_document_chunks] once the queries are
    planned: without a model only [enhanced_query] is bound, with one
    [search_queries] is. *)
Inductive planned :=
| OnlyEnhancedQuery (enhanced_query : string)
| SearchQueries (search_queries : list pyval).

Definition plan_search (w : world) (llm_service : LLM.LLMService) (query : string)
    : M planned :=
  if negb (LLM.is_available llm_service) then
    ret (OnlyEnhancedQuery query)
  else
    let* intent := LLM.analyze_query_intent w llm_service query in
    (* the log line reads intent['type'] *)
    let* _ := lift (getitem intent "type") in
    let* ty := lift (getitem intent "type") in
    if in_strs ty complex_intents then
      let* search_queries := LLM.generate_multi_query w llm_service query in
      ret (SearchQueries search_queries)
    else
      let* enhanced_query := LLM.enhance_search_query w llm_service query in
      ret (SearchQueries [PStr enhanced_query]).

(** [if 'search_queries' in locals(): ... else: ...] *)
Definition run_planned (w : world) (bq_storage : storage) (limit : Z) (p : planned)
    : M (list hit) :=
  match p with
  | SearchQueries search_queries =>
      let* acc :=
        for_each search_queries
          (search_and_merge w bq_storage
             (limit / Z.of_nat (length search_queries) + 1))
          ([], ∅) in
      ret (fst acc)
  | OnlyEnhancedQuery enhanced_query =>
      Gateway.search_chunks w bq_storage (PStr enhanced_query) limit
  end.

Definition search_document_chunks (w : world) (search_request : ChunkSearchRequest)
    : M ChunkSearchResponse :=
  if negb (bigquery_configured w) then
    raise config_not_set
  else
    try_except
      (let* llm_service := LLM.init w in
       let* p := plan_search w llm_service (search_query search_request) in
       let* bq_storage := new_storage w in
       let* all_chunks := run_planned w bq_storage (search_limit search_request) p in
       let text_chunks := map to_text_chunk all_chunks in
       ret {| results := slice_to text_chunks (search_limit search_request) |})
      (fun e => raise (HTTPException HTTP_500_INTERNAL_SERVER_ERROR
                         ("Error searching case file chunks: " +:+ str_exc w e))).

Definition no_information : string :=
  "I couldn't find any relevant information in the case files to answer your question. Please try rephrasing your question or provide more specific details.".

(** The queries of [chat_with_documents]. *)
Definition plan_chat (w : world) (llm_service : LLM.LLMService) (query : string)
    : M (list pyval) :=
  let* intent := LLM.analyze_query_intent w llm_service query in
  (* the log line reads intent['type'] *)
  let* _ := lift (getitem intent "type") in
  let* ty := lift (getitem intent "type") in
  if in_strs ty complex_intents then
    LLM.generate_multi_query w llm_service query
  else
    let* enhanced_query := LLM.enhance_search_query w llm_service query in
    ret [PStr enhanced_query].

(** [for query in search_queries: chunks = bq_storage.search_chunks(query, 3) ...] *)
Definition retrieve_for_chat (w : world) (bq_storage : storage)
    (search_queries : list pyval) : M (list hit) :=
  let* acc := for_each search_queries (search_and_merge w bq_storage 3) ([], ∅) in
  ret (fst acc).

Definition chat_with_documents (w : world) (chat_request : ChatRequest)
    : M ChatResponse :=
  if negb (bigquery_configured w) then
    raise config_not_set
  else
    try_except
      (let* llm_service := LLM.init w in
       if negb (LLM.is_available llm_service) then
         raise (HTTPException HTTP_500_INTERNAL_SERVER_ERROR
                  "LLM service not available. Please set the GEMINI_API_KEY environment variable.")
       else
         let* search_queries := plan_chat w llm_service (chat_query chat_request) in
         let* bq_storage := new_storage w in
         let* all_chunks := retrieve_for_chat w bq_storage search_queries in
         let text_chunks := map to_text_chunk all_chunks in
         match text_chunks with
         | [] => ret {| answer := no_information; response_chunks := [] |}
         | _ =>
             let* answer :=
               LLM.generate_response w llm_service (chat_query chat_request)
                                     text_chunks (chat_history chat_request) in
             ret {| answer := answer; response_chunks := text_chunks |}
         end)
      (fun e => raise (HTTPException HTTP_500_INTERNAL_SERVER_ERROR
                         ("Error in case file analysis: " +:+ str_exc w e))).

End Endpoints.

(* ===================================================================== *)
(** * Ingestion: [create_document] and the helpers it calls *)
(* ===================================================================== *)

(** The fields of [app.models.user.User] that [create_document] reads. *)
Record User := mk_User {
  aptos_address : string;
  aptos_private_key : string
}.

(** The dict of [store_file_in_ipfs]: its [success] entry tells which keys
    it has. *)
Inductive ipfs_result :=
| IpfsStored (ipfs_hash ipfs_path local_gateway_url public_gateway_url : string)
| IpfsFailed (error : string).

(** The dict of [process_pdf]. *)
Inductive pdf_result :=
| PdfProcessed (extracted_data : pyval)
| PdfFailed (error : string).

(** The dict of [get_raw_text]. *)
Inductive raw_text_result :=
| RawText (text : string)
| RawTextFailed (error : string).

(** The dict of [store_json_on_chain]. *)
Inductive blockchain_result :=
| ChainStored (transaction_hash account_address : string)
| ChainFailed (error : string).

(** The dict of [create_document]. *)
Inductive create_result :=
| CreateFailed (error : string)
| Created (document : Document) (ipfs_details : ipfs_result)
          (blockchain_details : blockchain_result) (extracted_data : pyval)
          (bigquery_details : pydict).

Module Crud.
Import PyStr Py.

(** [app.utils.ipfs.store_file_in_ipfs] *)
Definition store_file_in_ipfs (w : world) (file_content filename : string)
    : M ipfs_result :=
  try_except
    (let* file_hash := call (IpfsAddFile filename)
                            (fun t => ipfs_add_file w t file_content filename) in
     let* pin_result := call (IpfsPinAdd file_hash)
                             (fun t => ipfs_pin_add w t file_hash) in
     ret (IpfsStored file_hash
                     ("/ipfs/" +:+ file_hash)
                     ("http://localhost:8080/ipfs/" +:+ file_hash)
                     ("https://ipfs.io/ipfs/" +:+ file_hash)))
    (fun e =>
       match e with
       | ConnectionError _ =>
           ret (IpfsFailed "Could not connect to IPFS daemon. Please make sure IPFS Desktop is running.")
       | _ => ret (IpfsFailed (str_exc w e))
       end).

(** [app.utils.pdf_extraction.extract_text_from_pdf] *)
Definition extract_text_from_pdf (w : world) (pdf_content : string) : M string :=
  try_except
    (call PdfExtractText (fun t => pdf_extract_text w t pdf_content))
    (fun e => ret "").

(** [app.utils.pdf_extraction.get_raw_text] *)
Definition get_raw_text (w : world) (pdf_content : string) : M raw_text_result :=
  try_except
    (let* text := extract_text_from_pdf w pdf_content in ret (RawText text))
    (fun e => ret (RawTextFailed (str_exc w e))).

(** [app.utils.pdf_extraction.process_pdf] *)
Definition process_pdf (w : world) (pdf_content : string) : M pdf_result :=
  try_except
    (let* text := extract_text_from_pdf w pdf_content in
     let* data := lift (extract_data w text) in
     ret (PdfProcessed data))
    (fun e => ret (PdfFailed (str_exc w e))).

(** [app.utils.aptos.store_json_on_chain]: the client of the ledger is
    one external call. *)
Definition store_json_on_chain (w : world) (account_address private_key_hex json_data : string)
    : M blockchain_result :=
  try_except
    (let* receipt := call (AptosStoreJson account_address json_data)
                          (fun t => aptos_store_json w t account_address
                                                     private_key_hex json_data) in
     ret (ChainStored (fst receipt) (snd receipt)))
    (fun e => ret (ChainFailed (str_exc w e))).

(** What the three steps before the record give: the error of the first
    step that failed, or their results. *)
Inductive prepared :=
| StepFailed (error : string)
| StepsDone (ipfs_details : ipfs_result) (ipfs_hash : string) (extracted_data : pyval)
            (blockchain_details : blockchain_result) (transaction_hash : string).

(** The blob store write, the PDF data extraction and the ledger write, in
    the order [create_document] runs them, up to the first failure. *)
Definition first_steps (w : world) (filename file_content : string) (user : User)
    : M prepared :=
  let* ipfs_result := store_file_in_ipfs w file_content filename in
  match ipfs_result with
  | IpfsFailed error => ret (StepFailed error)
  | IpfsStored ipfs_hash _ _ _ =>
      let* pdf_result := process_pdf w file_content in
      match pdf_result with
      | PdfFailed error => ret (StepFailed error)
      | PdfProcessed extracted_data =>
          let* blockchain_result :=
            store_json_on_chain w (aptos_address user) (aptos_private_key user)
                                (json_dumps w extracted_data) in
          match blockchain_result with
          | ChainFailed error => ret (StepFailed error)
          | ChainStored transaction_hash _ =>
              ret (StepsDone ipfs_result ipfs_hash extracted_data
                             blockchain_result transaction_hash)
          end
      end
  end.

(** The record [create_document] adds. *)
Definition new_document (w : world) (user_id : Z) (filename : string) (user : User)
    (ipfs_hash : string) (extracted_data : pyval) (transaction_hash : string)
    : Document :=
  {| doc_id := None;
     doc_filename := filename;
     doc_ipfs_hash := ipfs_hash;
     doc_transaction_hash := transaction_hash;
     doc_user_id := user_id;
     doc_aptos_address := aptos_address user;
     doc_extracted_data := json_dumps w extracted_data |}.

(** The last block of [create_document]: the chunks go to the index when
    BigQuery is configured. *)
Definition index_chunks (w : world) (file_content filename ipfs_hash : string)
    (extracted_data : pyval) : M pydict :=
  let bigquery_result := [("success", PBool true); ("chunks_count", PInt 0)] in
  if all_truthy [BQ_PROJECT_ID (env w); BQ_DATASET (env w); BQ_TABLE (env w)] then
    try_except
      (let* raw_text_result := get_raw_text w file_content in
       match raw_text_result with
       | RawText text =>
           let* bq_storage :=
             Gateway.init w (BQ_PROJECT_ID (env w)) (BQ_DATASET (env w))
                          (BQ_TABLE (env w)) (BQ_CREDENTIALS_PATH (env w)) in
           Gateway.process_pdf_for_bigquery w bq_storage text ipfs_hash filename
                                            extracted_data
       | RawTextFailed _ => ret bigquery_result
       end)
      (fun e => ret [("success", PBool false);
                     ("error", PStr ("BigQuery storage error: " +:+ str_exc w e))])
  else ret bigquery_result.

Definition create_document (w : world) (user_id : Z) (filename file_content : string)
    (user : User) : M create_result :=
  let* ipfs_result := store_file_in_ipfs w file_content filename in
  match ipfs_result with
  | IpfsFailed error => ret (CreateFailed error)
  | IpfsStored ipfs_hash _ _ _ =>
      let* pdf_result := process_pdf w file_content in
      match pdf_result with
      | PdfFailed error => ret (CreateFailed error)
      | PdfProcessed extracted_data =>
          let json_data := json_dumps w extracted_data in
          let* blockchain_result :=
            store_json_on_chain w (aptos_address user) (aptos_private_key user)
                                json_data in
          match blockchain_result with
          | ChainFailed error => ret (CreateFailed error)
          | ChainStored transaction_hash _ =>
              let db_document :=
                {| doc_id := None;
                   doc_filename := filename;
                   doc_ipfs_hash := ipfs_hash;
                   doc_transaction_hash := transaction_hash;
                   doc_user_id := user_id;
                   doc_aptos_address := aptos_address user;
                   doc_extracted_data := json_data |} in
              let* _ := call (DbAdd db_document) (fun t => db_add w t db_document) in
              let* _ := call DbCommit (db_commit w) in
              let* db_document := call DbRefresh (fun t => db_refresh w t db_document) in
              let* bigquery_result :=
                index_chunks w file_content filename ipfs_hash extracted_data in
              ret (Created db_document ipfs_result blockchain_result extracted_data
                           bigquery_result)
          end
      end
  end.

End Crud.


(* ===================================================================== *)
(** * Reading a trace *)
(* ===================================================================== *)

Module Trace.

Definition is_model_call (ev : event) : bool :=
  match ev with
  | GenerateContent _ => true
  | _ => false
  end.

(** How often the generative model was called. *)
Definition model_calls (t : trace) : nat := length (List.filter is_model_call t).

(** The calls of the gateway's [search_chunks]: query and limit. *)
Definition search_calls (t : trace) : list (pyval * Z) :=
  flat_map (fun ev => match ev with
                      | SearchChunks query limit => [(query, limit)]
                      | _ => []
                      end) t.

Definition is_db_call (ev : event) : bool :=
  match ev with
  | DbAdd _ | DbCommit | DbRefresh | DbRollback => true
  | _ => false
  end.

(** The calls of the database session, in order. *)
Definition db_calls (t : trace) : trace := List.filter is_db_call t.

End Trace.


(* ===================================================================== *)
(** * Notions the properties are stated with *)
(* ===================================================================== *)

Module Properties.
Import PyStr Py Chunker Trace Endpoints Crud.

(** ** The buffer of the chunker *)








(** ** Traces *)

(** The events of a piece of trace are calls of the model. *)
Definition model_only (evs : trace) : Prop :=
  Forall (fun ev => is_model_call ev = true) evs.

(** A computation that returns and leaves the database alone. *)
Definition quiet {A} (m : M A) : Prop :=
  forall t, exists a evs, m t = (Returns a, t ++ evs) /\ db_calls evs = [].

(** A computation that leaves the database alone, whether it returns or
    raises. *)
Definition harmless {A} (m : M A) : Prop :=
  forall t, exists o evs, m t = (o, t ++ evs) /\ db_calls evs = [].

(** ** Retrieval *)

(** The searches [run_planned] makes: query and limit. *)
Definition planned_searches (limit : Z) (p : planned) : list (pyval * Z) :=
  match p with
  | OnlyEnhancedQuery enhanced_query => [(PStr enhanced_query, limit)]
  | SearchQueries search_queries =>
      map (fun q => (q, limit / Z.of_nat (length search_queries) + 1)) search_queries
  end.

(** With a model the plan is a list of at least one query, without one it
    is the query of the request. *)
Definition plan_shape (llm_service : LLM.LLMService) (query : string) (p : planned)
    : Prop :=
  if LLM.is_available llm_service
  then exists q qs, p = SearchQueries (q :: qs)
  else p = OnlyEnhancedQuery query.

(** The chunks of [l] the loop appends when the ids of [seen] are taken. *)
Fixpoint fresh (seen : gset string) (l : list hit) : list hit :=
  match l with
  | [] => []
  | chunk :: l' =>
      if decide (hit_chunk_id chunk ∈ seen) then fresh seen l'
      else chunk :: fresh (seen ∪ {[hit_chunk_id chunk]}) l'
  end.

(** ** Ingestion *)

(** What [create_document] does once the three steps are done. *)
Definition record_and_index (w : world) (user_id : Z) (filename file_content : string)
    (user : User) (ipfs_details : ipfs_result) (ipfs_hash : string)
    (extracted_data : pyval) (blockchain_details : blockchain_result)
    (transaction_hash : string) : M create_result :=
  let db_document :=
    new_document w user_id filename user ipfs_hash extracted_data transaction_hash in
  let* _ := call (DbAdd db_document) (fun t => db_add w t db_document) in
  let* _ := call DbCommit (db_commit w) in
  let* db_document := call DbRefresh (fun t => db_refresh w t db_document) in
  let* bigquery_result :=
    index_chunks w file_content filename ipfs_hash extracted_data in
  ret (Created db_document ipfs_details blockchain_details extracted_data
               bigquery_result).

End Properties.

(* ===================================================================== *)
(** * Worlds and inputs to run the pipeline on *)
(* ===================================================================== *)

Module Scenario.
Import PyStr Py Endpoints.

(** ** Worlds *)

Definition scenario_env : environ :=
  {| GEMINI_API_KEY := "key";
     BQ_PROJECT_ID := "proj";
     BQ_DATASET := "cases";
     BQ_TABLE := "chunks";
     BQ_CREDENTIALS_PATH := "credentials/key.json";
     GCS_BUCKET_NAME := "" |}.

(** [str(e)] *)
Definition message (e : exn) : string :=
  match e with
  | JSONDecodeError msg | TypeError msg | AttributeError msg
  | ConnectionError msg | ExternalError msg => msg
  | KeyError key => "'" +:+ key +:+ "'"
  | HTTPException _ detail => detail
  end.

(** A world given by its model, its JSON parser, its store and its blob
    store; the other services succeed, and a text is one sentence. *)
Definition world_of
    (model_text : trace -> string -> outcome string)
    (loads : string -> outcome pyval)
    (insert : trace -> string -> list bq_row -> outcome (list pyval))
    (query : trace -> string -> string -> Z -> outcome (list hit))
    (ipfs_add : trace -> string -> string -> outcome string) : world :=
  {| env := scenario_env;
     sent_tokenize := fun text => Returns [text];
     json_loads := loads;
     json_dumps := fun _ => "{}";
     str_exc := message;
     str_val := fun _ => "[...]";
     extract_data := fun _ => Returns (PDict []);
     new_generative_model := Returns tt;
     generate_content := model_text;
     new_bigquery_client := fun _ _ => Returns tt;
     insert_rows_json := insert;
     run_query := query;
     uuid4 := fun _ => "D1";
     ipfs_add_file := ipfs_add;
     ipfs_pin_add := fun _ _ => Returns tt;
     pdf_extract_text := fun _ content => Returns content;
     aptos_store_json := fun _ address _ _ => Returns ("0xabc", address);
     db_add := fun _ _ => Returns tt;
     db_commit := fun _ => Returns tt;
     db_refresh := fun _ d => Returns d |}.

Definition model_says (text : string) (t : trace) (prompt : string)
    : outcome string := Returns text.

Definition no_json (s : string) : outcome pyval :=
  Raises (JSONDecodeError "Expecting value").

Definition insert_ok (t : trace) (table : string) (rows : list bq_row)
    : outcome (list pyval) := Returns [].

(** The store rejects the second row. *)
Definition row_error : pyval :=
  PDict [("index", PInt 1);
         ("errors", PList [PDict [("reason", PStr "invalid")]])].

Definition insert_rejects (t : trace) (table : string) (rows : list bq_row)
    : outcome (list pyval) := Returns [row_error].

Definition query_nothing (t : trace) (sql escaped : string) (limit : Z)
    : outcome (list hit) := Returns [].

Definition query_down (t : trace) (sql escaped : string) (limit : Z)
    : outcome (list hit) := Raises (ExternalError "503 Service Unavailable").

Definition ipfs_ok (t : trace) (file_content filename : string) : outcome string :=
  Returns "Qm1".

Definition ipfs_down (t : trace) (file_content filename : string) : outcome string :=
  Raises (ConnectionError "Connection refused").

(** The model answers in prose, which is not JSON. *)
Definition prose_world : world :=
  world_of (model_says "The intent is general.") no_json insert_ok query_nothing ipfs_ok.

(** The model answers with a JSON object whose type is not one of the six
    categories. *)
Definition summary_text : string :=
  "{" +:+ dq +:+ "type" +:+ dq +:+ ": " +:+ dq +:+ "summary" +:+ dq +:+ ", "
      +:+ dq +:+ "search_terms" +:+ dq +:+ ": " +:+ dq +:+ "theft" +:+ dq +:+ "}".

Definition summary_intent : pyval :=
  PDict [("type", PStr "summary"); ("search_terms", PStr "theft")].

(** [json.loads] at [summary_text]. *)
Definition loads_summary (s : string) : outcome pyval :=
  if String.eqb s summary_text then Returns summary_intent
  else Raises (JSONDecodeError "Expecting value").

Definition summary_world : world :=
  world_of (model_says summary_text) loads_summary insert_ok query_nothing ipfs_ok.

(** The searches fail. *)
Definition store_down_world : world :=
  world_of (model_says "") no_json insert_ok query_down ipfs_ok.

(** The index write reports a row error. *)
Definition rejecting_world : world :=
  world_of (model_says "") no_json insert_rejects query_nothing ipfs_ok.

(** The blob store is down. *)
Definition ipfs_down_world : world :=
  world_of (model_says "") no_json insert_ok query_nothing ipfs_down.

(** ** Inputs *)

(** A storage with the sizes [__init__] sets. *)
Definition a_storage : storage := storage_fields "proj" "cases" "chunks" "".

(** Two sentences of 950 and 960 characters. *)
Definition first_sentence : string := "Aaaa" +:+ times " aaaa" 189 +:+ ".".
Definition second_sentence : string := "Bbbb" +:+ times " bbbb" 191 +:+ ".".

Definition two_chunks : list chunk :=
  [ {| chunk_id := "D1_0"; chunk_doc_id := "D1"; chunk_body := "First." |};
    {| chunk_id := "D1_1"; chunk_doc_id := "D1"; chunk_body := "Second." |} ].

(** A service with a model. *)
Definition available : LLM.LLMService := {| LLM.model := Some tt |}.

Definition ten_results : ChunkSearchRequest :=
  {| search_query := "who was arrested?"; search_limit := 10 |}.

Definition a_question : ChatRequest :=
  {| chat_query := "who was arrested?"; chat_history := None |}.

(** The trace once the queries of [a_question] are planned, and once they
    are searched. *)
Definition planned_trace : trace :=
  snd (plan_chat prose_world available "who was arrested?" []).

Definition searched_trace : trace :=
  snd (retrieve_for_chat prose_world a_storage
         [PStr "The intent is general."]
         (planned_trace ++ [NewBigQueryClient "proj"])).

Definition d1_0 : hit :=
  {| hit_chunk_id := "D1_0"; hit_doc_id := "D1"; hit_filename := "case.pdf";
     hit_original_pdf_ipfs_path := "Qm1"; hit_text := "First." |}.

Definition an_author : User :=
  {| aptos_address := "0x1"; aptos_private_key := "0x2" |}.

(** The model answers with JSON that is not of the structure asked for: an
    object whose type is null and that has no search terms. *)
Definition null_type_text : string :=
  "{" +:+ dq +:+ "type" +:+ dq +:+ ": null}".

Definition null_type_intent : pyval := PDict [("type", PNone)].

(** [json.loads] at [null_type_text]. *)
Definition loads_null_type (s : string) : outcome pyval :=
  if String.eqb s null_type_text then Returns null_type_intent
  else Raises (JSONDecodeError "Expecting value").

Definition null_type_world : world :=
  world_of (model_says null_type_text) loads_null_type insert_ok query_nothing ipfs_ok.

End Scenario.

(* ===================================================================== *)
(** * The other endpoints of documents.py and the reads of crud/document.py *)
(* ===================================================================== *)

(** [fastapi.UploadFile]: the name and the bytes of the uploaded file. *)
Record UploadFile := mk_UploadFile {
  upload_filename : string;
  upload_content : string
}.

(** The user of a request: the fields of [app.models.user.User] the
    endpoints read besides those of [User]. *)
Record Account := mk_Account {
  account_id : Z;
  account_is_admin : bool;
  account_user : User
}.

(** [app.schemas.document.DocumentSearch] *)
Record DocumentSearch := mk_DocumentSearch {
  search_transaction_hash : option string;
  search_aptos_address : option string
}.

(** What the endpoints read documents with. The reads of the database
    session answer from the calls made so far and are not recorded in the
    trace. [DocumentResponse] is the model of pydantic: given the columns
    of a document (among them [created_at], which the database fills) and
    its parsed [extracted_data], it validates them and gives the response,
    of type [R], or raises. *)
Record site (R : Type) := mk_site {
  select_document : trace -> Z -> outcome (option Document);
  select_document_by_tx_hash : trace -> string -> outcome (option Document);
  select_documents_by_user : trace -> Z -> Z -> Z -> outcome (list Document);
  select_documents_by_aptos_address :
    trace -> string -> Z -> Z -> outcome (list Document);
  select_all_documents : trace -> Z -> Z -> outcome (list Document);
  DocumentResponse : Document -> pyval -> outcome R
}.
Arguments select_document {R} s.
Arguments select_document_by_tx_hash {R} s.
Arguments select_documents_by_user {R} s.
Arguments select_documents_by_aptos_address {R} s.
Arguments select_all_documents {R} s.
Arguments DocumentResponse {R} s.

Module Documents.
Import PyStr Py.

(** [s.endswith(suffix)] *)
Definition endswith (s suffix : string) : bool :=
  (String.length suffix <=? String.length s)%nat &&
  String.eqb (drop (String.length s - String.length suffix) s) suffix.

(** A read of the session: the trace stays as it is. *)
Definition read {A} (answer : trace -> outcome A) : M A :=
  fun t => (answer t, t).

Section WithSite.
Context {R : Type} (s : site R).

(** ** crud/document.py *)

(** [db.query(Document).filter(Document.id == document_id).first()] *)
Definition get_document (document_id : Z) : M (option Document) :=
  read (fun t => select_document s t document_id).

Definition get_document_by_tx_hash (tx_hash : string) : M (option Document) :=
  read (fun t => select_document_by_tx_hash s t tx_hash).

(** [skip] and [limit] default to 0 and 100. *)
Definition get_documents_by_user (user_id skip limit : Z) : M (list Document) :=
  read (fun t => select_documents_by_user s t user_id skip limit).

Definition get_documents_by_aptos_address (address : string) (skip limit : Z)
    : M (list Document) :=
  read (fun t => select_documents_by_aptos_address s t address skip limit).

Definition get_all_documents (skip limit : Z) : M (list Document) :=
  read (fun t => select_all_documents s t skip limit).

(** ** api/endpoints/documents.py *)

Definition HTTP_400_BAD_REQUEST : Z := 400.
Definition HTTP_403_FORBIDDEN : Z := 403.
Definition HTTP_404_NOT_FOUND : Z := 404.

(** [DocumentResponse(id=doc.id, ..., extracted_data=json.loads(doc.extracted_data), ...)] *)
Definition respond (w : world) (doc : Document) : M R :=
  let* extracted_data := lift (json_loads w (doc_extracted_data doc)) in
  lift (DocumentResponse s doc extracted_data).

(** [for doc in documents: documents_response.append(DocumentResponse(...))] *)
Definition respond_all (w : world) (documents : list Document) : M (list R) :=
  for_each documents
    (fun documents_response doc =>
       let* doc_response := respond w doc in
       ret (documents_response ++ [doc_response]))
    [].

Definition upload_document (w : world) (file : UploadFile) (current_user : Account)
    : M R :=
  if negb (endswith (upload_filename file) ".pdf") then
    raise (HTTPException HTTP_400_BAD_REQUEST "Only PDF files are supported")
  else
    let content := upload_content file in
    let* result :=
      Crud.create_document w (account_id current_user) (upload_filename file)
                           content (account_user current_user) in
    match result with
    | CreateFailed error =>
        raise (HTTPException Endpoints.HTTP_500_INTERNAL_SERVER_ERROR error)
    | Created document _ _ _ _ => respond w document
    end.

Definition get_my_documents (w : world) (skip limit : Z) (current_user : Account)
    : M (list R) :=
  let* documents := get_documents_by_user (account_id current_user) skip limit in
  respond_all w documents.

Definition get_document_by_id (w : world) (document_id : Z) (current_user : Account)
    : M R :=
  let* document := get_document document_id in
  match document with
  | None => raise (HTTPException HTTP_404_NOT_FOUND "Document not found")
  | Some document =>
      if negb (doc_user_id document =? account_id current_user)
         && negb (account_is_admin current_user)
      then raise (HTTPException HTTP_403_FORBIDDEN "Not enough permissions")
      else respond w document
  end.

(** The truth value of an optional string: [None] and [""] are false. *)
Definition given (o : option string) : option string :=
  match o with
  | Some x => if truthy x then Some x else None
  | None => None
  end.

Definition search_documents (w : world) (search : DocumentSearch)
    (current_user : Account) : M (list R) :=
  let* documents :=
    match given (search_transaction_hash search) with
    | Some tx_hash =>
        let* doc := get_document_by_tx_hash tx_hash in
        match doc with
        | Some doc => ret [doc]
        | None => ret []
        end
    | None =>
        match given (search_aptos_address search) with
        | Some address => get_documents_by_aptos_address address 0 100
        | None => ret []
        end
    end in
  respond_all w documents.

End WithSite.

End Documents.

(* ===================================================================== *)
(** * What a computation calls *)
(* ===================================================================== *)

Module Footprint.
Import Py.

(** Whether [m] returns or raises, the calls it adds to the trace are in
    the class [P]. *)
Definition only (P : event -> Prop) {A} (m : M A) : Prop :=
  forall t, exists o evs, m t = (o, t ++ evs) /\ Forall P evs.

(** [m] returns, and the calls it adds to the trace are in the class [P]. *)
Definition returns_only (P : event -> Prop) {A} (m : M A) : Prop :=
  forall t, exists a evs, m t = (Returns a, t ++ evs) /\ Forall P evs.

Definition no_call (ev : event) : Prop := False.

Definition model_call (ev : event) : Prop := Trace.is_model_call ev = true.

(** The call of [search_chunks] and the query it runs. *)
Definition search_call (ev : event) : Prop :=
  match ev with
  | SearchChunks _ _ | RunQuery _ _ _ => True
  | _ => False
  end.

(** The calls of the retrieval endpoints: the model, the client of the
    store and the searches. *)
Definition retrieval_call (ev : event) : Prop :=
  match ev with
  | GenerateContent _ | NewBigQueryClient _ | SearchChunks _ _ | RunQuery _ _ _ => True
  | _ => False
  end.

(** The calls of the index write. *)
Definition index_call (ev : event) : Prop :=
  match ev with
  | NewBigQueryClient _ | Uuid4 | InsertRowsJson _ _ => True
  | _ => False
  end.

(** The calls of an upload when BigQuery is not configured. *)
Definition upload_call (ev : event) : Prop :=
  match ev with
  | IpfsAddFile _ | IpfsPinAdd _ | PdfExtractText | AptosStoreJson _ _
  | DbAdd _ | DbCommit | DbRefresh => True
  | _ => False
  end.

(** The number of characters of [s] that [search_chunks] escapes. *)
Fixpoint count_special (s : string) : nat :=
  match s with
  | EmptyString => O
  | String c s' =>
      if Gateway.is_special c then S (count_special s') else count_special s'
  end.

(** Reading an escaped string: a backslash stands for the character after
    it. *)
Fixpoint unescape (s : string) : string :=
  match s with
  | EmptyString => EmptyString
  | String c s' =>
      if Ascii.eqb c Gateway.backslash then
        match s' with
        | String d s'' => String d (unescape s'')
        | EmptyString => EmptyString
        end
      else String c (unescape s')
  end.

(** The groups [generate_rag_prompt] makes of the chunks. *)
Definition cases_of (chunks : list TextChunk) : list (string * list TextChunk) :=
  fold_left LLM.group_add chunks [].

(** The chunks of a document, in order. *)
Definition chunks_of_doc (doc_id : string) (chunks : list TextChunk) : list TextChunk :=
  List.filter (fun c => String.eqb (tc_doc_id c) doc_id) chunks.

End Footprint.

(* ===================================================================== *)
(** * More worlds and inputs *)
(* ===================================================================== *)

Module MoreScenario.
Import PyStr Py Scenario.

(** No key for the model. *)
Definition keyless_env : environ :=
  {| GEMINI_API_KEY := "";
     BQ_PROJECT_ID := "proj";
     BQ_DATASET := "cases";
     BQ_TABLE := "chunks";
     BQ_CREDENTIALS_PATH := "credentials/key.json";
     GCS_BUCKET_NAME := "" |}.

(** BigQuery is not configured. *)
Definition unconfigured_env : environ :=
  {| GEMINI_API_KEY := "key";
     BQ_PROJECT_ID := "";
     BQ_DATASET := "";
     BQ_TABLE := "";
     BQ_CREDENTIALS_PATH := "credentials/key.json";
     GCS_BUCKET_NAME := "" |}.

(** [w] in another environment, with another store, PDF reader and
    commit. *)
Definition variant (w : world) (e : environ)
    (query : trace -> string -> string -> Z -> outcome (list hit))
    (pdf : trace -> string -> outcome string)
    (pin : trace -> string -> outcome unit)
    (commit : trace -> outcome unit) : world :=
  {| env := e;
     sent_tokenize := sent_tokenize w;
     json_loads := json_loads w;
     json_dumps := json_dumps w;
     str_exc := str_exc w;
     str_val := str_val w;
     extract_data := extract_data w;
     new_generative_model := new_generative_model w;
     generate_content := generate_content w;
     new_bigquery_client := new_bigquery_client w;
     insert_rows_json := insert_rows_json w;
     run_query := query;
     uuid4 := uuid4 w;
     ipfs_add_file := ipfs_add_file w;
     ipfs_pin_add := pin;
     pdf_extract_text := pdf;
     aptos_store_json := aptos_store_json w;
     db_add := db_add w;
     db_commit := commit;
     db_refresh := db_refresh w |}.

Definition hit_of (chunk_id doc text : string) : hit :=
  {| hit_chunk_id := chunk_id; hit_doc_id := doc; hit_filename := doc +:+ ".pdf";
     hit_original_pdf_ipfs_path := "Qm1"; hit_text := text |}.

(** The store finds three chunks, whatever the query. *)
Definition query_three (t : trace) (sql escaped : string) (limit : Z)
    : outcome (list hit) :=
  Returns [hit_of "D1_0" "D1" "First."; hit_of "D2_0" "D2" "Second.";
           hit_of "D1_1" "D1" "Third."].

Definition pdf_ok (t : trace) (content : string) : outcome string := Returns content.

Definition pdf_unreadable (t : trace) (content : string) : outcome string :=
  Raises (ExternalError "EOF marker not found").

Definition pin_ok (t : trace) (file_hash : string) : outcome unit := Returns tt.

Definition pin_fails (t : trace) (file_hash : string) : outcome unit :=
  Raises (ExternalError "500 Server Error").

Definition commit_ok (t : trace) : outcome unit := Returns tt.

Definition commit_fails (t : trace) : outcome unit :=
  Raises (ExternalError "database is locked").

(** The model answers in prose and the store finds three chunks. *)
Definition finding_world : world :=
  variant prose_world scenario_env query_three pdf_ok pin_ok commit_ok.

Definition keyless_world : world :=
  variant prose_world keyless_env query_three pdf_ok pin_ok commit_ok.

Definition unconfigured_world : world :=
  variant prose_world unconfigured_env query_nothing pdf_ok pin_ok commit_ok.

Definition unreadable_world : world :=
  variant prose_world scenario_env query_nothing pdf_unreadable pin_ok commit_ok.

Definition unpinned_world : world :=
  variant prose_world scenario_env query_nothing pdf_ok pin_fails commit_ok.

Definition uncommitted_world : world :=
  variant prose_world scenario_env query_nothing pdf_ok pin_ok commit_fails.

Definition two_results : ChunkSearchRequest :=
  {| search_query := "who was arrested?"; search_limit := 2 |}.

Definition three_text_chunks : list TextChunk :=
  map Endpoints.to_text_chunk
      [hit_of "D1_0" "D1" "First."; hit_of "D2_0" "D2" "Second.";
       hit_of "D1_1" "D1" "Third."].

(** A stored document of user 7. *)
Definition a_document : Document :=
  {| doc_id := Some 1;
     doc_filename := "case.pdf";
     doc_ipfs_hash := "Qm1";
     doc_transaction_hash := "0xabc";
     doc_user_id := 7;
     doc_aptos_address := "0x1";
     doc_extracted_data := "{}" |}.

(** A site with one document; a response is the document and its data. *)
Definition a_site : site (Document * pyval) :=
  {| select_document := fun _ i => Returns (if i =? 1 then Some a_document else None);
     select_document_by_tx_hash :=
       fun _ h => Returns (if String.eqb h "0xabc" then Some a_document else None);
     select_documents_by_user :=
       fun _ u _ _ => Returns (if u =? 7 then [a_document] else []);
     select_documents_by_aptos_address :=
       fun _ a _ _ => Returns (if String.eqb a "0x1" then [a_document] else []);
     select_all_documents := fun _ _ _ => Returns [a_document];
     DocumentResponse := fun d data => Returns (d, data) |}.

(** [json.loads("{}")] *)
Definition loads_empty_object (s : string) : outcome pyval :=
  if String.eqb s "{}" then Returns (PDict [])
  else Raises (JSONDecodeError "Expecting value").

Definition the_owner : Account :=
  {| account_id := 7; account_is_admin := false; account_user := an_author |}.

Definition a_stranger : Account :=
  {| account_id := 8; account_is_admin := false; account_user := an_author |}.

Definition a_picture : UploadFile :=
  {| upload_filename := "scan.png"; upload_content := "..." |}.

Definition a_pdf : UploadFile :=
  {| upload_filename := "case.pdf"; upload_content := "First. Second." |}.

(** The stored data of a document parse: [json.loads] knows the empty
    object. *)
Definition archive_world : world :=
  world_of (model_says "") loads_empty_object insert_ok query_nothing ipfs_ok.

Definition uncommitted_archive : world :=
  variant archive_world scenario_env query_nothing pdf_ok pin_ok commit_fails.

(** The data of the sentence splitter are missing. *)
Definition tokenizer_missing (text : string) : outcome (list string) :=
  Raises (ExternalError "Resource punkt not found.").

Definition tokenizer_missing_world : world :=
  {| env := scenario_env;
     sent_tokenize := tokenizer_missing;
     json_loads := json_loads prose_world;
     json_dumps := json_dumps prose_world;
     str_exc := str_exc prose_world;
     str_val := str_val prose_world;
     extract_data := extract_data prose_world;
     new_generative_model := new_generative_model prose_world;
     generate_content := generate_content prose_world;
     new_bigquery_client := new_bigquery_client prose_world;
     insert_rows_json := insert_rows_json prose_world;
     run_query := run_query prose_world;
     uuid4 := uuid4 prose_world;
     ipfs_add_file := ipfs_add_file prose_world;
     ipfs_pin_add := ipfs_pin_add prose_world;
     pdf_extract_text := pdf_extract_text prose_world;
     aptos_store_json := aptos_store_json prose_world;
     db_add := db_add prose_world;
     db_commit := db_commit prose_world;
     db_refresh := db_refresh prose_world |}.

(** The site [a_site] when the query by address fails. *)
Definition address_down_site : site (Document * pyval) :=
  {| select_document := select_document a_site;
     select_document_by_tx_hash := select_document_by_tx_hash a_site;
     select_documents_by_user := select_documents_by_user a_site;
     select_documents_by_aptos_address :=
       fun _ _ _ _ => Raises (ExternalError "database is locked");
     select_all_documents := select_all_documents a_site;
     DocumentResponse := DocumentResponse a_site |}.

(** A search by hash and by address at once. *)
Definition both_criteria : DocumentSearch :=
  {| search_transaction_hash := Some "0xabc"; search_aptos_address := Some "0x2" |}.

(** A search by address alone. *)
Definition by_address : DocumentSearch :=
  {| search_transaction_hash := None; search_aptos_address := Some "0x2" |}.

End MoreScenario.

(* ===================================================================== *)
(** * Invariants of the loops *)
(* ===================================================================== *)

Module Invariants.
Import PyStr Py Chunker Footprint.

(** [f"{doc_id}_{i}"] *)
Definition id_of (doc_id : string) (i : nat) : string := doc_id +:+ "_" +:+ of_nat i.

(** The chunks closed so far are numbered from 0 and the next number is
    their count. *)
Definition numbered (doc_id : string) (st : loop_state) : Prop :=
  next_id st = length (chunks st) /\
  map chunk_id (chunks st) = map (id_of doc_id) (seq 0 (length (chunks st))) /\
  Forall (fun c => chunk_doc_id c = doc_id) (chunks st).

(** Before the first sentence there is nothing; after it the buffer is not
    empty and the closed chunks are fewer than the sentences read. *)
Definition counted (k : nat) (st : loop_state) : Prop :=
  (k = O /\ chunks st = [] /\ current_chunk st = "") \/
  (truthy (current_chunk st) = true /\ (length (chunks st) + 1 <= k)%nat).

(** [s], followed by a blank, is a piece of [buf]. *)
Definition holds (buf s : string) : Prop :=
  exists pre post, buf = pre +:+ (s +:+ " ") +:+ post.

(** The sentence is in the buffer of a closed chunk or in the current one. *)
Definition kept (st : loop_state) (s : string) : Prop :=
  (exists c buf, In c (chunks st) /\ chunk_body c = strip buf /\ holds buf s) \/
  holds (current_chunk st) s.

Definition unavailable_message : string :=
  "LLM service is not available. Please set the GEMINI_API_KEY environment variable.".

(** The groups after the chunks [seen]: each key once, each group the
    chunks of its key, every chunk in a group. *)
Definition grouped (seen : list TextChunk) (cases : list (string * list TextChunk))
    : Prop :=
  List.NoDup (map fst cases) /\
  (forall d g, In (d, g) cases -> g <> [] /\ g = chunks_of_doc d seen) /\
  (forall c, In c seen -> In (tc_doc_id c) (map fst cases)).

(** The failure of an endpoint, if any, is an HTTP 500. *)
Definition http_500 {A} (o : outcome A) : Prop :=
  match o with
  | Returns _ => True
  | Raises e => exists detail, e = HTTPException Endpoints.HTTP_500_INTERNAL_SERVER_ERROR detail
  end.

(** The storage [new_storage] builds. *)
Definition the_storage (w : world) : storage :=
  storage_fields (BQ_PROJECT_ID (env w)) (BQ_DATASET (env w)) (BQ_TABLE (env w))
                 (GCS_BUCKET_NAME (env w)).

Definition llm_not_available : exn :=
  HTTPException Endpoints.HTTP_500_INTERNAL_SERVER_ERROR
    "LLM service not available. Please set the GEMINI_API_KEY environment variable.".

(** The four entries of the dict [process_pdf_for_bigquery] returns from
    its [try]. *)
Definition index_report (result : pydict) (success : bool) (doc_id : string)
    (chunks_count : Z) (error : pyval) : Prop :=
  dict_get result "success" = Some (PBool success) /\
  dict_get result "doc_id" = Some (PStr doc_id) /\
  dict_get result "chunks_count" = Some (PInt chunks_count) /\
  dict_get result "error" = Some error.

(** [{"success": True, "chunks_count": 0}], the index report of an upload
    that indexed nothing. *)
Definition nothing_indexed : pydict :=
  [("success", PBool true); ("chunks_count", PInt 0)].

(** The calls of the three steps before the record, when they succeed. *)
Definition steps_trace (w : world) (filename : string) (user : User)
    (ipfs_hash : string) (extracted_data : pyval) : trace :=
  [IpfsAddFile filename; IpfsPinAdd ipfs_hash; PdfExtractText;
   AptosStoreJson (aptos_address user) (json_dumps w extracted_data)].

(** [r] is the response built for the document [d]: its stored data parse
    and the response model accepts them. *)
Definition response_of {R} (s : site R) (w : world) (d : Document) (r : R) : Prop :=
  exists extracted_data,
    json_loads w (doc_extracted_data d) = Returns extracted_data /\
    DocumentResponse s d extracted_data = Returns r.

End Invariants.

(* ===================================================================== *)
(** * Facts about Python strings *)
(* ===================================================================== *)

Module PyStrFacts.
Import PyStr.

Lemma len_nonneg s : 0 <= len s.
Proof. unfold len. lia. Qed.

Lemma app_nil_l t : "" +:+ t = t.
Proof. reflexivity. Qed.

Lemma app_String c s t : String c s +:+ t = String c (s +:+ t).
Proof. reflexivity. Qed.

Lemma length_app s t :
  String.length (s +:+ t) = (String.length s + String.length t)%nat.
Proof.
  induction s as [|c s IH]; [reflexivity|].
  rewrite app_String. cbn [String.length]. rewrite IH. reflexivity.
Qed.

Lemma len_app s t : len (s +:+ t) = len s + len t.
Proof. unfold len. rewrite length_app. lia. Qed.

Lemma len_String c s : len (String c s) = 1 + len s.
Proof. unfold len. cbn [String.length]. lia. Qed.

Lemma len_lstrip s : len (lstrip s) <= len s.
Proof.
  induction s as [|c s IH]; simpl; [reflexivity|].
  destruct (isspace c); [rewrite len_String; lia | lia].
Qed.

Lemma len_rstrip s : len (rstrip s) <= len s.
Proof.
  induction s as [|c s IH]; simpl; [reflexivity|].
  destruct (rstrip s) as [|d r].
  - destruct (isspace c); rewrite !len_String in *; change (len "") with 0 in *; lia.
  - rewrite !len_String in *. lia.
Qed.

Lemma len_strip s : len (strip s) <= len s.
Proof.
  unfold strip. pose proof (len_lstrip (rstrip s)). pose proof (len_rstrip s). lia.
Qed.



Lemma len_drop n s : len (drop n s) = Z.max 0 (len s - Z.of_nat n).
Proof.
  revert s. induction n as [|n IH]; intros s.
  - simpl. pose proof (len_nonneg s). lia.
  - destruct s as [|c s]; simpl drop.
    + change (len "") with 0. lia.
    + rewrite IH, len_String. lia.
Qed.

Lemma truthy_false s : truthy s = false -> s = "".
Proof. destruct s; [reflexivity | discriminate]. Qed.

Lemma append_assoc s t u : (s +:+ t) +:+ u = s +:+ (t +:+ u).
Proof.
  induction s as [|c s IH]; [reflexivity|].
  rewrite !app_String, IH. reflexivity.
Qed.

Lemma drop_suffix (n : nat) (s : string) : exists pre, s = pre +:+ drop n s.
Proof.
  revert s. induction n as [|n IH]; intros s.
  - exists "". reflexivity.
  - destruct s as [|c s]; [exists ""; reflexivity|].
    destruct (IH s) as (pre & Hpre). exists (String c pre).
    rewrite app_String. cbn [drop]. now rewrite <- Hpre.
Qed.

End PyStrFacts.

(* ===================================================================== *)
(** * The chunker: the length of a chunk *)
(* ===================================================================== *)

Module ChunkerFacts.
Import PyStr PyStrFacts Chunker Properties.

Lemma len_overlap_text self cur :
  0 < chunk_overlap self -> len (overlap_text self cur) <= chunk_overlap self.
Proof.
  intros Hpos. unfold overlap_text.
  destruct (Z.ltb_spec (chunk_overlap self) (len cur)) as [Hlt|Hge]; [|lia].
  unfold slice_from.
  destruct (Z.ltb_spec (- chunk_overlap self) 0) as [_|?]; [|lia].
  rewrite len_drop. lia.
Qed.










End ChunkerFacts.

(* ===================================================================== *)
(** * C1: the length of the chunks *)
(* ===================================================================== *)

Module ChunkLength.
Import PyStr PyStrFacts Chunker ChunkerFacts Properties Scenario.




(** The scenario of the specification: three short sentences make one
    chunk, [D1_0]; no sentence, no chunk. *)
Example three_short_sentences :
  chunk_sentences a_storage ["The shop was robbed."; "Two men ran."; "Police came."] "D1"
    = [{| chunk_id := "D1_0"; chunk_doc_id := "D1";
          chunk_body := "The shop was robbed. Two men ran. Police came." |}].
Proof. reflexivity. Qed.

Example no_sentence (self : storage) (doc_id : string) :
  chunk_sentences self [] doc_id = [].
Proof. reflexivity. Qed.

End ChunkLength.

(* ===================================================================== *)
(** * C9: the escaped query *)
(* ===================================================================== *)

Module Escaping.
Import PyStr PyStrFacts Gateway Properties.

Lemma existsb_eqb_In (c : ascii) (set : list ascii) :
  existsb (Ascii.eqb c) set = true <-> In c set.
Proof.
  rewrite existsb_exists. split.
  - intros (x & Hx & Heq). apply Ascii.eqb_eq in Heq. now subst.
  - intros Hin. exists c. split; [assumption | apply Ascii.eqb_refl].
Qed.

Lemma existsb_eqb_app (c d : ascii) (set : list ascii) :
  existsb (Ascii.eqb c) (set ++ [d]) = existsb (Ascii.eqb c) set || Ascii.eqb c d.
Proof. rewrite existsb_app. simpl. now rewrite orb_false_r. Qed.

(** Replacing the backslash first doubles the backslashes. *)
Lemma escape_step_backslash (q : string) :
  escape_step q backslash = escape_each [backslash] q.
Proof.
  unfold escape_step. induction q as [|c q IH]; [reflexivity|].
  cbn [replace1 escape_each existsb]. rewrite orb_false_r.
  destruct (Ascii.eqb_spec c backslash) as [->|_]; rewrite IH; reflexivity.
Qed.

(** Replacing one more character, once the backslash is done, leaves the
    pairs made so far alone. *)
Lemma escape_step_next (set : list ascii) (d : ascii) (q : string) :
  In backslash set -> ~ In d set ->
  escape_step (escape_each set q) d = escape_each (set ++ [d]) q.
Proof.
  intros Hbs Hd. unfold escape_step.
  assert (Hne : Ascii.eqb backslash d = false).
  { apply Ascii.eqb_neq. intros Heq. subst d. contradiction. }
  induction q as [|c q IH]; [reflexivity|].
  cbn [escape_each]. rewrite existsb_eqb_app.
  destruct (existsb (Ascii.eqb c) set) eqn:Hc.
  - assert (Hcd : Ascii.eqb c d = false).
    { apply Ascii.eqb_neq. intros Heq. subst d. apply Hd. now apply existsb_eqb_In. }
    cbn [orb replace1]. change (Ascii.eqb "\" d) with (Ascii.eqb backslash d).
    rewrite Hne, Hcd, IH. reflexivity.
  - cbn [orb replace1].
    destruct (Ascii.eqb_spec c d) as [->|_]; rewrite IH; reflexivity.
Qed.

Lemma escape_fold (chars set : list ascii) (q : string) :
  In backslash set -> List.NoDup (set ++ chars) ->
  fold_left escape_step chars (escape_each set q) = escape_each (set ++ chars) q.
Proof.
  revert set. induction chars as [|d chars IH]; intros set Hbs Hnd.
  - now rewrite app_nil_r.
  - cbn [fold_left]. rewrite escape_step_next.
    + replace (set ++ d :: chars) with ((set ++ [d]) ++ chars) in *
        by now rewrite <- List.app_assoc.
      apply IH; [apply in_or_app; now left | assumption].
    + assumption.
    + apply NoDup_remove_2 in Hnd. intros Hin. apply Hnd.
      apply in_or_app. now left.
Qed.

Lemma special_chars_NoDup : List.NoDup special_chars.
Proof.
  unfold special_chars.
  repeat (constructor; [cbn; intros H; repeat (destruct H as [H|H]; [discriminate H|]); exact H|]).
  constructor.
Qed.

(** The loop of replacements escapes each special character once. *)
Lemma escape_query_each (q : string) :
  escape_query q = escape_each special_chars q.
Proof.
  change (escape_query q)
    with (fold_left escape_step (tail special_chars) (escape_step q backslash)).
  rewrite escape_step_backslash.
  rewrite (escape_fold (tail special_chars) [backslash]);
    [reflexivity | now left | exact special_chars_NoDup].
Qed.

Lemma escape_each_well_escaped (q : string) :
  well_escaped (escape_each special_chars q) = true.
Proof.
  induction q as [|c q IH]; [reflexivity|].
  cbn [escape_each]. fold (is_special c).
  destruct (is_special c) eqn:Hc.
  - cbn [well_escaped]. rewrite Ascii.eqb_refl, Hc, IH. reflexivity.
  - cbn [well_escaped].
    destruct (Ascii.eqb_spec c "\"%char) as [->|_]; [discriminate Hc|].
    rewrite Hc, IH. reflexivity.
Qed.

(** C9: for every query string, the escaped string [search_chunks] hands
    to the store has no unescaped special character: read from left to
    right it is made of characters outside the special set and of pairs of
    a backslash and the special character it escapes. *)
Theorem escape_query_well_escaped (q : string) :
  well_escaped (escape_query q) = true.
Proof. rewrite escape_query_each. apply escape_each_well_escaped. Qed.

(** The string [search_chunks] runs the query with is the escaped one. *)
Lemma search_chunks_runs_escaped (w : world) (self : storage) (q : string) (limit : Z)
    (t : trace) :
  snd (search_chunks w self (PStr q) limit t)
    = t ++ [SearchChunks (PStr q) limit;
            RunQuery (query_str self) (escape_query q) limit].
Proof.
  unfold search_chunks, Py.bind, Py.log, Py.try_except, Py.lift, Py.call, Py.ret.
  cbn [as_str]. destruct (run_query w _ _ _ _); cbn [snd];
    now rewrite <- List.app_assoc.
Qed.

Example unescaped_parenthesis : well_escaped "what about (theft)?" = false.
Proof. reflexivity. Qed.

Example escape_query_theft :
  escape_query "what about (theft)?" = "what about \(theft\)\?".
Proof. reflexivity. Qed.

End Escaping.

(* ===================================================================== *)
(** * C8: a failed search gives no results *)
(* ===================================================================== *)

Module SearchFailure.
Import PyStr Py Gateway Scenario.

(** [search_chunks] returns whatever happens in its [try] block. *)
Lemma search_chunks_returns (w : world) (self : storage) (query : pyval) (limit : Z)
    (t : trace) :
  exists hits t', search_chunks w self query limit t = (Returns hits, t').
Proof.
  unfold search_chunks, bind, log, try_except, lift, call, ret.
  destruct (as_str query) as [q|e]; [|eauto].
  destruct (run_query w _ _ _ _) as [hits|e]; eauto.
Qed.

(** C8: for every query and limit, when the search fails inside
    [search_chunks] (the query has no [replace] method, or running the
    query against the store raises) the gateway returns the empty list
    and raises nothing. *)
Theorem search_chunks_error_gives_empty (w : world) (self : storage)
    (query : pyval) (limit : Z) (t : trace) :
  (exists e, as_str query = Raises e) \/
  (exists q e, query = PStr q /\
     run_query w (t ++ [SearchChunks query limit]) (query_str self)
               (escape_query q) limit = Raises e) ->
  fst (search_chunks w self query limit t) = Returns [].
Proof.
  intros [(e & He) | (q & e & Hq & He)];
    unfold search_chunks, bind, log, try_except, lift, call, ret.
  - rewrite He. reflexivity.
  - subst query. cbn [as_str]. rewrite He. reflexivity.
Qed.

Lemma search_chunks_error_gives_empty_witness :
  fst (search_chunks
         Scenario.store_down_world
         Scenario.a_storage (PStr "what about (theft)?") 10 []) = Returns [].
Proof.
  apply search_chunks_error_gives_empty.
  right. exists "what about (theft)?", (ExternalError "503 Service Unavailable").
  split; reflexivity.
Defined.

End SearchFailure.

(* ===================================================================== *)
(** * C3: the result of an index write *)
(* ===================================================================== *)

Module IndexWrite.
Import PyStr Py Gateway Scenario.

(** C3, as stated, fails: when the store reports a row error the result
    has the keys [success] and [error] only; it does not say how many rows
    were attempted. *)
Lemma store_chunks_failure_has_no_count :
  exists result,
    fst (store_chunks_in_bigquery rejecting_world a_storage two_chunks (PDict [])
                                  "case.pdf" "Qm1" []) = Returns result /\
    result = [("success", PBool false);
              ("error", PStr "BigQuery insert errors: [...]")] /\
    dict_get result "chunks_count" = None.
Proof. eexists. repeat split. Qed.

(** C3, amended: for every batch of chunks, when the store answers the
    insert with a list [errors] of row errors, then if the list is not
    empty the gateway returns a failure whose [error] carries the store's
    list and which has no [chunks_count], and if the list is empty it
    returns success with [chunks_count] the number of chunks submitted. *)
Theorem store_chunks_result (w : world) (self : storage) (chunks : list chunk)
    (metadata : pyval) (filename ipfs_path : string) (t : trace)
    (errors : list pyval) :
  insert_rows_json w t (bq_table self)
    (rows_of_chunks w self chunks metadata filename ipfs_path) = Returns errors ->
  exists result,
    fst (store_chunks_in_bigquery w self chunks metadata filename ipfs_path t)
      = Returns result /\
    match errors with
    | [] =>
        dict_get result "success" = Some (PBool true) /\
        dict_get result "chunks_count" = Some (PInt (Z.of_nat (length chunks)))
    | _ :: _ =>
        dict_get result "success" = Some (PBool false) /\
        dict_get result "error" =
          Some (PStr ("BigQuery insert errors: " +:+ str_val w (PList errors))) /\
        dict_get result "chunks_count" = None
    end.
Proof.
  intros Hins.
  unfold store_chunks_in_bigquery, bind, try_except, call, ret.
  rewrite Hins.
  destruct errors as [|e es]; cbn [truth].
  - eexists. split; [reflexivity|]. unfold rows_of_chunks. rewrite length_map.
    split; reflexivity.
  - eexists. split; [reflexivity|]. repeat split; reflexivity.
Qed.

Lemma store_chunks_result_witness :
  exists result,
    fst (store_chunks_in_bigquery rejecting_world Scenario.a_storage
           two_chunks (PDict []) "case.pdf" "Qm1" []) = Returns result /\
    dict_get result "success" = Some (PBool false) /\
    dict_get result "error" =
      Some (PStr ("BigQuery insert errors: " +:+ str_val rejecting_world (PList [row_error]))) /\
    dict_get result "chunks_count" = None.
Proof.
  apply (store_chunks_result rejecting_world Scenario.a_storage two_chunks
           (PDict []) "case.pdf" "Qm1" [] [row_error]).
  reflexivity.
Defined.

End IndexWrite.

(* ===================================================================== *)
(** * Running effectful code *)
(* ===================================================================== *)

Module MonadFacts.
Import Py.

Lemma bind_returns {A B} (m : M A) (k : A -> M B) (t t' : trace) (a : A) :
  m t = (Returns a, t') -> bind m k t = k a t'.
Proof. intros H. unfold bind. now rewrite H. Qed.

Lemma bind_raises {A B} (m : M A) (k : A -> M B) (t t' : trace) (e : exn) :
  m t = (Raises e, t') -> bind m k t = (Raises e, t').
Proof. intros H. unfold bind. now rewrite H. Qed.

Lemma try_returns {A} (body : M A) (handler : exn -> M A) (t t' : trace) (a : A) :
  body t = (Returns a, t') -> try_except body handler t = (Returns a, t').
Proof. intros H. unfold try_except. now rewrite H. Qed.

Lemma try_raises {A} (body : M A) (handler : exn -> M A) (t t' : trace) (e : exn) :
  body t = (Raises e, t') -> try_except body handler t = handler e t'.
Proof. intros H. unfold try_except. now rewrite H. Qed.

Lemma lift_run {A} (o : outcome A) (t : trace) : lift o t = (o, t).
Proof. reflexivity. Qed.

Lemma ret_run {A} (a : A) (t : trace) : ret a t = (Returns a, t).
Proof. reflexivity. Qed.

End MonadFacts.

(* ===================================================================== *)
(** * Traces of the gateway *)
(* ===================================================================== *)

Module TraceFacts.
Import PyStr Py Trace.

Lemma model_calls_app (t u : trace) :
  model_calls (t ++ u) = (model_calls t + model_calls u)%nat.
Proof. unfold model_calls. now rewrite List.filter_app, length_app. Qed.

Lemma search_calls_app (t u : trace) :
  search_calls (t ++ u) = search_calls t ++ search_calls u.
Proof. unfold search_calls. apply flat_map_app. Qed.

(** What [search_chunks] adds to the trace: its own call, and the query
    it runs when the query is a string. *)
Lemma search_chunks_trace (w : world) (self : storage) (query : pyval) (limit : Z)
    (t : trace) :
  exists hits evs,
    Gateway.search_chunks w self query limit t
      = (Returns hits, t ++ SearchChunks query limit :: evs) /\
    model_calls evs = 0%nat /\ search_calls evs = [].
Proof.
  unfold Gateway.search_chunks, bind, log, try_except, lift, call, ret.
  destruct (Gateway.as_str query) as [q|e].
  - destruct (run_query w _ _ _ _) as [hits|e];
      eexists; exists [RunQuery (Gateway.query_str self) (Gateway.escape_query q) limit];
      rewrite <- List.app_assoc; repeat split; reflexivity.
  - exists [], []. repeat split; reflexivity.
Qed.

(** The loop over the queries calls [search_chunks] once for each query,
    in order, with the limit of the loop, and never calls the model. *)
Lemma search_loop_trace (w : world) (self : storage) (limit : Z)
    (qs : list pyval) (acc : Endpoints.merged) (t : trace) :
  exists acc' evs,
    for_each qs (Endpoints.search_and_merge w self limit) acc t
      = (Returns acc', t ++ evs) /\
    model_calls evs = 0%nat /\
    search_calls evs = map (fun q => (q, limit)) qs.
Proof.
  revert acc t. induction qs as [|q qs IH]; intros acc t.
  - exists acc, []. cbn. rewrite app_nil_r. repeat split; reflexivity.
  - cbn [for_each]. unfold bind at 1. unfold Endpoints.search_and_merge at 1.
    unfold bind at 1.
    destruct (search_chunks_trace w self q limit t) as (hits & evs & Hrun & Hm & Hs).
    rewrite Hrun. unfold ret at 1.
    destruct (IH (fold_left Endpoints.add_unseen hits acc)
                 (t ++ SearchChunks q limit :: evs)) as (acc' & evs' & Hrest & Hm' & Hs').
    rewrite Hrest. exists acc', (SearchChunks q limit :: evs ++ evs').
    split; [now rewrite <- List.app_assoc|].
    change (SearchChunks q limit :: evs ++ evs')
      with ([SearchChunks q limit] ++ evs ++ evs').
    rewrite !model_calls_app, !search_calls_app, Hm, Hm', Hs, Hs'.
    split; reflexivity.
Qed.

End TraceFacts.

(* ===================================================================== *)
(** * Runs of the generative model *)
(* ===================================================================== *)

Module LLMFacts.
Import PyStr Py LLM Trace MonadFacts Properties.

Lemma model_only_nil : model_only [].
Proof. constructor. Qed.

Lemma model_only_one (prompt : string) : model_only [GenerateContent prompt].
Proof. repeat constructor. Qed.

Lemma model_only_app (evs evs' : trace) :
  model_only evs -> model_only evs' -> model_only (evs ++ evs').
Proof. intros H H'. apply Forall_app. now split. Qed.

Lemma model_only_search_calls (evs : trace) : model_only evs -> search_calls evs = [].
Proof.
  induction 1 as [|ev evs Hev _ IH]; [reflexivity|].
  destruct ev; try discriminate Hev. exact IH.
Qed.

Create HintDb model.
#[export] Hint Resolve model_only_nil model_only_one model_only_app : model.

(** The classifier returns: the fallback, or the JSON value of the answer
    when that value has a [type]. *)
Lemma analyze_query_intent_run (w : world) (self : LLMService) (query : string)
    (t : trace) :
  exists intent ty evs,
    analyze_query_intent w self query t = (Returns intent, t ++ evs) /\
    model_only evs /\
    getitem intent "type" = Returns ty /\
    ((intent = general_intent query /\ ty = PStr "general") \/
     (is_available self = true /\
      exists text,
        generate_content w t (intent_prompt query) = Returns text /\
        json_loads w (strip text) = Returns intent)).
Proof.
  unfold analyze_query_intent.
  destruct (is_available self) eqn:Hav; cbn [negb].
  2: { exists (general_intent query), (PStr "general"), [].
       rewrite app_nil_r. repeat split; auto with model. }
  unfold try_except, bind, generate, call, lift, ret.
  destruct (generate_content w t (intent_prompt query)) as [text|e] eqn:Hgen.
  2: { exists (general_intent query), (PStr "general"), [GenerateContent (intent_prompt query)].
       repeat split; auto with model. }
  destruct (json_loads w (strip text)) as [v|e] eqn:Hloads.
  - destruct (getitem v "type") as [ty|e] eqn:Hty.
    + exists v, ty, [GenerateContent (intent_prompt query)].
      repeat split; eauto with model.
    + exists (general_intent query), (PStr "general"), [GenerateContent (intent_prompt query)].
      destruct e; repeat split; auto with model.
  - exists (general_intent query), (PStr "general"), [GenerateContent (intent_prompt query)].
    destruct e; repeat split; auto with model.
Qed.

Lemma generate_run (w : world) (prompt : string) (t : trace) :
  generate w prompt t = (generate_content w t prompt, t ++ [GenerateContent prompt]).
Proof. reflexivity. Qed.

(** The expander of a single query returns a string. *)
Lemma enhance_search_query_run (w : world) (self : LLMService) (query : string)
    (t : trace) :
  exists enhanced evs,
    enhance_search_query w self query t = (Returns enhanced, t ++ evs) /\
    model_only evs.
Proof.
  unfold enhance_search_query.
  destruct (is_available self); cbn [negb].
  2: { exists query, []. rewrite app_nil_r. split; auto with model. }
  destruct (analyze_query_intent_run w self query t)
    as (intent & ty & evs & Hrun & Hevs & Hty & _).
  assert (Hprompt : exists prompt,
    (if eq_str ty "comparison" then ret (comparison_keywords_prompt query)
     else let* ty' := lift (getitem intent "type") in
          if eq_str ty' "pattern" then ret (pattern_keywords_prompt query)
          else ret (default_keywords_prompt query)) (t ++ evs)
    = (Returns prompt, t ++ evs)).
  { destruct (eq_str ty "comparison"); [eexists; reflexivity|].
    unfold bind, lift. rewrite Hty.
    destruct (eq_str ty "pattern"); eexists; reflexivity. }
  destruct Hprompt as (prompt & Hprompt).
  destruct (generate_content w (t ++ evs) prompt) as [text|e] eqn:Hgen.
  - exists (strip text), (evs ++ [GenerateContent prompt]).
    split; [|auto with model].
    apply try_returns.
    rewrite (bind_returns _ _ _ _ _ Hrun).
    rewrite (bind_returns _ _ (t ++ evs) (t ++ evs) ty) by (now rewrite lift_run, Hty).
    rewrite (bind_returns _ _ _ _ _ Hprompt).
    unfold bind. rewrite generate_run, Hgen, List.app_assoc. reflexivity.
  - exists query, (evs ++ [GenerateContent prompt]).
    split; [|auto with model].
    erewrite try_raises; [reflexivity|].
    rewrite (bind_returns _ _ _ _ _ Hrun).
    rewrite (bind_returns _ _ (t ++ evs) (t ++ evs) ty) by (now rewrite lift_run, Hty).
    rewrite (bind_returns _ _ _ _ _ Hprompt).
    unfold bind. rewrite generate_run, Hgen, List.app_assoc. reflexivity.
Qed.

(** The expander of several queries returns at least one query. *)
Lemma generate_multi_query_run (w : world) (self : LLMService) (query : string)
    (t : trace) :
  exists q qs evs,
    generate_multi_query w self query t = (Returns (q :: qs), t ++ evs) /\
    model_only evs.
Proof.
  unfold generate_multi_query.
  destruct (is_available self); cbn [negb].
  2: { exists (PStr query), [], []. rewrite app_nil_r. split; auto with model. }
  unfold try_except, bind, lift, ret. rewrite generate_run.
  destruct (generate_content w t (multi_query_prompt query)) as [text|e].
  2: { exists (PStr query), [], [GenerateContent (multi_query_prompt query)].
       split; auto with model. }
  destruct (json_loads w (strip text)) as [v|e].
  - destruct v as [| | | | |[|q qs]|];
      try (exists (PStr query), [], [GenerateContent (multi_query_prompt query)];
           split; [reflexivity | auto with model]).
    exists q, qs, [GenerateContent (multi_query_prompt query)].
    split; [reflexivity | auto with model].
  - exists (PStr query), [], [GenerateContent (multi_query_prompt query)].
    destruct e; split; auto with model.
Qed.

(** Building the service calls nothing. *)
Lemma init_run (w : world) (t : trace) :
  exists llm_service, init w t = (Returns llm_service, t).
Proof.
  unfold init. destruct (negb _); [eexists; reflexivity|].
  unfold try_except, bind, lift, ret.
  destruct (new_generative_model w); eexists; reflexivity.
Qed.

End LLMFacts.

(* ===================================================================== *)
(** * C4 and C6: the intent of a query *)
(* ===================================================================== *)

Module Intent.
Import PyStr Py LLM Scenario.

(** C4, as stated, fails: the JSON object of the model is returned as it
    is, here with the category [summary]. *)
Lemma analyze_query_intent_category_outside_set :
  fst (analyze_query_intent summary_world available "summarise the theft cases" [])
    = Returns summary_intent /\
  getitem summary_intent "type" = Returns (PStr "summary") /\
  in_strs (PStr "summary") intent_categories = false.
Proof. repeat split; reflexivity. Qed.

(** C4, amended: for every query the classifier returns an intent that has
    a [type]; the intent is the fallback, of category [general], or it is
    the JSON value of the model's answer, whose [type] is whatever the
    model wrote: it is not checked against the six categories. *)
Theorem analyze_query_intent_category (w : world) (self : LLMService)
    (query : string) (t : trace) :
  exists intent ty,
    fst (analyze_query_intent w self query t) = Returns intent /\
    getitem intent "type" = Returns ty /\
    ((intent = general_intent query /\ ty = PStr "general") \/
     (is_available self = true /\
      exists text,
        generate_content w t (intent_prompt query) = Returns text /\
        json_loads w (strip text) = Returns intent)).
Proof.
  destruct (LLMFacts.analyze_query_intent_run w self query t)
    as (intent & ty & evs & Hrun & _ & Hty & Hcases).
  exists intent, ty. rewrite Hrun. auto.
Qed.

(** C6, as stated, fails: an answer of the model that is JSON but not of
    the structure asked for, here an object whose [type] is null and that
    has no [search_terms], is returned as it is; the classifier does not
    fall back. *)
Lemma analyze_query_intent_keeps_unexpected_json :
  fst (analyze_query_intent null_type_world available "who was arrested?" [])
    = Returns null_type_intent /\
  null_type_intent <> general_intent "who was arrested?" /\
  getitem null_type_intent "type" = Returns PNone /\
  in_strs PNone intent_categories = false /\
  getitem null_type_intent "search_terms" = Raises (KeyError "search_terms").
Proof. repeat split; try reflexivity. discriminate. Qed.

(** C6, amended: the classifier never raises. For every query, when the
    model is unavailable, when calling it raises, when its answer is not
    JSON, or when the JSON value is not an object with a [type], it
    returns [{"type": "general", "search_terms": query}]. In the one case
    left, a JSON value that has a [type], it returns this value as it is,
    whatever the [type] and the other entries are: the structure asked
    for is not checked any further. *)
Theorem analyze_query_intent_falls_back (w : world) (self : LLMService)
    (query : string) (t : trace) :
  (is_available self = false \/
   (exists e, generate_content w t (intent_prompt query) = Raises e) \/
   (exists text e,
      generate_content w t (intent_prompt query) = Returns text /\
      json_loads w (strip text) = Raises e) \/
   (exists text v e,
      generate_content w t (intent_prompt query) = Returns text /\
      json_loads w (strip text) = Returns v /\
      getitem v "type" = Raises e) ->
   fst (analyze_query_intent w self query t) = Returns (general_intent query)) /\
  (forall text v ty,
     is_available self = true ->
     generate_content w t (intent_prompt query) = Returns text ->
     json_loads w (strip text) = Returns v ->
     getitem v "type" = Returns ty ->
     fst (analyze_query_intent w self query t) = Returns v) /\
  (exists intent, fst (analyze_query_intent w self query t) = Returns intent).
Proof.
  split; [|split].
  - unfold analyze_query_intent.
    intros [Hav | Hmodel].
    { rewrite Hav. reflexivity. }
    destruct (is_available self); [cbn [negb] | reflexivity].
    unfold try_except, bind, generate, call, lift, ret.
    destruct Hmodel as [(e & Hgen) | [(text & e & Hgen & Hloads)
                                     | (text & v & e & Hgen & Hloads & Hty)]];
      rewrite Hgen; [reflexivity | rewrite Hloads | rewrite Hloads, Hty];
      destruct e; reflexivity.
  - intros text v ty Hav Hgen Hloads Hty.
    unfold analyze_query_intent. rewrite Hav. cbn [negb].
    unfold try_except, bind, generate, call, lift, ret.
    now rewrite Hgen, Hloads, Hty.
  - destruct (LLMFacts.analyze_query_intent_run w self query t)
      as (intent & ty & evs & Hrun & _).
    exists intent. now rewrite Hrun.
Qed.

Lemma analyze_query_intent_falls_back_witness :
  fst (analyze_query_intent prose_world available "who was arrested?" [])
    = Returns (general_intent "who was arrested?").
Proof.
  apply (proj1 (analyze_query_intent_falls_back prose_world available
                  "who was arrested?" [])).
  right. right. left.
  exists "The intent is general.", (JSONDecodeError "Expecting value").
  split; reflexivity.
Defined.

(** The same through the other two ways. *)
Example analyze_query_intent_unavailable (w : world) (query : string) (t : trace) :
  analyze_query_intent w {| model := None |} query t
    = (Returns (general_intent query), t).
Proof. reflexivity. Qed.

Example analyze_query_intent_json_array :
  fst (analyze_query_intent
         (Scenario.world_of (Scenario.model_says "[]") (fun _ => Returns (PList []))
                            Scenario.insert_ok Scenario.query_nothing Scenario.ipfs_ok)
         available "who was arrested?" [])
    = Returns (general_intent "who was arrested?").
Proof. reflexivity. Qed.

End Intent.

(* ===================================================================== *)
(** * C2: the limit of each search *)
(* ===================================================================== *)

Module SearchLimits.
Import PyStr Py Trace MonadFacts TraceFacts LLMFacts Endpoints Properties Scenario.

Lemma plan_search_run (w : world) (llm_service : LLM.LLMService) (query : string)
    (t : trace) :
  exists p evs,
    plan_search w llm_service query t = (Returns p, t ++ evs) /\
    model_only evs /\ plan_shape llm_service query p.
Proof.
  unfold plan_search, plan_shape.
  destruct (LLM.is_available llm_service); cbn [negb].
  2: { exists (OnlyEnhancedQuery query), []. rewrite app_nil_r.
       repeat split; auto with model. }
  destruct (analyze_query_intent_run w llm_service query t)
    as (intent & ty & evs & Hrun & Hevs & Hty & _).
  rewrite (bind_returns _ _ _ _ _ Hrun).
  rewrite (bind_returns _ _ (t ++ evs) (t ++ evs) ty) by (now rewrite lift_run, Hty).
  rewrite (bind_returns _ _ (t ++ evs) (t ++ evs) ty) by (now rewrite lift_run, Hty).
  destruct (in_strs ty complex_intents).
  - destruct (generate_multi_query_run w llm_service query (t ++ evs))
      as (q & qs & evs' & Hmulti & Hevs').
    rewrite (bind_returns _ _ _ _ _ Hmulti).
    exists (SearchQueries (q :: qs)), (evs ++ evs').
    rewrite List.app_assoc. repeat split; eauto with model.
  - destruct (enhance_search_query_run w llm_service query (t ++ evs))
      as (enhanced & evs' & Henh & Hevs').
    rewrite (bind_returns _ _ _ _ _ Henh).
    exists (SearchQueries [PStr enhanced]), (evs ++ evs').
    rewrite List.app_assoc. repeat split; eauto with model.
Qed.

Lemma run_planned_trace (w : world) (bq_storage : storage) (limit : Z) (p : planned)
    (t : trace) :
  exists all_chunks evs,
    run_planned w bq_storage limit p t = (Returns all_chunks, t ++ evs) /\
    model_calls evs = 0%nat /\
    search_calls evs = planned_searches limit p.
Proof.
  destruct p as [enhanced_query | search_queries]; cbn [run_planned planned_searches].
  - destruct (search_chunks_trace w bq_storage (PStr enhanced_query) limit t)
      as (hits & evs & Hrun & Hm & Hs).
    exists hits, (SearchChunks (PStr enhanced_query) limit :: evs).
    split; [exact Hrun|].
    change (SearchChunks (PStr enhanced_query) limit :: evs)
      with ([SearchChunks (PStr enhanced_query) limit] ++ evs).
    rewrite model_calls_app, search_calls_app, Hm, Hs. split; reflexivity.
  - destruct (search_loop_trace w bq_storage
                (limit / Z.of_nat (length search_queries) + 1) search_queries ([], ∅) t)
      as (acc & evs & Hrun & Hm & Hs).
    rewrite (bind_returns _ _ _ _ _ Hrun).
    exists (fst acc), evs. repeat split; assumption.
Qed.

(** C2, as stated, fails: with a model, a query of intent [general] is
    expanded into one enhanced query, and that only query is searched with
    the limit 10 // 1 + 1, not with the limit 10 of the request. *)
Lemma single_enhanced_query_gets_limit_plus_one :
  search_calls (snd (search_document_chunks Scenario.prose_world ten_results []))
    = [(PStr "The intent is general.", 11)].
Proof. vm_compute. reflexivity. Qed.

(** C2, amended: in [search_document_chunks], with BigQuery configured and
    its client at hand, the searches made are those of the plan: without a
    model the one search of the request's query has the limit of the
    request; with a model the plan has [n >= 1] queries and each of them,
    also the only one when [n = 1], is searched with
    [floor(limit / n) + 1]. *)
Theorem search_document_chunks_limits (w : world) (search_request : ChunkSearchRequest)
    (t : trace) :
  bigquery_configured w = true ->
  (forall t', new_bigquery_client w t' (BQ_PROJECT_ID (env w)) = Returns tt) ->
  exists llm_service p,
    fst (LLM.init w t) = Returns llm_service /\
    fst (plan_search w llm_service (search_query search_request) t) = Returns p /\
    plan_shape llm_service (search_query search_request) p /\
    search_calls (snd (search_document_chunks w search_request t))
      = search_calls t ++ planned_searches (search_limit search_request) p.
Proof.
  intros Hcfg Hclient.
  destruct (init_run w t) as (llm_service & Hinit).
  destruct (plan_search_run w llm_service (search_query search_request) t)
    as (p & evs & Hplan & Hevs & Hshape).
  set (st := storage_fields (BQ_PROJECT_ID (env w)) (BQ_DATASET (env w))
                            (BQ_TABLE (env w)) (GCS_BUCKET_NAME (env w))).
  set (ev := NewBigQueryClient (BQ_PROJECT_ID (env w))).
  assert (Hst : new_storage w (t ++ evs) = (Returns st, (t ++ evs) ++ [ev])).
  { unfold new_storage, Gateway.init, bind, call. rewrite Hclient. reflexivity. }
  destruct (run_planned_trace w st (search_limit search_request) p ((t ++ evs) ++ [ev]))
    as (all_chunks & evs' & Hrun & _ & Hs).
  exists llm_service, p. rewrite Hinit, Hplan.
  repeat split; [assumption|].
  unfold search_document_chunks. rewrite Hcfg. cbn [negb].
  erewrite try_returns.
  2: { rewrite (bind_returns _ _ _ _ _ Hinit).
       rewrite (bind_returns _ _ _ _ _ Hplan).
       rewrite (bind_returns _ _ _ _ _ Hst).
       rewrite (bind_returns _ _ _ _ _ Hrun).
       apply ret_run. }
  cbn [snd]. rewrite !search_calls_app, Hs.
  rewrite (model_only_search_calls evs Hevs). cbn [search_calls flat_map ev].
  rewrite !app_nil_r. reflexivity.
Qed.

Lemma search_document_chunks_limits_witness :
  exists llm_service p,
    fst (LLM.init Scenario.prose_world []) = Returns llm_service /\
    fst (plan_search Scenario.prose_world llm_service "who was arrested?" []) = Returns p /\
    plan_shape llm_service "who was arrested?" p /\
    search_calls (snd (search_document_chunks Scenario.prose_world ten_results []))
      = [] ++ planned_searches 10 p.
Proof.
  apply (search_document_chunks_limits Scenario.prose_world ten_results []).
  - reflexivity.
  - intros t'. reflexivity.
Defined.

End SearchLimits.

(* ===================================================================== *)
(** * C5: an answer without chunks *)
(* ===================================================================== *)

Module ShortCircuit.
Import PyStr Py Trace MonadFacts TraceFacts LLMFacts Endpoints Properties Scenario.

(** C5, as stated, fails for the synthesizer [generate_response]: given no
    chunks it classifies the query and asks the model for an answer, two
    calls of the model, and returns the text of the model. *)
Lemma generate_response_without_chunks_calls_model :
  let run := LLM.generate_response Scenario.prose_world Scenario.available
                                   "who was arrested?" [] None [] in
  fst run = Returns "The intent is general." /\
  fst run <> Returns no_information /\
  model_calls (snd run) = 2%nat.
Proof. vm_compute. repeat split. discriminate. Qed.

Lemma new_storage_trace (w : world) (t t' : trace) (bq_storage : storage) :
  new_storage w t = (Returns bq_storage, t') -> model_calls t' = model_calls t.
Proof.
  unfold new_storage, Gateway.init, bind, call, ret.
  destruct (new_bigquery_client w t _); intros [= _ <-];
    rewrite model_calls_app; cbn; lia.
Qed.

Lemma retrieve_for_chat_trace (w : world) (bq_storage : storage) (qs : list pyval)
    (t t' : trace) (all_chunks : list hit) :
  retrieve_for_chat w bq_storage qs t = (Returns all_chunks, t') ->
  model_calls t' = model_calls t.
Proof.
  unfold retrieve_for_chat.
  destruct (search_loop_trace w bq_storage 3 qs ([], ∅) t) as (acc & evs & Hrun & Hm & _).
  rewrite (bind_returns _ _ _ _ _ Hrun), ret_run. intros [= _ <-].
  rewrite model_calls_app, Hm. lia.
Qed.

(** C5, amended: the short circuit is in [chat_with_documents]. For every
    request, when the searches of the planned queries retrieve no chunk,
    the endpoint answers with the fixed message and no chunks, and it
    calls the model no more: the calls of the model are those made to plan
    the queries, before the retrieval. *)
Theorem chat_with_documents_short_circuit (w : world) (chat_request : ChatRequest)
    (t t1 t2 t3 : trace) (llm_service : LLM.LLMService) (search_queries : list pyval)
    (bq_storage : storage) :
  bigquery_configured w = true ->
  LLM.init w t = (Returns llm_service, t) ->
  LLM.is_available llm_service = true ->
  plan_chat w llm_service (chat_query chat_request) t = (Returns search_queries, t1) ->
  new_storage w t1 = (Returns bq_storage, t2) ->
  retrieve_for_chat w bq_storage search_queries t2 = (Returns [], t3) ->
  chat_with_documents w chat_request t
    = (Returns {| answer := no_information; response_chunks := [] |}, t3) /\
  model_calls t3 = model_calls t1.
Proof.
  intros Hcfg Hinit Hav Hplan Hst Hret. split.
  - unfold chat_with_documents. rewrite Hcfg. cbn [negb].
    apply try_returns.
    rewrite (bind_returns _ _ _ _ _ Hinit), Hav. cbn [negb].
    rewrite (bind_returns _ _ _ _ _ Hplan).
    rewrite (bind_returns _ _ _ _ _ Hst).
    rewrite (bind_returns _ _ _ _ _ Hret).
    reflexivity.
  - rewrite (retrieve_for_chat_trace _ _ _ _ _ _ Hret).
    apply (new_storage_trace _ _ _ _ Hst).
Qed.

Lemma chat_with_documents_short_circuit_witness :
  chat_with_documents Scenario.prose_world a_question []
    = (Returns {| answer := no_information; response_chunks := [] |}, searched_trace) /\
  model_calls searched_trace = model_calls planned_trace.
Proof.
  apply (chat_with_documents_short_circuit Scenario.prose_world a_question
           [] planned_trace (planned_trace ++ [NewBigQueryClient "proj"]) searched_trace
           Scenario.available [PStr "The intent is general."] Scenario.a_storage).
  - reflexivity.
  - reflexivity.
  - reflexivity.
  - vm_compute. reflexivity.
  - reflexivity.
  - vm_compute. reflexivity.
Defined.

End ShortCircuit.

(* ===================================================================== *)
(** * C7: merging the results of the queries *)
(* ===================================================================== *)

Module Merging.
Import PyStr Py MonadFacts Endpoints Properties Scenario.

Lemma fold_add_unseen (l : list hit) (all_chunks : list hit) (seen : gset string) :
  fst (fold_left add_unseen l (all_chunks, seen)) = all_chunks ++ fresh seen l.
Proof.
  revert all_chunks seen. induction l as [|c l IH]; intros all_chunks seen.
  - cbn. now rewrite app_nil_r.
  - cbn [fold_left fresh add_unseen].
    destruct (decide (hit_chunk_id c ∈ seen)); [apply IH|].
    rewrite IH, <- List.app_assoc. reflexivity.
Qed.

Lemma filter_all {A} (P : A -> Prop) `{forall x, Decision (P x)} (l : list A) :
  (forall x, P x) -> filter P l = l.
Proof.
  intros HP. induction l as [|c l IH]; [reflexivity|].
  rewrite filter_cons_True by apply HP. now rewrite IH.
Qed.

(** The loop keeps the first chunk of each id that is not taken yet. *)
Lemma fresh_first_seen (seen : gset string) (l : list hit) :
  fresh seen l = filter (fun c => hit_chunk_id c ∉ seen) (first_seen l).
Proof.
  revert seen. induction l as [|c l IH]; intros seen; [reflexivity|].
  cbn [fresh first_seen]. destruct (decide (hit_chunk_id c ∈ seen)) as [Hin|Hnotin].
  - rewrite filter_cons_False by auto.
    rewrite list_filter_filter, IH. apply list_filter_iff. intros x. split.
    + intros H. split; [exact H|]. intros Heq. apply H. now rewrite Heq.
    + now intros [H _].
  - rewrite filter_cons_True by assumption. f_equal.
    rewrite list_filter_filter, IH. apply list_filter_iff. intros x.
    rewrite not_elem_of_union, not_elem_of_singleton. reflexivity.
Qed.

(** The loop over the queries is the loop over their results, put end to
    end. *)
Lemma merge_loop_run (w : world) (bq_storage : storage) (limit : Z)
    (qs : list pyval) (acc : merged) (t : trace) :
  exists raw t',
    search_each w bq_storage limit qs t = (Returns raw, t') /\
    for_each qs (search_and_merge w bq_storage limit) acc t
      = (Returns (fold_left add_unseen (concat raw) acc), t').
Proof.
  revert acc t. induction qs as [|q qs IH]; intros acc t.
  - exists [], t. split; reflexivity.
  - destruct (SearchFailure.search_chunks_returns w bq_storage q limit t)
      as (hits & t1 & Hq).
    destruct (IH (fold_left add_unseen hits acc) t1) as (raw & t' & Hraw & Hloop).
    exists (hits :: raw), t'. cbn [search_each for_each]. split.
    + rewrite (bind_returns _ _ _ _ _ Hq), (bind_returns _ _ _ _ _ Hraw).
      reflexivity.
    + unfold search_and_merge at 1.
      erewrite bind_returns by (rewrite (bind_returns _ _ _ _ _ Hq); reflexivity).
      rewrite Hloop. cbn [concat]. now rewrite fold_left_app.
Qed.

(** ** What first seen wins means *)

Lemma first_seen_sublist (l : list hit) : first_seen l `sublist_of` l.
Proof.
  induction l as [|c l IH]; cbn [first_seen]; [constructor|].
  apply sublist_skip. etrans; [apply sublist_filter | exact IH].
Qed.

Lemma first_seen_ids (l : list hit) (c : hit) :
  c ∈ l -> hit_chunk_id c ∈ hit_chunk_id <$> first_seen l.
Proof.
  induction l as [|d l IH]; [intros H%elem_of_nil; contradiction|].
  intros Hin. cbn [first_seen]. rewrite fmap_cons.
  destruct (decide (hit_chunk_id c = hit_chunk_id d)) as [->|Hne]; [left|].
  right. apply elem_of_cons in Hin as [->|Hin]; [congruence|].
  apply list_elem_of_fmap in IH as (x & Hx & Hxin); [|assumption].
  apply list_elem_of_fmap. exists x. split; [assumption|].
  apply list_elem_of_filter. split; [congruence | assumption].
Qed.

Lemma first_seen_NoDup (l : list hit) : NoDup (hit_chunk_id <$> first_seen l).
Proof.
  induction l as [|c l IH]; cbn [first_seen]; [constructor|].
  rewrite fmap_cons. constructor.
  - intros (x & Hx & Hin)%list_elem_of_fmap.
    apply list_elem_of_filter in Hin as [Hne _]. congruence.
  - eapply sublist_NoDup; [exact IH|]. apply fmap_sublist, sublist_filter.
Qed.

Lemma first_seen_first (l : list hit) (c : hit) :
  c ∈ first_seen l ->
  exists l1 l2, l = l1 ++ c :: l2 /\ hit_chunk_id c ∉ hit_chunk_id <$> l1.
Proof.
  induction l as [|d l IH]; cbn [first_seen]; [intros H%elem_of_nil; contradiction|].
  intros [->|Hin]%elem_of_cons.
  - exists [], l. split; [reflexivity | apply not_elem_of_nil].
  - apply list_elem_of_filter in Hin as [Hne Hin].
    destruct (IH Hin) as (l1 & l2 & -> & Hfirst).
    exists (d :: l1), l2. split; [reflexivity|].
    rewrite fmap_cons. intros [Heq|Hin']%elem_of_cons; auto.
Qed.

(** The merged result of the loop is first seen wins over the raw results
    put end to end. *)
Lemma merge_loop_first_seen (w : world) (bq_storage : storage) (limit : Z)
    (search_queries : list pyval) (t : trace) :
  exists raw seen_chunk_ids t',
    search_each w bq_storage limit search_queries t = (Returns raw, t') /\
    for_each search_queries (search_and_merge w bq_storage limit) ([], ∅) t
      = (Returns (first_seen (concat raw), seen_chunk_ids), t').
Proof.
  destruct (merge_loop_run w bq_storage limit search_queries ([], ∅) t)
    as (raw & t' & Hraw & Hloop).
  destruct (fold_left add_unseen (concat raw) ([], ∅)) as [all_chunks seen] eqn:Hfold.
  assert (Hall : all_chunks = first_seen (concat raw)).
  { pose proof (fold_add_unseen (concat raw) [] ∅) as H.
    rewrite Hfold in H. cbn in H. rewrite H, fresh_first_seen.
    apply filter_all. intros x. apply not_elem_of_empty. }
  subst all_chunks. eauto.
Qed.

(** C7: for every sequence of queries, the merged result of the loop of
    [search_document_chunks] and [chat_with_documents] is first seen wins
    over the raw results put end to end in the order of the queries: no
    [chunk_id] twice, every [chunk_id] of the raw results once, each kept
    chunk being the first of the raw results with its id, and the kept
    chunks in the order of the raw results. *)
Theorem merged_results_first_seen (w : world) (bq_storage : storage) (limit : Z)
    (search_queries : list pyval) (t : trace) :
  exists raw all_chunks seen_chunk_ids t',
    search_each w bq_storage limit search_queries t = (Returns raw, t') /\
    for_each search_queries (search_and_merge w bq_storage limit) ([], ∅) t
      = (Returns (all_chunks, seen_chunk_ids), t') /\
    all_chunks = first_seen (concat raw) /\
    NoDup (hit_chunk_id <$> all_chunks) /\
    (forall c, c ∈ concat raw -> hit_chunk_id c ∈ hit_chunk_id <$> all_chunks) /\
    (forall c, c ∈ all_chunks ->
       exists l1 l2, concat raw = l1 ++ c :: l2 /\
                     hit_chunk_id c ∉ hit_chunk_id <$> l1) /\
    all_chunks `sublist_of` concat raw.
Proof.
  destruct (merge_loop_first_seen w bq_storage limit search_queries t)
    as (raw & seen & t' & Hraw & Hloop).
  exists raw, (first_seen (concat raw)), seen, t'.
  split; [exact Hraw|]. split; [exact Hloop|]. split; [reflexivity|].
  repeat apply conj.
  - apply first_seen_NoDup.
  - apply first_seen_ids.
  - apply first_seen_first.
  - apply first_seen_sublist.
Qed.

(** The two places of the loop. *)
Lemma retrieve_for_chat_first_seen (w : world) (bq_storage : storage)
    (search_queries : list pyval) (t : trace) :
  exists raw t',
    search_each w bq_storage 3 search_queries t = (Returns raw, t') /\
    retrieve_for_chat w bq_storage search_queries t
      = (Returns (first_seen (concat raw)), t').
Proof.
  destruct (merge_loop_first_seen w bq_storage 3 search_queries t)
    as (raw & seen & t' & Hraw & Hloop).
  exists raw, t'. split; [exact Hraw|].
  unfold retrieve_for_chat. now rewrite (bind_returns _ _ _ _ _ Hloop).
Qed.

Lemma run_planned_first_seen (w : world) (bq_storage : storage) (limit : Z)
    (search_queries : list pyval) (t : trace) :
  exists raw t',
    search_each w bq_storage (limit / Z.of_nat (length search_queries) + 1)
                search_queries t = (Returns raw, t') /\
    run_planned w bq_storage limit (SearchQueries search_queries) t
      = (Returns (first_seen (concat raw)), t').
Proof.
  destruct (merge_loop_first_seen w bq_storage
              (limit / Z.of_nat (length search_queries) + 1) search_queries t)
    as (raw & seen & t' & Hraw & Hloop).
  exists raw, t'. split; [exact Hraw|].
  cbn [run_planned]. now rewrite (bind_returns _ _ _ _ _ Hloop).
Qed.

Example same_chunk_three_times :
  fst (fold_left add_unseen (concat [[d1_0]; [d1_0]; [d1_0]]) ([], ∅)) = [d1_0].
Proof. reflexivity. Qed.

End Merging.

(* ===================================================================== *)
(** * C10: the record of a document and its chunks *)
(* ===================================================================== *)

Module Ingestion.
Import PyStr Py Trace MonadFacts Crud Properties Scenario.

Lemma db_calls_app (t u : trace) : db_calls (t ++ u) = db_calls t ++ db_calls u.
Proof. apply List.filter_app. Qed.

Lemma quiet_ret {A} (a : A) : quiet (ret a).
Proof. intros t. exists a, []. now rewrite app_nil_r. Qed.

Lemma quiet_bind {A B} (m : M A) (k : A -> M B) :
  quiet m -> (forall a, quiet (k a)) -> quiet (bind m k).
Proof.
  intros Hm Hk t. destruct (Hm t) as (a & evs & Hrun & Hq).
  destruct (Hk a (t ++ evs)) as (b & evs' & Hrun' & Hq').
  exists b, (evs ++ evs'). rewrite (bind_returns _ _ _ _ _ Hrun), Hrun'.
  rewrite List.app_assoc, db_calls_app, Hq, Hq'. split; reflexivity.
Qed.

Lemma quiet_harmless {A} (m : M A) : quiet m -> harmless m.
Proof. intros H t. destruct (H t) as (a & evs & Hrun & Hq). eauto. Qed.

Lemma harmless_bind {A B} (m : M A) (k : A -> M B) :
  harmless m -> (forall a, harmless (k a)) -> harmless (bind m k).
Proof.
  intros Hm Hk t. destruct (Hm t) as ([a|e] & evs & Hrun & Hq).
  - destruct (Hk a (t ++ evs)) as (o & evs' & Hrun' & Hq').
    exists o, (evs ++ evs'). rewrite (bind_returns _ _ _ _ _ Hrun), Hrun'.
    rewrite List.app_assoc, db_calls_app, Hq, Hq'. split; reflexivity.
  - exists (Raises e), evs. rewrite (bind_raises _ _ _ _ _ Hrun). now split.
Qed.

Lemma harmless_call {A} (ev : event) (answer : trace -> outcome A) :
  is_db_call ev = false -> harmless (call ev answer).
Proof.
  intros Hev t. exists (answer t), [ev]. split; [reflexivity|].
  unfold db_calls. cbn. now rewrite Hev.
Qed.

Lemma harmless_lift {A} (o : outcome A) : harmless (lift o).
Proof. intros t. exists o, []. now rewrite app_nil_r. Qed.

Lemma quiet_try {A} (body : M A) (handler : exn -> M A) :
  harmless body -> (forall e, quiet (handler e)) -> quiet (try_except body handler).
Proof.
  intros Hbody Hh t. destruct (Hbody t) as ([a|e] & evs & Hrun & Hq).
  - exists a, evs. rewrite (try_returns _ _ _ _ _ Hrun). now split.
  - destruct (Hh e (t ++ evs)) as (a & evs' & Hrun' & Hq').
    exists a, (evs ++ evs'). rewrite (try_raises _ _ _ _ _ Hrun), Hrun'.
    rewrite List.app_assoc, db_calls_app, Hq, Hq'. split; reflexivity.
Qed.

Create HintDb quiet.
#[export] Hint Resolve quiet_ret quiet_harmless harmless_lift : quiet.

Lemma store_file_in_ipfs_quiet (w : world) (file_content filename : string) :
  quiet (store_file_in_ipfs w file_content filename).
Proof.
  apply quiet_try.
  - apply harmless_bind; [now apply harmless_call|]. intros file_hash.
    apply harmless_bind; [now apply harmless_call|]. auto with quiet.
  - intros e. destruct e; apply quiet_ret.
Qed.

Lemma extract_text_from_pdf_quiet (w : world) (pdf_content : string) :
  quiet (extract_text_from_pdf w pdf_content).
Proof. apply quiet_try; [now apply harmless_call | intros e; apply quiet_ret]. Qed.

Lemma process_pdf_quiet (w : world) (pdf_content : string) :
  quiet (process_pdf w pdf_content).
Proof.
  apply quiet_try; [|intros e; apply quiet_ret].
  apply harmless_bind; [apply quiet_harmless, extract_text_from_pdf_quiet|].
  intros text. apply harmless_bind; auto with quiet.
Qed.

Lemma get_raw_text_quiet (w : world) (pdf_content : string) :
  quiet (get_raw_text w pdf_content).
Proof.
  apply quiet_try; [|intros e; apply quiet_ret].
  apply harmless_bind; [apply quiet_harmless, extract_text_from_pdf_quiet|].
  auto with quiet.
Qed.

Lemma store_json_on_chain_quiet (w : world) (address key json_data : string) :
  quiet (store_json_on_chain w address key json_data).
Proof.
  apply quiet_try; [|intros e; apply quiet_ret].
  apply harmless_bind; [now apply harmless_call | auto with quiet].
Qed.

Lemma first_steps_quiet (w : world) (filename file_content : string) (user : User) :
  quiet (first_steps w filename file_content user).
Proof.
  apply quiet_bind; [apply store_file_in_ipfs_quiet|]. intros [h ? ? ?|error];
    [|apply quiet_ret].
  apply quiet_bind; [apply process_pdf_quiet|]. intros [data|error];
    [|apply quiet_ret].
  apply quiet_bind; [apply store_json_on_chain_quiet|]. intros [tx ?|error];
    apply quiet_ret.
Qed.

Lemma store_chunks_in_bigquery_quiet (w : world) (self : storage) (chunks : list chunk)
    (metadata : pyval) (filename ipfs_path : string) :
  quiet (Gateway.store_chunks_in_bigquery w self chunks metadata filename ipfs_path).
Proof.
  apply quiet_try; [|intros e; apply quiet_ret].
  apply harmless_bind; [now apply harmless_call|]. intros errors.
  destruct (truth (PList errors)); auto with quiet.
Qed.

Lemma process_pdf_for_bigquery_quiet (w : world) (self : storage)
    (text ipfs_path filename : string) (metadata : pyval) :
  quiet (Gateway.process_pdf_for_bigquery w self text ipfs_path filename metadata).
Proof.
  apply quiet_try; [|intros e; apply quiet_ret].
  apply harmless_bind; [now apply harmless_call|]. intros doc_id.
  apply harmless_bind; [apply harmless_lift|]. intros sentences.
  apply harmless_bind; [apply quiet_harmless, store_chunks_in_bigquery_quiet|].
  intros result. apply harmless_bind; [apply harmless_lift|]. intros success.
  apply harmless_bind; [apply harmless_lift|]. auto with quiet.
Qed.

(** The index step returns whatever happens in it. *)
Lemma index_chunks_quiet (w : world) (file_content filename ipfs_hash : string)
    (extracted_data : pyval) :
  quiet (index_chunks w file_content filename ipfs_hash extracted_data).
Proof.
  unfold index_chunks. destruct (all_truthy _); [|apply quiet_ret].
  apply quiet_try; [|intros e; apply quiet_ret].
  apply harmless_bind; [apply quiet_harmless, get_raw_text_quiet|].
  intros [text|error]; [|auto with quiet].
  apply harmless_bind.
  - unfold Gateway.init. apply harmless_bind; [now apply harmless_call|].
    auto with quiet.
  - intros bq_storage. apply quiet_harmless, process_pdf_for_bigquery_quiet.
Qed.

Lemma create_document_after_steps (w : world) (user_id : Z)
    (filename file_content : string) (user : User) (t : trace) :
  create_document w user_id filename file_content user t =
  match first_steps w filename file_content user t with
  | (Returns (StepFailed error), t1) => (Returns (CreateFailed error), t1)
  | (Returns (StepsDone ipfs_details ipfs_hash extracted_data blockchain_details
                        transaction_hash), t1) =>
      record_and_index w user_id filename file_content user ipfs_details ipfs_hash
                       extracted_data blockchain_details transaction_hash t1
  | (Raises e, t1) => (Raises e, t1)
  end.
Proof.
  unfold create_document, first_steps.
  destruct (store_file_in_ipfs w file_content filename t)
    as [[[h ? ? ?|error]|e] t1] eqn:H1;
    rewrite ?(bind_raises _ _ _ _ _ H1), ?(bind_raises _ _ _ _ _ H1),
            ?(bind_returns _ _ _ _ _ H1), ?(bind_returns _ _ _ _ _ H1);
    try reflexivity.
  destruct (process_pdf w file_content t1) as [[[data|error]|e] t2] eqn:H2;
    rewrite ?(bind_raises _ _ _ _ _ H2), ?(bind_raises _ _ _ _ _ H2),
            ?(bind_returns _ _ _ _ _ H2), ?(bind_returns _ _ _ _ _ H2);
    try reflexivity.
  destruct (store_json_on_chain w (aptos_address user) (aptos_private_key user)
              (json_dumps w data) t2) as [[[tx ?|error]|e] t3] eqn:H3;
    rewrite ?(bind_raises _ _ _ _ _ H3), ?(bind_raises _ _ _ _ _ H3),
            ?(bind_returns _ _ _ _ _ H3), ?(bind_returns _ _ _ _ _ H3);
    reflexivity.
Qed.

(** C10: for every upload, the blob store write, the PDF data extraction
    and the ledger write return and leave the database alone. When one of
    them fails [create_document] returns a failure and has made no call
    of the database. When the three succeed the first call of the database
    is the [add] that follows them; and when [add], [commit] and [refresh]
    succeed, [create_document] returns success with whatever the index
    step returned, failed or not, this step makes no call of the database,
    and the calls of the database are [add], [commit], [refresh]: there
    is no rollback. *)
Theorem create_document_atomic (w : world) (user_id : Z)
    (filename file_content : string) (user : User) (t : trace) :
  exists p t1,
    first_steps w filename file_content user t = (Returns p, t1) /\
    db_calls t1 = db_calls t /\
    match p with
    | StepFailed error =>
        create_document w user_id filename file_content user t
          = (Returns (CreateFailed error), t1)
    | StepsDone ipfs_details ipfs_hash extracted_data blockchain_details
                transaction_hash =>
        let d := new_document w user_id filename user ipfs_hash extracted_data
                              transaction_hash in
        (exists evs,
           snd (create_document w user_id filename file_content user t)
             = t1 ++ DbAdd d :: evs) /\
        (forall d',
           db_add w t1 d = Returns tt ->
           db_commit w (t1 ++ [DbAdd d]) = Returns tt ->
           db_refresh w (t1 ++ [DbAdd d; DbCommit]) d = Returns d' ->
           exists bigquery_details t2,
             index_chunks w file_content filename ipfs_hash extracted_data
                          (t1 ++ [DbAdd d; DbCommit; DbRefresh])
               = (Returns bigquery_details, t2) /\
             create_document w user_id filename file_content user t
               = (Returns (Created d' ipfs_details blockchain_details extracted_data
                                   bigquery_details), t2) /\
             db_calls t2 = db_calls t ++ [DbAdd d; DbCommit; DbRefresh])
    end.
Proof.
  destruct (first_steps_quiet w filename file_content user t)
    as (p & evs & Hsteps & Hquiet).
  exists p, (t ++ evs). split; [exact Hsteps|].
  split; [rewrite db_calls_app, Hquiet; apply app_nil_r|].
  rewrite create_document_after_steps, Hsteps.
  destruct p as [error | ipfs_details ipfs_hash data chain tx]; [reflexivity|].
  cbv zeta. set (d := new_document w user_id filename user ipfs_hash data tx).
  set (t1 := t ++ evs). split.
  - unfold record_and_index. fold d. unfold bind at 1. unfold call at 1.
    destruct (db_add w t1 d) as [[]|e]; [|exists []; reflexivity].
    unfold bind at 1. unfold call at 1.
    destruct (db_commit w (t1 ++ [DbAdd d])) as [[]|e];
      [|exists [DbCommit]; cbn [snd]; now rewrite <- List.app_assoc].
    unfold bind at 1. unfold call at 1.
    destruct (db_refresh w ((t1 ++ [DbAdd d]) ++ [DbCommit]) d) as [d'|e];
      [|exists [DbCommit; DbRefresh]; cbn [snd]; now rewrite <- !List.app_assoc].
    destruct (index_chunks_quiet w file_content filename ipfs_hash data
                (((t1 ++ [DbAdd d]) ++ [DbCommit]) ++ [DbRefresh]))
      as (bq & evs' & Hindex & _).
    rewrite (bind_returns _ _ _ _ _ Hindex), ret_run.
    exists ([DbCommit; DbRefresh] ++ evs'). cbn [snd].
    now rewrite <- !List.app_assoc.
  - intros d' Hadd Hcommit Hrefresh.
    destruct (index_chunks_quiet w file_content filename ipfs_hash data
                (t1 ++ [DbAdd d; DbCommit; DbRefresh]))
      as (bq & evs' & Hindex & Hquiet').
    exists bq, ((t1 ++ [DbAdd d; DbCommit; DbRefresh]) ++ evs').
    split; [exact Hindex|]. split.
    + unfold record_and_index. fold d.
      unfold bind at 1. unfold call at 1. rewrite Hadd.
      unfold bind at 1. unfold call at 1. rewrite Hcommit.
      unfold bind at 1. unfold call at 1.
      replace ((t1 ++ [DbAdd d]) ++ [DbCommit]) with (t1 ++ [DbAdd d; DbCommit])
        by now rewrite <- List.app_assoc.
      rewrite Hrefresh.
      replace ((t1 ++ [DbAdd d; DbCommit]) ++ [DbRefresh])
        with (t1 ++ [DbAdd d; DbCommit; DbRefresh])
        by now rewrite <- List.app_assoc.
      now rewrite (bind_returns _ _ _ _ _ Hindex).
    + unfold t1. rewrite !db_calls_app, Hquiet, Hquiet', !app_nil_r. reflexivity.
Qed.

Example create_document_with_failed_index :
  let run := create_document Scenario.rejecting_world 7 "case.pdf" "First. Second."
                             an_author [] in
  exists d ipfs chain data bq,
    fst run = Returns (Created d ipfs chain data bq) /\
    Py.dict_get bq "success" = Some (PBool false) /\
    db_calls (snd run) = [DbAdd d; DbCommit; DbRefresh].
Proof. vm_compute. do 5 eexists. repeat split. Qed.

Example create_document_without_ipfs :
  create_document ipfs_down_world 7 "case.pdf" "First. Second." an_author []
    = (Returns (CreateFailed "Could not connect to IPFS daemon. Please make sure IPFS Desktop is running."),
       [IpfsAddFile "case.pdf"]).
Proof. reflexivity. Qed.

End Ingestion.


(* ===================================================================== *)
(** * What a computation calls: rules *)
(* ===================================================================== *)

Module FootprintFacts.
Import Py MonadFacts Footprint.

Lemma returns_only_only {A} (P : event -> Prop) (m : M A) :
  returns_only P m -> only P m.
Proof. intros H t. destruct (H t) as (a & evs & Hrun & Hevs). eauto. Qed.

Lemma only_weaken {A} (P Q : event -> Prop) (m : M A) :
  (forall ev, P ev -> Q ev) -> only P m -> only Q m.
Proof.
  intros HPQ H t. destruct (H t) as (o & evs & Hrun & Hevs).
  exists o, evs. split; [exact Hrun|]. eapply Forall_impl; eassumption.
Qed.

Lemma returns_only_weaken {A} (P Q : event -> Prop) (m : M A) :
  (forall ev, P ev -> Q ev) -> returns_only P m -> returns_only Q m.
Proof.
  intros HPQ H t. destruct (H t) as (o & evs & Hrun & Hevs).
  exists o, evs. split; [exact Hrun|]. eapply Forall_impl; eassumption.
Qed.

Lemma returns_only_ret {A} (P : event -> Prop) (a : A) : returns_only P (ret a).
Proof. intros t. exists a, []. rewrite app_nil_r. split; [reflexivity | constructor]. Qed.

Lemma only_raise {A} (P : event -> Prop) (e : exn) : only P (@raise A e).
Proof.
  intros t. exists (Raises e), []. rewrite app_nil_r. split; [reflexivity | constructor].
Qed.

Lemma only_lift {A} (P : event -> Prop) (o : outcome A) : only P (lift o).
Proof. intros t. exists o, []. rewrite app_nil_r. split; [reflexivity | constructor]. Qed.

Lemma only_call {A} (P : event -> Prop) (ev : event) (answer : trace -> outcome A) :
  P ev -> only P (call ev answer).
Proof. intros Hev t. exists (answer t), [ev]. split; [reflexivity | now repeat constructor]. Qed.

Lemma returns_only_log (P : event -> Prop) (ev : event) : P ev -> returns_only P (log ev).
Proof. intros Hev t. exists tt, [ev]. split; [reflexivity | now repeat constructor]. Qed.

Lemma only_bind {A B} (P : event -> Prop) (m : M A) (k : A -> M B) :
  only P m -> (forall a, only P (k a)) -> only P (bind m k).
Proof.
  intros Hm Hk t. destruct (Hm t) as ([a|e] & evs & Hrun & Hevs).
  - destruct (Hk a (t ++ evs)) as (o & evs' & Hrun' & Hevs').
    exists o, (evs ++ evs'). rewrite (bind_returns _ _ _ _ _ Hrun), Hrun'.
    rewrite List.app_assoc. split; [reflexivity | now apply Forall_app].
  - exists (Raises e), evs. rewrite (bind_raises _ _ _ _ _ Hrun). now split.
Qed.

Lemma returns_only_bind {A B} (P : event -> Prop) (m : M A) (k : A -> M B) :
  returns_only P m -> (forall a, returns_only P (k a)) -> returns_only P (bind m k).
Proof.
  intros Hm Hk t. destruct (Hm t) as (a & evs & Hrun & Hevs).
  destruct (Hk a (t ++ evs)) as (b & evs' & Hrun' & Hevs').
  exists b, (evs ++ evs'). rewrite (bind_returns _ _ _ _ _ Hrun), Hrun'.
  rewrite List.app_assoc. split; [reflexivity | now apply Forall_app].
Qed.

(** A [try] whose handlers return always returns. *)
Lemma returns_only_try {A} (P : event -> Prop) (body : M A) (handler : exn -> M A) :
  only P body -> (forall e, returns_only P (handler e)) ->
  returns_only P (try_except body handler).
Proof.
  intros Hbody Hh t. destruct (Hbody t) as ([a|e] & evs & Hrun & Hevs).
  - exists a, evs. rewrite (try_returns _ _ _ _ _ Hrun). now split.
  - destruct (Hh e (t ++ evs)) as (a & evs' & Hrun' & Hevs').
    exists a, (evs ++ evs'). rewrite (try_raises _ _ _ _ _ Hrun), Hrun'.
    rewrite List.app_assoc. split; [reflexivity | now apply Forall_app].
Qed.

Lemma only_try {A} (P : event -> Prop) (body : M A) (handler : exn -> M A) :
  only P body -> (forall e, only P (handler e)) -> only P (try_except body handler).
Proof.
  intros Hbody Hh t. destruct (Hbody t) as ([a|e] & evs & Hrun & Hevs).
  - exists (Returns a), evs. rewrite (try_returns _ _ _ _ _ Hrun). now split.
  - destruct (Hh e (t ++ evs)) as (o & evs' & Hrun' & Hevs').
    exists o, (evs ++ evs'). rewrite (try_raises _ _ _ _ _ Hrun), Hrun'.
    rewrite List.app_assoc. split; [reflexivity | now apply Forall_app].
Qed.

Lemma returns_only_for_each {A S} (P : event -> Prop) (l : list A)
    (body : S -> A -> M S) (acc : S) :
  (forall acc x, returns_only P (body acc x)) -> returns_only P (for_each l body acc).
Proof.
  intros Hbody. revert acc. induction l as [|x l IH]; intros acc; cbn [for_each].
  - apply returns_only_ret.
  - apply returns_only_bind; [apply Hbody | exact IH].
Qed.

Lemma only_for_each {A S} (P : event -> Prop) (l : list A)
    (body : S -> A -> M S) (acc : S) :
  (forall acc x, only P (body acc x)) -> only P (for_each l body acc).
Proof.
  intros Hbody. revert acc. induction l as [|x l IH]; intros acc; cbn [for_each].
  - apply returns_only_only, returns_only_ret.
  - apply only_bind; [apply Hbody | exact IH].
Qed.

(** ** Reading a result back *)

Lemma bind_inv {A B} (m : M A) (k : A -> M B) (t t' : trace) (b : B) :
  bind m k t = (Returns b, t') ->
  exists a t1, m t = (Returns a, t1) /\ k a t1 = (Returns b, t').
Proof.
  unfold bind. destruct (m t) as [[a|e] t1]; [eauto | discriminate].
Qed.

Lemma try_reraise_inv {A} (body : M A) (wrap : exn -> exn) (t t' : trace) (a : A) :
  try_except body (fun e => raise (wrap e)) t = (Returns a, t') ->
  body t = (Returns a, t').
Proof.
  unfold try_except, raise. destruct (body t) as [[x|e] t1]; [auto | discriminate].
Qed.

Create HintDb footprint.
#[export] Hint Resolve returns_only_ret only_raise only_lift returns_only_only : footprint.

End FootprintFacts.


(* ===================================================================== *)
(** * The chunker: ids, number of chunks, sentences kept *)
(* ===================================================================== *)

Module ChunkerMore.
Import PyStr PyStrFacts Chunker Invariants.

Lemma to_uint_nonnil (n : nat) : Nat.to_uint n <> Decimal.Nil.
Proof.
  rewrite <- (DecimalNat.Unsigned.of_to n) at 1.
  rewrite DecimalNat.Unsigned.to_of. apply DecimalFacts.unorm_nonnil.
Qed.

Lemma of_nat_inj (i j : nat) : of_nat i = of_nat j -> i = j.
Proof.
  unfold of_nat. intros H.
  apply DecimalNat.Unsigned.to_uint_inj.
  pose proof (NilZero.usu _ (to_uint_nonnil i)) as Hi.
  pose proof (NilZero.usu _ (to_uint_nonnil j)) as Hj.
  rewrite H in Hi. congruence.
Qed.

Lemma id_of_inj (doc_id : string) (i j : nat) : id_of doc_id i = id_of doc_id j -> i = j.
Proof.
  unfold id_of. intros H.
  apply String.app_inj in H. apply String.app_inj in H. now apply of_nat_inj.
Qed.

Lemma numbered_close (doc_id : string) (st : loop_state) :
  numbered doc_id st ->
  map chunk_id (chunks st ++ [close_chunk doc_id st])
    = map (id_of doc_id) (seq 0 (length (chunks st ++ [close_chunk doc_id st]))) /\
  Forall (fun c => chunk_doc_id c = doc_id) (chunks st ++ [close_chunk doc_id st]).
Proof.
  intros (Hnext & Hids & Hdoc). split.
  - rewrite List.length_app, Nat.add_1_r, seq_S, !map_app, Hids. cbn [map close_chunk chunk_id].
    rewrite Hnext. reflexivity.
  - apply Forall_app. split; [assumption|]. repeat constructor.
Qed.

Lemma loop_body_numbered (self : storage) (doc_id : string) (st : loop_state) (s : string) :
  numbered doc_id st -> numbered doc_id (loop_body self doc_id st s).
Proof.
  intros Hst. unfold loop_body.
  destruct (_ <=? _); [exact Hst|].
  destruct (truthy _); [|exact Hst].
  destruct (numbered_close doc_id st Hst) as [Hids Hdoc].
  destruct Hst as (Hnext & _ & _).
  split; [|split]; cbn [chunks next_id]; try assumption.
  rewrite List.length_app, Hnext. cbn. lia.
Qed.

Lemma fold_numbered (self : storage) (doc_id : string) (l : list string) (st : loop_state) :
  numbered doc_id st -> numbered doc_id (fold_left (loop_body self doc_id) l st).
Proof.
  revert st. induction l as [|s l IH]; intros st Hst; cbn [fold_left]; [assumption|].
  apply IH, loop_body_numbered, Hst.
Qed.

(** X1: the chunks of one call of [chunk_text] are numbered in order,
    [doc_id_0], [doc_id_1], ..., carry the [doc_id] of the call, and no
    two of them share a [chunk_id]. *)
Theorem chunk_ids_numbered (tok : string -> list string) (self : storage)
    (text doc_id : string) :
  let out := chunk_text tok self text doc_id in
  map chunk_id out = map (id_of doc_id) (seq 0 (length out)) /\
  Forall (fun c => chunk_doc_id c = doc_id) out /\
  List.NoDup (map chunk_id out).
Proof.
  cbv zeta. unfold chunk_text, chunk_sentences, flush.
  assert (Hinit : numbered doc_id loop_init) by (repeat split; constructor).
  pose proof (fold_numbered self doc_id (tok text) loop_init Hinit) as Hst.
  set (st := fold_left (loop_body self doc_id) (tok text) loop_init) in *.
  assert (Hout :
    forall out, map chunk_id out = map (id_of doc_id) (seq 0 (length out)) ->
                List.NoDup (map chunk_id out)).
  { intros out ->. apply Finite.Injective_map_NoDup; [|apply seq_NoDup].
    intros i j. apply id_of_inj. }
  destruct (truthy (current_chunk st)).
  - destruct (numbered_close doc_id st Hst) as [Hids Hdoc]. auto.
  - destruct Hst as (_ & Hids & Hdoc). auto.
Qed.

(** ** The number of chunks *)

Lemma truthy_app_space (s : string) : truthy (s +:+ " ") = true.
Proof. destruct s; reflexivity. Qed.

Lemma loop_body_counted (self : storage) (doc_id : string) (k : nat)
    (st : loop_state) (s : string) :
  counted k st -> counted (S k) (loop_body self doc_id st s).
Proof.
  intros Hst. unfold loop_body. right.
  destruct (_ <=? _); cbn [chunks current_chunk].
  - split.
    + rewrite <- append_assoc. apply truthy_app_space.
    + destruct Hst as [(-> & -> & _) | (_ & Hlen)]; cbn; lia.
  - destruct (truthy (current_chunk st)) eqn:Hne; cbn [chunks current_chunk].
    + split; [apply truthy_app_space|].
      destruct Hst as [(_ & _ & Hcur) | (_ & Hlen)].
      * rewrite Hcur in Hne. discriminate.
      * rewrite List.length_app. cbn. lia.
    + split; [apply truthy_app_space|].
      destruct Hst as [(_ & -> & _) | (Hcur & _)]; [cbn; lia | congruence].
Qed.

Lemma fold_counted (self : storage) (doc_id : string) (l : list string) (k : nat)
    (st : loop_state) :
  counted k st -> counted (k + length l) (fold_left (loop_body self doc_id) l st).
Proof.
  revert k st. induction l as [|s l IH]; intros k st Hst; cbn [fold_left length].
  - now rewrite Nat.add_0_r.
  - replace (k + S (length l))%nat with (S k + length l)%nat by lia.
    apply IH, loop_body_counted, Hst.
Qed.

(** X2: [chunk_text] makes at most one chunk for each sentence, and makes
    no chunk only when the text has no sentence. *)
Theorem chunk_count (tok : string -> list string) (self : storage)
    (text doc_id : string) :
  let out := chunk_text tok self text doc_id in
  (length out <= length (tok text))%nat /\
  (out = [] <-> tok text = []).
Proof.
  cbv zeta. unfold chunk_text, chunk_sentences, flush.
  assert (Hinit : counted 0 loop_init) by (left; repeat split).
  pose proof (fold_counted self doc_id (tok text) 0 loop_init Hinit) as Hst.
  cbn [Nat.add] in Hst.
  set (st := fold_left (loop_body self doc_id) (tok text) loop_init) in *.
  destruct Hst as [(Hlen & Hchunks & Hcur) | (Hcur & Hlen)].
  - rewrite Hcur, Hchunks. cbn. split; [lia|].
    split; [intros _ | reflexivity]. now apply length_zero_iff_nil.
  - rewrite Hcur. rewrite List.length_app. cbn [length]. split; [lia|]. split.
    + intros H. apply (f_equal (@length chunk)) in H.
      rewrite List.length_app in H. cbn in H. lia.
    + intros H. rewrite H in Hlen. cbn in Hlen. lia.
Qed.

(** ** Sentences are kept whole *)

Lemma append_nil_r (s : string) : s +:+ "" = s.
Proof. induction s as [|c s IH]; [reflexivity|]. now rewrite app_String, IH. Qed.

Lemma holds_nil (s : string) : ~ holds "" s.
Proof.
  intros (pre & post & H). apply (f_equal len) in H.
  rewrite !len_app in H. change (len "") with 0 in H. change (len " ") with 1 in H.
  pose proof (len_nonneg pre). pose proof (len_nonneg s). pose proof (len_nonneg post).
  lia.
Qed.

Lemma loop_body_kept (self : storage) (doc_id : string) (st : loop_state)
    (s s' : string) :
  kept st s \/ s = s' -> kept (loop_body self doc_id st s') s.
Proof.
  intros Hs. unfold loop_body.
  destruct (_ <=? _); cbn [chunks current_chunk].
  - destruct Hs as [[Hclosed | (pre & post & Hcur)] | ->].
    + left. exact Hclosed.
    + right. exists pre, (post +:+ (s' +:+ " ")).
      rewrite Hcur, !append_assoc. reflexivity.
    + right. exists (current_chunk st), "". now rewrite append_nil_r.
  - destruct (truthy (current_chunk st)) eqn:Hne; cbn [chunks current_chunk].
    + destruct Hs as [[(c & buf & Hin & Hbody & Hbuf) | Hcur] | ->].
      * left. exists c, buf. split; [apply in_or_app; now left | now split].
      * left. exists (close_chunk doc_id st), (current_chunk st).
        split; [apply in_or_app; right; now left | now split].
      * right. exists (overlap_text self (current_chunk st)), "".
        now rewrite append_nil_r, append_assoc.
    + destruct Hs as [[Hclosed | Hcur] | ->].
      * left. exact Hclosed.
      * apply truthy_false in Hne. rewrite Hne in Hcur. now apply holds_nil in Hcur.
      * right. exists "", "". now rewrite append_nil_r.
Qed.

Lemma fold_kept (self : storage) (doc_id : string) (l : list string) (st : loop_state)
    (s : string) :
  kept st s \/ In s l -> kept (fold_left (loop_body self doc_id) l st) s.
Proof.
  revert st. induction l as [|s' l IH]; intros st Hs; cbn [fold_left].
  - destruct Hs as [Hs | []]. exact Hs.
  - apply IH. destruct Hs as [Hs | [<- | Hin]].
    + left. apply loop_body_kept. now left.
    + left. apply loop_body_kept. now right.
    + now right.
Qed.

(** X3: no sentence is lost or split: every sentence of the text stands
    whole, followed by a blank, in the buffer of one of the chunks
    returned, whose text is that buffer stripped. *)
Theorem chunk_text_keeps_sentences (tok : string -> list string) (self : storage)
    (text doc_id s : string) :
  In s (tok text) ->
  exists c pre post,
    In c (chunk_text tok self text doc_id) /\
    chunk_body c = strip (pre +:+ (s +:+ " ") +:+ post).
Proof.
  intros Hin. unfold chunk_text, chunk_sentences, flush.
  pose proof (fold_kept self doc_id (tok text) loop_init s (or_intror Hin)) as Hkept.
  set (st := fold_left (loop_body self doc_id) (tok text) loop_init) in *.
  destruct Hkept as [(c & buf & Hc & Hbody & pre & post & Hbuf) | Hcur].
  - exists c, pre, post. subst buf. split; [|exact Hbody].
    destruct (truthy _); [apply in_or_app; now left | exact Hc].
  - destruct (truthy (current_chunk st)) eqn:Hne.
    + destruct Hcur as (pre & post & Hcur).
      exists (close_chunk doc_id st), pre, post.
      split; [apply in_or_app; right; now left|].
      cbn [close_chunk chunk_body]. now rewrite Hcur.
    + apply truthy_false in Hne. rewrite Hne in Hcur. now apply holds_nil in Hcur.
Qed.

Lemma chunk_text_keeps_sentences_witness :
  exists c pre post,
    In c (chunk_text (fun _ => [Scenario.first_sentence; Scenario.second_sentence])
                     Scenario.a_storage "" "D1") /\
    chunk_body c = strip (pre +:+ (Scenario.second_sentence +:+ " ") +:+ post).
Proof.
  apply (chunk_text_keeps_sentences
           (fun _ => [Scenario.first_sentence; Scenario.second_sentence])
           Scenario.a_storage "" "D1" Scenario.second_sentence).
  right. left. reflexivity.
Defined.

End ChunkerMore.


(* ===================================================================== *)
(** * The escaped query: nothing is lost, one character for each escape *)
(* ===================================================================== *)

Module EscapeMore.
Import PyStr PyStrFacts Gateway Footprint.

Lemma backslash_special : is_special backslash = true.
Proof. reflexivity. Qed.

Lemma unescape_escape_each (q : string) :
  unescape (escape_each special_chars q) = q.
Proof.
  induction q as [|c q IH]; [reflexivity|].
  cbn [escape_each]. fold (is_special c). destruct (is_special c) eqn:Hc.
  - cbn [unescape]. change "\"%char with backslash.
    rewrite Ascii.eqb_refl, IH. reflexivity.
  - cbn [unescape]. destruct (Ascii.eqb_spec c backslash) as [->|_].
    + rewrite backslash_special in Hc. discriminate.
    + now rewrite IH.
Qed.

(** X4: escaping loses nothing: two queries with the same escaped string
    are the same query. *)
Theorem escape_query_inj (q1 q2 : string) :
  escape_query q1 = escape_query q2 -> q1 = q2.
Proof.
  rewrite !Escaping.escape_query_each. intros H.
  rewrite <- (unescape_escape_each q1), <- (unescape_escape_each q2). now rewrite H.
Qed.

Lemma escape_query_inj_witness : "a+b" = "a+b".
Proof. apply (escape_query_inj "a+b" "a+b"). reflexivity. Defined.

Lemma len_escape_each (q : string) :
  len (escape_each special_chars q) = len q + Z.of_nat (count_special q).
Proof.
  induction q as [|c q IH]; [reflexivity|].
  cbn [escape_each count_special]. fold (is_special c).
  destruct (is_special c); rewrite !len_String, IH; lia.
Qed.

Lemma escape_each_plain (q : string) :
  count_special q = O -> escape_each special_chars q = q.
Proof.
  induction q as [|c q IH]; [reflexivity|].
  cbn [escape_each count_special]. fold (is_special c).
  destruct (is_special c); [discriminate|]. intros H. now rewrite IH.
Qed.

(** X5: the escaped query is longer than the query by the number of its
    special characters, and a query without special characters is passed
    to the store as it is. *)
Theorem escape_query_length (q : string) :
  len (escape_query q) = len q + Z.of_nat (count_special q) /\
  (escape_query q = q <-> count_special q = O).
Proof.
  rewrite Escaping.escape_query_each. split; [apply len_escape_each|]. split.
  - intros H. apply (f_equal len) in H. rewrite len_escape_each in H. lia.
  - apply escape_each_plain.
Qed.

End EscapeMore.


(* ===================================================================== *)
(** * The generative model: expansion, grouping, answer *)
(* ===================================================================== *)

Module LLMMore.
Import PyStr Py LLM Trace MonadFacts Properties LLMFacts Footprint FootprintFacts Invariants.

Lemma analyze_query_intent_footprint (w : world) (self : LLMService) (query : string) :
  returns_only model_call (analyze_query_intent w self query).
Proof.
  intros t. destruct (analyze_query_intent_run w self query t)
    as (intent & ty & evs & Hrun & Hevs & _). eauto.
Qed.

Lemma enhance_search_query_footprint (w : world) (self : LLMService) (query : string) :
  returns_only model_call (enhance_search_query w self query).
Proof.
  intros t. destruct (enhance_search_query_run w self query t)
    as (enhanced & evs & Hrun & Hevs). eauto.
Qed.

Lemma generate_multi_query_footprint (w : world) (self : LLMService) (query : string) :
  returns_only model_call (generate_multi_query w self query).
Proof.
  intros t. destruct (generate_multi_query_run w self query t)
    as (q & qs & evs & Hrun & Hevs). eauto.
Qed.

(** X6: the expander of several queries never raises and never returns an
    empty list. When the model is available and its answer parses as a
    non-empty JSON array, it returns the items of this array, as they
    are; in every other case it returns the query itself, alone. *)
Theorem generate_multi_query_result (w : world) (self : LLMService) (query : string)
    (t : trace) :
  exists queries t',
    generate_multi_query w self query t = (Returns queries, t') /\
    queries <> [] /\
    ((is_available self = true /\
      exists text,
        generate_content w t (multi_query_prompt query) = Returns text /\
        json_loads w (strip text) = Returns (PList queries)) \/
     (queries = [PStr query] /\
      ~ (is_available self = true /\
         exists text q qs,
           generate_content w t (multi_query_prompt query) = Returns text /\
           json_loads w (strip text) = Returns (PList (q :: qs))))).
Proof.
  unfold generate_multi_query.
  destruct (is_available self); cbn [negb].
  2: { exists [PStr query], t. repeat split; [discriminate|].
       right. split; [reflexivity|]. now intros [? _]. }
  unfold try_except, bind, lift, ret. rewrite generate_run.
  destruct (generate_content w t (multi_query_prompt query)) as [text|e] eqn:Hgen.
  2: { eexists _, _. repeat split; [discriminate|].
       right. split; [reflexivity|]. intros [_ (text & q & qs & H & _)]. discriminate. }
  destruct (json_loads w (strip text)) as [v|e] eqn:Hloads.
  - destruct v as [| | | | |[|q qs]|];
      try (eexists _, _; repeat split; [discriminate|];
           right; split; [reflexivity|];
           intros [_ (text' & q' & qs' & [= <-] & H)]; rewrite Hloads in H;
           discriminate).
    eexists _, _. repeat split; [discriminate|]. left. eauto.
  - destruct e; eexists _, _; repeat split; try discriminate;
      right; (split; [reflexivity|]);
      intros [_ (text' & q' & qs' & [= <-] & H)]; rewrite Hloads in H; discriminate.
Qed.

(** The prompt of the answer is built whatever the intent. *)
Lemma generate_rag_prompt_run (w : world) (self : LLMService) (query : string)
    (chunks : list TextChunk) (history : option (list ChatMessage)) (t : trace) :
  exists prompt evs,
    generate_rag_prompt w self query chunks history t = (Returns prompt, t ++ evs) /\
    Forall model_call evs.
Proof.
  unfold generate_rag_prompt.
  destruct (analyze_query_intent_run w self query t)
    as (intent & ty & evs & Hrun & Hevs & Hty & _).
  rewrite (bind_returns _ _ _ _ _ Hrun).
  rewrite (bind_returns _ _ (t ++ evs) (t ++ evs) ty) by (now rewrite lift_run, Hty).
  assert (Hrole : exists system_role,
    (if eq_str ty "comparison" then ret comparison_role
     else
       let* ty1 := lift (getitem intent "type") in
       if eq_str ty1 "pattern" then ret pattern_role
       else
         let* ty2 := lift (getitem intent "type") in
         if eq_str ty2 "timeline" then ret chronology_role
         else
           let* ty3 := lift (getitem intent "type") in
           if eq_str ty3 "relationship" then ret chronology_role
           else ret general_role) (t ++ evs)
    = (Returns system_role, t ++ evs)).
  { destruct (eq_str ty "comparison"); [eexists; reflexivity|].
    unfold bind, lift. rewrite Hty.
    destruct (eq_str ty "pattern"); [eexists; reflexivity|].
    destruct (eq_str ty "timeline"); [eexists; reflexivity|].
    destruct (eq_str ty "relationship"); eexists; reflexivity. }
  destruct Hrole as (system_role & Hrole).
  rewrite (bind_returns _ _ _ _ _ Hrole). eexists _, evs. split; [reflexivity | exact Hevs].
Qed.

(** X7: [generate_response] never raises. Without a model it returns the
    fixed unavailability message and calls nothing; with one it builds the
    prompt, asks the model once more, and returns the text of the model as
    it is, or ["Error generating response: " + str(e)] when that call
    raises [e]. *)
Theorem generate_response_result (w : world) (self : LLMService) (query : string)
    (chunks : list TextChunk) (history : option (list ChatMessage)) (t : trace) :
  exists answer t',
    generate_response w self query chunks history t = (Returns answer, t') /\
    if is_available self then
      exists prompt t1,
        generate_rag_prompt w self query chunks history t = (Returns prompt, t1) /\
        t' = t1 ++ [GenerateContent prompt] /\
        answer = match generate_content w t1 prompt with
                 | Returns text => text
                 | Raises e => "Error generating response: " +:+ str_exc w e
                 end
    else answer = unavailable_message /\ t' = t.
Proof.
  unfold generate_response.
  destruct (is_available self); cbn [negb].
  2: { eexists _, _. split; [reflexivity | split; reflexivity]. }
  destruct (generate_rag_prompt_run w self query chunks history t)
    as (prompt & evs & Hprompt & _).
  destruct (generate_content w (t ++ evs) prompt) as [text|e] eqn:Hgen.
  - exists text, ((t ++ evs) ++ [GenerateContent prompt]). split.
    + apply try_returns. rewrite (bind_returns _ _ _ _ _ Hprompt).
      now rewrite generate_run, Hgen.
    + exists prompt, (t ++ evs). now rewrite Hgen.
  - eexists _, ((t ++ evs) ++ [GenerateContent prompt]). split.
    + erewrite try_raises; [reflexivity|].
      rewrite (bind_returns _ _ _ _ _ Hprompt). now rewrite generate_run, Hgen.
    + exists prompt, (t ++ evs). now rewrite Hgen.
Qed.

Lemma generate_response_footprint (w : world) (self : LLMService) (query : string)
    (chunks : list TextChunk) (history : option (list ChatMessage)) :
  returns_only model_call (generate_response w self query chunks history).
Proof.
  unfold generate_response. destruct (negb _); [apply returns_only_ret|].
  apply returns_only_try; [|intros e; apply returns_only_ret].
  apply only_bind.
  - intros t. destruct (generate_rag_prompt_run w self query chunks history t)
      as (prompt & evs & Hrun & Hevs). eauto.
  - intros prompt. apply only_call. reflexivity.
Qed.

(** ** The groups of the prompt *)

Lemma chunks_of_doc_app (d : string) (l : list TextChunk) (c : TextChunk) :
  chunks_of_doc d (l ++ [c])
    = chunks_of_doc d l ++ (if String.eqb (tc_doc_id c) d then [c] else []).
Proof. unfold chunks_of_doc. rewrite List.filter_app. reflexivity. Qed.

Lemma group_add_keys (cases : list (string * list TextChunk)) (c : TextChunk) :
  map fst (group_add cases c)
    = if existsb (String.eqb (tc_doc_id c)) (map fst cases)
      then map fst cases else map fst cases ++ [tc_doc_id c].
Proof.
  induction cases as [|[k v] cases IH]; [reflexivity|].
  cbn [group_add map fst existsb]. rewrite (String.eqb_sym (tc_doc_id c) k).
  destruct (String.eqb k (tc_doc_id c)); [reflexivity|].
  cbn [map fst orb]. rewrite IH. now destruct (existsb _ _).
Qed.

Lemma existsb_doc_id_In (k : string) (keys : list string) :
  existsb (String.eqb k) keys = true <-> In k keys.
Proof.
  rewrite existsb_exists. split.
  - intros (x & Hx & Heq). apply String.eqb_eq in Heq. now subst.
  - intros Hin. exists k. split; [assumption | apply String.eqb_refl].
Qed.

Lemma group_add_In (cases : list (string * list TextChunk)) (c : TextChunk)
    (d : string) (g : list TextChunk) :
  List.NoDup (map fst cases) ->
  In (d, g) (group_add cases c) ->
  (d <> tc_doc_id c /\ In (d, g) cases) \/
  (d = tc_doc_id c /\ exists g0, In (d, g0) cases /\ g = g0 ++ [c]) \/
  (d = tc_doc_id c /\ ~ In d (map fst cases) /\ g = [c]).
Proof.
  induction cases as [|[k v] cases IH]; intros Hnd Hin.
  - destruct Hin as [[= <- <-] | []]. right; right. auto.
  - cbn [group_add] in Hin. apply NoDup_cons_iff in Hnd as [Hk Hnd].
    destruct (String.eqb_spec k (tc_doc_id c)) as [Heq|Hne].
    + destruct Hin as [[= <- <-] | Hin].
      * right; left. split; [assumption|]. exists v. split; [now left | reflexivity].
      * left. split; [|now right]. intros ->. apply Hk. rewrite Heq.
        apply (in_map fst) in Hin. exact Hin.
    + destruct Hin as [[= <- <-] | Hin].
      * left. split; [assumption | now left].
      * destruct (IH Hnd Hin) as [[Hd Hc] | [[Hd (g0 & Hg0 & Hg)] | [Hd [Hnot Hg]]]].
        -- left. split; [assumption | now right].
        -- right; left. split; [assumption|]. exists g0. split; [now right | assumption].
        -- right; right. repeat split; try assumption.
           intros [Hk' | Hin']; [cbn in Hk'; congruence | contradiction].
Qed.

Lemma chunks_of_doc_missing (d : string) (seen : list TextChunk)
    (cases : list (string * list TextChunk)) :
  (forall c, In c seen -> In (tc_doc_id c) (map fst cases)) ->
  ~ In d (map fst cases) -> chunks_of_doc d seen = [].
Proof.
  intros Hall Hd. unfold chunks_of_doc.
  induction seen as [|c seen IH]; [reflexivity|]. cbn [List.filter].
  destruct (String.eqb_spec (tc_doc_id c) d) as [<-|_].
  - exfalso. apply Hd, Hall. now left.
  - apply IH. intros c' Hc'. apply Hall. now right.
Qed.

Lemma group_add_grouped (seen : list TextChunk) (cases : list (string * list TextChunk))
    (c : TextChunk) :
  grouped seen cases -> grouped (seen ++ [c]) (group_add cases c).
Proof.
  intros (Hnd & Hgroups & Hall). split; [|split].
  - rewrite group_add_keys. destruct (existsb _ _) eqn:Hex; [assumption|].
    apply List.NoDup_app; [assumption | repeat constructor; intros [] |].
    intros x Hx [<- | []].
    apply existsb_doc_id_In in Hx. congruence.
  - intros d g Hin. rewrite chunks_of_doc_app.
    destruct (group_add_In cases c d g Hnd Hin)
      as [[Hd Hc] | [[Hd (g0 & Hg0 & Hg)] | [Hd [Hnot Hg]]]].
    + destruct (Hgroups d g Hc) as [Hne Hg].
      destruct (String.eqb_spec (tc_doc_id c) d) as [Heq|_]; [congruence|].
      now rewrite app_nil_r.
    + destruct (Hgroups d g0 Hg0) as [_ Hg0'].
      rewrite Hd at 2. rewrite String.eqb_refl, <- Hg0', Hg.
      split; [now destruct g0 | reflexivity].
    + rewrite (chunks_of_doc_missing d seen cases Hall Hnot).
      rewrite Hd at 1. rewrite String.eqb_refl, Hg. split; [discriminate | reflexivity].
  - intros c' Hc'. rewrite group_add_keys.
    apply in_app_or in Hc' as [Hc' | [<- | []]].
    + destruct (existsb _ _); [|apply in_or_app; left]; now apply Hall.
    + destruct (existsb _ _) eqn:Hex.
      * now apply existsb_doc_id_In.
      * apply in_or_app. right. now left.
Qed.

Lemma fold_group_add_grouped (l seen : list TextChunk)
    (cases : list (string * list TextChunk)) :
  grouped seen cases -> grouped (seen ++ l) (fold_left group_add l cases).
Proof.
  revert seen cases. induction l as [|c l IH]; intros seen cases H; cbn [fold_left].
  - now rewrite app_nil_r.
  - replace (seen ++ c :: l) with ((seen ++ [c]) ++ l) by now rewrite <- List.app_assoc.
    apply IH, group_add_grouped, H.
Qed.

(** X8: the prompt groups the chunks by document: each [doc_id] of the
    chunks heads one group, no [doc_id] heads two, and a group holds the
    chunks of its document, all of them, in the order retrieved. *)
Theorem cases_of_groups (chunks : list TextChunk) :
  List.NoDup (map fst (cases_of chunks)) /\
  (forall d g, In (d, g) (cases_of chunks) -> g <> [] /\ g = chunks_of_doc d chunks) /\
  (forall c, In c chunks -> In (tc_doc_id c) (map fst (cases_of chunks))).
Proof.
  apply (fold_group_add_grouped chunks [] []).
  split; [apply List.NoDup_nil | split; [intros d g [] | intros c []]].
Qed.

Example three_chunks_two_cases :
  map (fun case => (fst case, map tc_chunk_id (snd case)))
      (cases_of MoreScenario.three_text_chunks)
    = [("D1", ["D1_0"; "D1_1"]); ("D2", ["D2_0"])].
Proof. reflexivity. Qed.

End LLMMore.


(* ===================================================================== *)
(** * The retrieval endpoints, end to end *)
(* ===================================================================== *)

Module RetrievalMore.
Import PyStr Py Trace MonadFacts Properties TraceFacts LLMFacts Endpoints.
Import Footprint FootprintFacts Invariants.

Lemma model_retrieval (ev : event) : model_call ev -> retrieval_call ev.
Proof. destruct ev; cbn; intros H; try discriminate H; exact I. Qed.

Lemma search_retrieval (ev : event) : search_call ev -> retrieval_call ev.
Proof. destruct ev; cbn; intros H; try contradiction; exact I. Qed.

Lemma search_no_model (evs : trace) : Forall search_call evs -> model_calls evs = 0%nat.
Proof.
  induction 1 as [|ev evs Hev _ IH]; [reflexivity|].
  unfold model_calls in *. destruct ev; cbn in *; try contradiction; exact IH.
Qed.

Lemma search_chunks_footprint (w : world) (self : storage) (query : pyval) (limit : Z) :
  returns_only search_call (Gateway.search_chunks w self query limit).
Proof.
  unfold Gateway.search_chunks.
  apply returns_only_bind; [apply returns_only_log; exact I|]. intros _.
  apply returns_only_try; [|intros e; apply returns_only_ret].
  apply only_bind; [apply only_lift|]. intros q. apply only_call. exact I.
Qed.

Lemma search_and_merge_footprint (w : world) (self : storage) (limit : Z)
    (acc : merged) (query : pyval) :
  returns_only search_call (search_and_merge w self limit acc query).
Proof.
  apply returns_only_bind; [apply search_chunks_footprint|].
  intros chunks. apply returns_only_ret.
Qed.

Lemma run_planned_footprint (w : world) (self : storage) (limit : Z) (p : planned) :
  returns_only search_call (run_planned w self limit p).
Proof.
  destruct p as [enhanced_query|search_queries]; cbn [run_planned].
  - apply search_chunks_footprint.
  - apply returns_only_bind; [|intros acc; apply returns_only_ret].
    apply returns_only_for_each. intros acc x. apply search_and_merge_footprint.
Qed.

Lemma retrieve_for_chat_footprint (w : world) (self : storage) (qs : list pyval) :
  returns_only search_call (retrieve_for_chat w self qs).
Proof.
  apply returns_only_bind; [|intros acc; apply returns_only_ret].
  apply returns_only_for_each. intros acc x. apply search_and_merge_footprint.
Qed.

Lemma init_footprint (w : world) : returns_only retrieval_call (LLM.init w).
Proof.
  intros t. destruct (init_run w t) as (llm_service & Hinit).
  exists llm_service, []. rewrite app_nil_r. split; [assumption | constructor].
Qed.

Lemma plan_search_footprint (w : world) (llm_service : LLM.LLMService) (query : string) :
  returns_only model_call (plan_search w llm_service query).
Proof.
  intros t. destruct (SearchLimits.plan_search_run w llm_service query t) as (p & evs & Hrun & Hevs & _).
  eauto.
Qed.

(** The queries of the chat are planned whatever the model says, and there
    is at least one. *)
Lemma plan_chat_run (w : world) (llm_service : LLM.LLMService) (query : string)
    (t : trace) :
  exists q qs evs,
    plan_chat w llm_service query t = (Returns (q :: qs), t ++ evs) /\
    model_only evs.
Proof.
  unfold plan_chat.
  destruct (analyze_query_intent_run w llm_service query t)
    as (intent & ty & evs & Hrun & Hevs & Hty & _).
  rewrite (bind_returns _ _ _ _ _ Hrun).
  rewrite (bind_returns _ _ (t ++ evs) (t ++ evs) ty) by (now rewrite lift_run, Hty).
  rewrite (bind_returns _ _ (t ++ evs) (t ++ evs) ty) by (now rewrite lift_run, Hty).
  destruct (in_strs ty complex_intents).
  - destruct (generate_multi_query_run w llm_service query (t ++ evs))
      as (q & qs & evs' & Hrun' & Hevs').
    exists q, qs, (evs ++ evs'). rewrite Hrun', List.app_assoc.
    split; [reflexivity | now apply model_only_app].
  - destruct (enhance_search_query_run w llm_service query (t ++ evs))
      as (enhanced & evs' & Hrun' & Hevs').
    exists (PStr enhanced), [], (evs ++ evs').
    rewrite (bind_returns _ _ _ _ _ Hrun'), List.app_assoc.
    split; [reflexivity | now apply model_only_app].
Qed.

Lemma plan_chat_footprint (w : world) (llm_service : LLM.LLMService) (query : string) :
  returns_only model_call (plan_chat w llm_service query).
Proof.
  intros t. destruct (plan_chat_run w llm_service query t) as (q & qs & evs & Hrun & Hevs).
  eauto.
Qed.

Lemma new_storage_footprint (w : world) : only retrieval_call (new_storage w).
Proof.
  unfold new_storage, Gateway.init.
  apply only_bind; [apply only_call; exact I|].
  intros _. apply returns_only_only, returns_only_ret.
Qed.

Lemma new_storage_run (w : world) (t : trace) :
  new_bigquery_client w t (BQ_PROJECT_ID (env w)) = Returns tt ->
  new_storage w t
    = (Returns (the_storage w), t ++ [NewBigQueryClient (BQ_PROJECT_ID (env w))]).
Proof.
  intros Hclient. unfold new_storage, Gateway.init, bind, call. now rewrite Hclient.
Qed.

(** An endpoint that wraps what its body raises raises nothing else. *)
Lemma wrapped_500 {A} (P : event -> Prop) (body : M A) (detail : exn -> string) :
  only P body ->
  forall t, exists o evs,
    try_except body
      (fun e => raise (HTTPException HTTP_500_INTERNAL_SERVER_ERROR (detail e))) t
      = (o, t ++ evs) /\
    Forall P evs /\ http_500 o.
Proof.
  intros Hbody t. destruct (Hbody t) as (o & evs & Hrun & Hevs).
  destruct o as [a|e].
  - exists (Returns a), evs. rewrite (try_returns _ _ _ _ _ Hrun).
    split; [reflexivity | split; [assumption | exact I]].
  - eexists _, evs. rewrite (try_raises _ _ _ _ _ Hrun).
    split; [reflexivity | split; [assumption | cbn; eauto]].
Qed.

Lemma http_500_config_not_set {A} : http_500 (@Raises A config_not_set).
Proof. cbn. unfold config_not_set. eauto. Qed.

(** X9: [search_document_chunks] only reads: whatever the model and the
    store answer, it calls nothing but the model, the constructor of the
    BigQuery client and the search, and what it raises, if anything, is
    an HTTP 500. *)
Theorem search_document_chunks_read_only (w : world)
    (search_request : ChunkSearchRequest) (t : trace) :
  exists o evs,
    search_document_chunks w search_request t = (o, t ++ evs) /\
    Forall retrieval_call evs /\ http_500 o.
Proof.
  unfold search_document_chunks. destruct (negb (bigquery_configured w)).
  { eexists _, []. rewrite app_nil_r.
    split; [reflexivity | split; [constructor | apply http_500_config_not_set]]. }
  apply wrapped_500.
  apply only_bind; [apply returns_only_only, init_footprint|]. intros llm_service.
  apply only_bind.
  { apply returns_only_only, (returns_only_weaken _ _ _ model_retrieval).
    apply plan_search_footprint. }
  intros p. apply only_bind; [apply new_storage_footprint|]. intros bq_storage.
  apply only_bind.
  { apply returns_only_only, (returns_only_weaken _ _ _ search_retrieval).
    apply run_planned_footprint. }
  intros all_chunks. apply returns_only_only, returns_only_ret.
Qed.

(** X10: [chat_with_documents] only reads too: it calls nothing but the
    model, the constructor of the BigQuery client and the search, and what
    it raises, if anything, is an HTTP 500. *)
Theorem chat_with_documents_read_only (w : world) (chat_request : ChatRequest)
    (t : trace) :
  exists o evs,
    chat_with_documents w chat_request t = (o, t ++ evs) /\
    Forall retrieval_call evs /\ http_500 o.
Proof.
  unfold chat_with_documents. destruct (negb (bigquery_configured w)).
  { eexists _, []. rewrite app_nil_r.
    split; [reflexivity | split; [constructor | apply http_500_config_not_set]]. }
  apply wrapped_500.
  apply only_bind; [apply returns_only_only, init_footprint|]. intros llm_service.
  destruct (negb (LLM.is_available llm_service)); [apply only_raise|].
  apply only_bind.
  { apply returns_only_only, (returns_only_weaken _ _ _ model_retrieval).
    apply plan_chat_footprint. }
  intros search_queries. apply only_bind; [apply new_storage_footprint|].
  intros bq_storage. apply only_bind.
  { apply returns_only_only, (returns_only_weaken _ _ _ search_retrieval).
    apply retrieve_for_chat_footprint. }
  intros all_chunks. destruct (map to_text_chunk all_chunks) as [|c text_chunks].
  { apply returns_only_only, returns_only_ret. }
  apply only_bind; [|intros answer; apply returns_only_only, returns_only_ret].
  apply returns_only_only, (returns_only_weaken _ _ _ model_retrieval).
  apply LLMMore.generate_response_footprint.
Qed.

(** ** The slice of the results *)

Lemma slice_to_length {A} (l : list A) (n : Z) :
  0 <= n -> Z.of_nat (length (slice_to l n)) <= n.
Proof.
  intros Hn. unfold slice_to. destruct (Z.ltb_spec n 0) as [Hneg|_]; [lia|].
  rewrite List.length_firstn. lia.
Qed.

Lemma slice_to_prefix {A} (l : list A) (n : Z) :
  exists k, slice_to l n = take k l.
Proof. unfold slice_to. destruct (n <? 0); eexists; reflexivity. Qed.

Lemma slice_to_NoDup {A B} (f : A -> B) (l : list A) (n : Z) :
  NoDup (f <$> l) -> NoDup (f <$> slice_to l n).
Proof.
  intros Hnd. destruct (slice_to_prefix l n) as (k & ->).
  rewrite <- (take_drop k l), fmap_app in Hnd.
  now apply NoDup_app in Hnd as (Hnd & _).
Qed.

(** What the endpoint returns is the slice of what the searches gave. *)
Lemma search_document_chunks_inv (w : world) (search_request : ChunkSearchRequest)
    (t t' : trace) (response : ChunkSearchResponse) :
  search_document_chunks w search_request t = (Returns response, t') ->
  exists llm_service t1 p t2 bq_storage t3 all_chunks,
    LLM.init w t = (Returns llm_service, t1) /\
    plan_search w llm_service (search_query search_request) t1 = (Returns p, t2) /\
    new_storage w t2 = (Returns bq_storage, t3) /\
    run_planned w bq_storage (search_limit search_request) p t3
      = (Returns all_chunks, t') /\
    results response
      = slice_to (map to_text_chunk all_chunks) (search_limit search_request).
Proof.
  unfold search_document_chunks. destruct (negb (bigquery_configured w)); [discriminate|].
  intros H. apply try_reraise_inv with
    (wrap := fun e => HTTPException HTTP_500_INTERNAL_SERVER_ERROR
                        ("Error searching case file chunks: " +:+ str_exc w e)) in H.
  apply bind_inv in H as (llm_service & t1 & Hinit & H).
  apply bind_inv in H as (p & t2 & Hplan & H).
  apply bind_inv in H as (bq_storage & t3 & Hst & H).
  apply bind_inv in H as (all_chunks & t4 & Hrun & H).
  injection H as <- <-.
  exists llm_service, t1, p, t2, bq_storage, t3, all_chunks. auto.
Qed.

(** X11: a search never returns more results than the limit asked for,
    when the limit is not negative. *)
Theorem search_document_chunks_at_most_limit (w : world)
    (search_request : ChunkSearchRequest) (t t' : trace)
    (response : ChunkSearchResponse) :
  0 <= search_limit search_request ->
  search_document_chunks w search_request t = (Returns response, t') ->
  Z.of_nat (length (results response)) <= search_limit search_request.
Proof.
  intros Hlimit H.
  apply search_document_chunks_inv in H
    as (llm_service & t1 & p & t2 & bq_storage & t3 & all_chunks & _ & _ & _ & _ & ->).
  now apply slice_to_length.
Qed.

Lemma search_document_chunks_at_most_limit_witness :
  exists response t',
    search_document_chunks MoreScenario.finding_world MoreScenario.two_results []
      = (Returns response, t') /\
    length (results response) = 2%nat /\
    Z.of_nat (length (results response)) <= 2.
Proof.
  eexists _, _. split; [reflexivity|]. split; [reflexivity|].
  eapply (search_document_chunks_at_most_limit
            MoreScenario.finding_world MoreScenario.two_results []);
    [cbn; lia | reflexivity].
Defined.

(** X12: with a model, the results of a search have distinct chunk ids. *)
Theorem search_document_chunks_distinct (w : world)
    (search_request : ChunkSearchRequest) (t t' : trace)
    (llm_service : LLM.LLMService) (response : ChunkSearchResponse) :
  fst (LLM.init w t) = Returns llm_service ->
  LLM.is_available llm_service = true ->
  search_document_chunks w search_request t = (Returns response, t') ->
  NoDup (tc_chunk_id <$> results response).
Proof.
  intros Hllm Hav H.
  apply search_document_chunks_inv in H
    as (llm & t1 & p & t2 & bq_storage & t3 & all_chunks
        & Hinit & Hplan & _ & Hrun & ->).
  rewrite Hinit in Hllm. cbn in Hllm. injection Hllm as ->.
  destruct (SearchLimits.plan_search_run w llm_service (search_query search_request) t1)
    as (p' & evs & Hplan' & _ & Hshape).
  rewrite Hplan in Hplan'. injection Hplan' as <- _.
  unfold plan_shape in Hshape. rewrite Hav in Hshape. destruct Hshape as (q & qs & ->).
  destruct (Merging.run_planned_first_seen w bq_storage (search_limit search_request)
              (q :: qs) t3) as (raw & t4 & _ & Hrun').
  rewrite Hrun in Hrun'. injection Hrun' as -> _.
  apply slice_to_NoDup.
  change (map to_text_chunk (first_seen (concat raw)))
    with (to_text_chunk <$> first_seen (concat raw)).
  rewrite <- list_fmap_compose. apply Merging.first_seen_NoDup.
Qed.

Lemma search_document_chunks_distinct_witness :
  exists response t',
    search_document_chunks MoreScenario.finding_world MoreScenario.two_results []
      = (Returns response, t') /\
    tc_chunk_id <$> results response = ["D1_0"; "D2_0"] /\
    NoDup (tc_chunk_id <$> results response).
Proof.
  eexists _, _. split; [reflexivity|]. split; [reflexivity|].
  eapply (search_document_chunks_distinct
            MoreScenario.finding_world MoreScenario.two_results [] _ Scenario.available);
    reflexivity.
Defined.

(** X13: without a model a search runs one query on the store, the query
    of the request with its special characters escaped and the limit of
    the request, and returns the first hits up to the limit; a failure of
    the store gives no results. *)
Theorem search_document_chunks_without_model (w : world)
    (search_request : ChunkSearchRequest) (t : trace) (llm_service : LLM.LLMService) :
  bigquery_configured w = true ->
  fst (LLM.init w t) = Returns llm_service ->
  LLM.is_available llm_service = false ->
  new_bigquery_client w t (BQ_PROJECT_ID (env w)) = Returns tt ->
  let query := search_query search_request in
  let limit := search_limit search_request in
  let sql := Gateway.query_str (the_storage w) in
  let t1 := t ++ [NewBigQueryClient (BQ_PROJECT_ID (env w));
                  SearchChunks (PStr query) limit] in
  let found := match run_query w t1 sql (Gateway.escape_query query) limit with
               | Returns hits => hits
               | Raises _ => []
               end in
  search_document_chunks w search_request t
    = (Returns {| results := slice_to (map to_text_chunk found) limit |},
       t1 ++ [RunQuery sql (Gateway.escape_query query) limit]).
Proof.
  intros Hcfg Hllm Hav Hclient query limit sql t1 found.
  destruct (init_run w t) as (llm & Hinit).
  rewrite Hinit in Hllm. cbn in Hllm. injection Hllm as ->.
  unfold search_document_chunks. rewrite Hcfg. cbn [negb].
  apply try_returns.
  rewrite (bind_returns _ _ _ _ _ Hinit).
  unfold plan_search. rewrite Hav. cbn [negb].
  rewrite (bind_returns _ _ _ _ _ (ret_run _ _)).
  rewrite (bind_returns _ _ _ _ _ (new_storage_run w t Hclient)).
  cbn [run_planned]. fold query limit.
  assert (Hsearch :
    Gateway.search_chunks w (the_storage w) (PStr query) limit
      (t ++ [NewBigQueryClient (BQ_PROJECT_ID (env w))])
    = (Returns found, t1 ++ [RunQuery sql (Gateway.escape_query query) limit])).
  { unfold Gateway.search_chunks, bind, log, try_except, lift, call, ret.
    cbn [Gateway.as_str]. subst found t1 sql. rewrite <- !List.app_assoc. cbn [app].
    destruct (run_query w _ _ _ _); reflexivity. }
  rewrite (bind_returns _ _ _ _ _ Hsearch). reflexivity.
Qed.

Lemma search_document_chunks_without_model_witness :
  tc_chunk_id <$> results
    (match fst (search_document_chunks MoreScenario.keyless_world
                  MoreScenario.two_results []) with
     | Returns response => response
     | Raises _ => {| results := [] |}
     end) = ["D1_0"; "D2_0"].
Proof.
  rewrite (search_document_chunks_without_model
             MoreScenario.keyless_world MoreScenario.two_results []
             {| LLM.model := None |});
    reflexivity.
Defined.

(** X14: without a model [chat_with_documents] refuses with an HTTP 500
    whose detail wraps the message of the refusal, before it calls
    anything. *)
Theorem chat_with_documents_without_model (w : world) (chat_request : ChatRequest)
    (t : trace) (llm_service : LLM.LLMService) :
  bigquery_configured w = true ->
  fst (LLM.init w t) = Returns llm_service ->
  LLM.is_available llm_service = false ->
  chat_with_documents w chat_request t
    = (Raises (HTTPException HTTP_500_INTERNAL_SERVER_ERROR
                 ("Error in case file analysis: " +:+ str_exc w llm_not_available)),
       t).
Proof.
  intros Hcfg Hllm Hav.
  destruct (init_run w t) as (llm & Hinit).
  rewrite Hinit in Hllm. cbn in Hllm. injection Hllm as ->.
  unfold chat_with_documents. rewrite Hcfg. cbn [negb].
  erewrite try_raises; [reflexivity|].
  rewrite (bind_returns _ _ _ _ _ Hinit), Hav. reflexivity.
Qed.

Lemma chat_with_documents_without_model_witness :
  chat_with_documents MoreScenario.keyless_world Scenario.a_question []
    = (Raises (HTTPException 500
                 ("Error in case file analysis: "
                  +:+ "LLM service not available. Please set the GEMINI_API_KEY environment variable.")),
       []).
Proof.
  apply (chat_with_documents_without_model
           MoreScenario.keyless_world Scenario.a_question [] {| LLM.model := None |});
    reflexivity.
Defined.

(** X15: with BigQuery configured, a model and a client of the store,
    [chat_with_documents] always answers: no failure of the model or of a
    search surfaces as an error. It searches each planned query once, in
    order, with the limit 3, and the chunks it returns have distinct
    ids. *)
Theorem chat_with_documents_answers (w : world) (chat_request : ChatRequest)
    (t : trace) (llm_service : LLM.LLMService) :
  bigquery_configured w = true ->
  fst (LLM.init w t) = Returns llm_service ->
  LLM.is_available llm_service = true ->
  (forall t', new_bigquery_client w t' (BQ_PROJECT_ID (env w)) = Returns tt) ->
  exists search_queries response t',
    chat_with_documents w chat_request t = (Returns response, t') /\
    fst (plan_chat w llm_service (chat_query chat_request) t) = Returns search_queries /\
    search_queries <> [] /\
    search_calls t' = search_calls t ++ map (fun q => (q, 3)) search_queries /\
    NoDup (tc_chunk_id <$> response_chunks response).
Proof.
  intros Hcfg Hllm Hav Hclient.
  destruct (init_run w t) as (llm & Hinit).
  rewrite Hinit in Hllm. cbn in Hllm. injection Hllm as ->.
  destruct (plan_chat_run w llm_service (chat_query chat_request) t)
    as (q & qs & evs & Hplan & Hevs).
  pose proof (new_storage_run w (t ++ evs) (Hclient _)) as Hst.
  set (t2 := (t ++ evs) ++ [NewBigQueryClient (BQ_PROJECT_ID (env w))]) in *.
  destruct (Merging.retrieve_for_chat_first_seen w (the_storage w) (q :: qs) t2)
    as (raw & t3 & _ & Hret).
  destruct (search_loop_trace w (the_storage w) 3 (q :: qs) ([], ∅) t2)
    as (acc & evs3 & Hloop & _ & Hsearches).
  assert (Ht3 : t3 = t2 ++ evs3).
  { unfold retrieve_for_chat in Hret.
    rewrite (bind_returns _ _ _ _ _ Hloop) in Hret. now injection Hret. }
  assert (Hdistinct :
    NoDup (tc_chunk_id <$> map to_text_chunk (first_seen (concat raw)))).
  { change (map to_text_chunk (first_seen (concat raw)))
      with (to_text_chunk <$> first_seen (concat raw)).
    rewrite <- list_fmap_compose. apply Merging.first_seen_NoDup. }
  assert (Ht3_searches :
    search_calls t3 = search_calls t ++ map (fun q => (q, 3)) (q :: qs)).
  { rewrite Ht3. unfold t2. rewrite !search_calls_app, Hsearches.
    rewrite (model_only_search_calls evs Hevs). cbn [search_calls flat_map app].
    now rewrite !app_nil_r. }
  unfold chat_with_documents. rewrite Hcfg. cbn [negb].
  destruct (map to_text_chunk (first_seen (concat raw))) as [|c text_chunks] eqn:Hchunks.
  - exists (q :: qs), {| answer := no_information; response_chunks := [] |}, t3.
    split; [|rewrite Hplan; repeat split; [discriminate | assumption | constructor]].
    apply try_returns.
    rewrite (bind_returns _ _ _ _ _ Hinit), Hav. cbn [negb].
    rewrite (bind_returns _ _ _ _ _ Hplan).
    rewrite (bind_returns _ _ _ _ _ Hst).
    rewrite (bind_returns _ _ _ _ _ Hret).
    rewrite Hchunks. reflexivity.
  - destruct (LLMMore.generate_response_footprint w llm_service
                (chat_query chat_request) (c :: text_chunks)
                (chat_history chat_request) t3) as (text & evs4 & Hgen & Hevs4).
    exists (q :: qs), {| answer := text; response_chunks := c :: text_chunks |},
           (t3 ++ evs4).
    split; [|rewrite Hplan; repeat split; [discriminate | | assumption]].
    + apply try_returns.
      rewrite (bind_returns _ _ _ _ _ Hinit), Hav. cbn [negb].
      rewrite (bind_returns _ _ _ _ _ Hplan).
      rewrite (bind_returns _ _ _ _ _ Hst).
      rewrite (bind_returns _ _ _ _ _ Hret).
      rewrite Hchunks. rewrite (bind_returns _ _ _ _ _ Hgen). reflexivity.
    + rewrite search_calls_app, Ht3_searches.
      rewrite (model_only_search_calls evs4 Hevs4). now rewrite app_nil_r.
Qed.

Lemma chat_with_documents_answers_witness :
  exists search_queries response t',
    chat_with_documents MoreScenario.finding_world Scenario.a_question []
      = (Returns response, t') /\
    fst (plan_chat MoreScenario.finding_world Scenario.available
           (chat_query Scenario.a_question) []) = Returns search_queries /\
    search_queries <> [] /\
    search_calls t' = search_calls [] ++ map (fun q => (q, 3)) search_queries /\
    NoDup (tc_chunk_id <$> response_chunks response).
Proof.
  apply (chat_with_documents_answers
           MoreScenario.finding_world Scenario.a_question [] Scenario.available);
    reflexivity.
Defined.

End RetrievalMore.


(* ===================================================================== *)
(** * The upload, step by step *)
(* ===================================================================== *)

Module IngestionMore.
Import PyStr Py Trace MonadFacts Crud Properties Footprint FootprintFacts Invariants.

(** X16: [process_pdf_for_bigquery] never raises. It draws a fresh
    document id and splits the text into sentences. When the splitter
    raises, it returns a failure with [success] and [error] only, and
    nothing is sent to the store. Otherwise it sends the chunks of the
    text in one insert, and reports [success], [doc_id], [chunks_count]
    and [error]: the number of chunks and no error when the store accepts
    the rows, otherwise no chunk and the error of the store. *)
Theorem process_pdf_for_bigquery_result (w : world) (self : storage)
    (text ipfs_path filename : string) (metadata : pyval) (t : trace) :
  let doc_id := uuid4 w t in
  exists result,
    match sent_tokenize w text with
    | Raises e =>
        Gateway.process_pdf_for_bigquery w self text ipfs_path filename metadata t
          = (Returns result, t ++ [Uuid4]) /\
        result = [("success", PBool false); ("error", PStr (str_exc w e))]
    | Returns sentences =>
        let chunks := Chunker.chunk_text (fun _ => sentences) self text doc_id in
        let rows :=
          Gateway.rows_of_chunks w self chunks metadata filename ipfs_path in
        Gateway.process_pdf_for_bigquery w self text ipfs_path filename metadata t
          = (Returns result, t ++ [Uuid4; InsertRowsJson (bq_table self) rows]) /\
        match insert_rows_json w (t ++ [Uuid4]) (bq_table self) rows with
        | Returns [] =>
            index_report result true doc_id (Z.of_nat (length chunks)) PNone
        | Returns (e :: errors) =>
            index_report result false doc_id 0
              (PStr ("BigQuery insert errors: "
                     +:+ str_val w (PList (e :: errors))))
        | Raises e =>
            index_report result false doc_id 0 (PStr (str_exc w e))
        end
    end.
Proof.
  intros doc_id.
  unfold Gateway.process_pdf_for_bigquery, Gateway.store_chunks_in_bigquery.
  unfold try_except, bind, call, lift, ret. fold doc_id.
  destruct (sent_tokenize w text) as [sentences|e].
  2: { eexists. split; reflexivity. }
  cbv zeta.
  destruct (insert_rows_json w (t ++ [Uuid4]) (bq_table self) _) as [[|e errors]|e];
    cbn; rewrite <- List.app_assoc; eexists; (split; [reflexivity|]);
    repeat split.
Qed.

(** Without the data of the sentence splitter nothing is indexed. *)
Example process_pdf_for_bigquery_without_tokenizer :
  Gateway.process_pdf_for_bigquery MoreScenario.tokenizer_missing_world
    Scenario.a_storage "First. Second." "Qm1" "case.pdf" (PDict []) []
  = (Returns [("success", PBool false);
              ("error", PStr "Resource punkt not found.")],
     [Uuid4]).
Proof. reflexivity. Qed.

(** ** The PDF reader *)

Lemma extract_text_from_pdf_run (w : world) (pdf_content : string) (t : trace) :
  extract_text_from_pdf w pdf_content t
    = (Returns match pdf_extract_text w t pdf_content with
               | Returns text => text
               | Raises _ => ""
               end, t ++ [PdfExtractText]).
Proof.
  unfold extract_text_from_pdf, try_except, call.
  destruct (pdf_extract_text w t pdf_content); reflexivity.
Qed.

Lemma process_pdf_trace (w : world) (pdf_content : string) (t t' : trace)
    (result : pdf_result) :
  process_pdf w pdf_content t = (Returns result, t') -> t' = t ++ [PdfExtractText].
Proof.
  unfold process_pdf, try_except. unfold bind at 1.
  rewrite extract_text_from_pdf_run. unfold bind, lift, ret.
  destruct (extract_data w _); now intros [= _ <-].
Qed.

(** X17: a PDF that cannot be read counts as an empty text: the failure
    of the reader never leaves [extract_text_from_pdf], so [get_raw_text]
    never reports a failure and [process_pdf] fails only when the data
    extraction does. *)
Theorem unreadable_pdf_is_empty (w : world) (pdf_content : string) (t : trace) :
  let text := match pdf_extract_text w t pdf_content with
              | Returns text => text
              | Raises _ => ""
              end in
  extract_text_from_pdf w pdf_content t = (Returns text, t ++ [PdfExtractText]) /\
  get_raw_text w pdf_content t = (Returns (RawText text), t ++ [PdfExtractText]) /\
  process_pdf w pdf_content t
    = (Returns match extract_data w text with
               | Returns data => PdfProcessed data
               | Raises e => PdfFailed (str_exc w e)
               end, t ++ [PdfExtractText]).
Proof.
  intros text.
  pose proof (extract_text_from_pdf_run w pdf_content t) as Htext. fold text in Htext.
  split; [exact Htext|]. split.
  - apply try_returns. now rewrite (bind_returns _ _ _ _ _ Htext).
  - unfold process_pdf.
    destruct (extract_data w text) as [data|e] eqn:Hdata.
    + apply try_returns. rewrite (bind_returns _ _ _ _ _ Htext).
      unfold bind, lift. now rewrite Hdata.
    + erewrite try_raises; [reflexivity|]. rewrite (bind_returns _ _ _ _ _ Htext).
      unfold bind, lift. now rewrite Hdata.
Qed.

(** ** The blob store *)

(** X18: [store_file_in_ipfs] never raises, and it reports success only
    when the file was added and then pinned; when the pin fails the file
    has been added all the same. *)
Theorem store_file_in_ipfs_result (w : world) (file_content filename : string)
    (t : trace) :
  exists result t',
    store_file_in_ipfs w file_content filename t = (Returns result, t') /\
    match ipfs_add_file w t file_content filename with
    | Raises e =>
        t' = t ++ [IpfsAddFile filename] /\ exists error, result = IpfsFailed error
    | Returns file_hash =>
        t' = t ++ [IpfsAddFile filename; IpfsPinAdd file_hash] /\
        match ipfs_pin_add w (t ++ [IpfsAddFile filename]) file_hash with
        | Returns _ =>
            result = IpfsStored file_hash ("/ipfs/" +:+ file_hash)
                       ("http://localhost:8080/ipfs/" +:+ file_hash)
                       ("https://ipfs.io/ipfs/" +:+ file_hash)
        | Raises e => exists error, result = IpfsFailed error
        end
    end.
Proof.
  unfold store_file_in_ipfs, try_except, bind, call, ret.
  destruct (ipfs_add_file w t file_content filename) as [file_hash|e].
  - destruct (ipfs_pin_add w (t ++ [IpfsAddFile filename]) file_hash) as [[]|e].
    + eexists _, _. split; [reflexivity|]. rewrite <- List.app_assoc. split; reflexivity.
    + destruct e; eexists _, _; (split; [reflexivity|]); rewrite <- List.app_assoc;
        (split; [reflexivity | eauto]).
  - destruct e; eexists _, _; (split; [reflexivity|]); (split; [reflexivity | eauto]).
Qed.

(** ** The steps of [create_document] *)

Lemma store_file_in_ipfs_stored (w : world) (file_content filename : string)
    (t t' : trace) (h p l g : string) :
  store_file_in_ipfs w file_content filename t = (Returns (IpfsStored h p l g), t') ->
  t' = t ++ [IpfsAddFile filename; IpfsPinAdd h].
Proof.
  unfold store_file_in_ipfs, try_except, bind, call, ret.
  destruct (ipfs_add_file w t file_content filename) as [file_hash|e].
  - destruct (ipfs_pin_add w (t ++ [IpfsAddFile filename]) file_hash) as [[]|e].
    + intros [= <- _ _ _ <-]. now rewrite <- List.app_assoc.
    + destruct e; discriminate.
  - destruct e; discriminate.
Qed.

Lemma store_json_on_chain_stored (w : world) (address key json_data : string)
    (t t' : trace) (tx a : string) :
  store_json_on_chain w address key json_data t = (Returns (ChainStored tx a), t') ->
  t' = t ++ [AptosStoreJson address json_data].
Proof.
  unfold store_json_on_chain, try_except, bind, call, ret.
  destruct (aptos_store_json w t address key json_data) as [receipt|e].
  - now intros [= _ _ <-].
  - discriminate.
Qed.

(** The calls of the three steps, when they succeed. *)
Lemma first_steps_done (w : world) (filename file_content : string) (user : User)
    (t t1 : trace) (ipfs_details : ipfs_result) (ipfs_hash : string)
    (extracted_data : pyval) (blockchain_details : blockchain_result)
    (transaction_hash : string) :
  first_steps w filename file_content user t
    = (Returns (StepsDone ipfs_details ipfs_hash extracted_data blockchain_details
                          transaction_hash), t1) ->
  t1 = t ++ steps_trace w filename user ipfs_hash extracted_data.
Proof.
  unfold first_steps. intros H.
  apply bind_inv in H as ([h p l g|error] & t2 & Hipfs & H); [|discriminate].
  apply store_file_in_ipfs_stored in Hipfs as ->.
  apply bind_inv in H as ([data|error] & t3 & Hpdf & H); [|discriminate].
  apply process_pdf_trace in Hpdf as ->.
  apply bind_inv in H as ([tx a|error] & t4 & Hchain & H); [|discriminate].
  apply store_json_on_chain_stored in Hchain as ->.
  injection H as _ <- <- _ _ <-.
  unfold steps_trace. now rewrite <- !List.app_assoc.
Qed.

Lemma store_file_in_ipfs_footprint (w : world) (file_content filename : string) :
  returns_only upload_call (store_file_in_ipfs w file_content filename).
Proof.
  apply returns_only_try; [|intros e; destruct e; apply returns_only_ret].
  apply only_bind; [apply only_call; exact I|]. intros file_hash.
  apply only_bind; [apply only_call; exact I|]. intros pin_result.
  apply returns_only_only, returns_only_ret.
Qed.

Lemma process_pdf_footprint (w : world) (pdf_content : string) :
  returns_only upload_call (process_pdf w pdf_content).
Proof.
  apply returns_only_try; [|intros e; apply returns_only_ret].
  apply only_bind.
  - apply returns_only_only, returns_only_try; [|intros e; apply returns_only_ret].
    apply only_call. exact I.
  - intros text. apply only_bind; [apply only_lift|].
    intros data. apply returns_only_only, returns_only_ret.
Qed.

Lemma store_json_on_chain_footprint (w : world) (address key json_data : string) :
  returns_only upload_call (store_json_on_chain w address key json_data).
Proof.
  apply returns_only_try; [|intros e; apply returns_only_ret].
  apply only_bind; [apply only_call; exact I|]. intros receipt.
  apply returns_only_only, returns_only_ret.
Qed.

Lemma first_steps_footprint (w : world) (filename file_content : string) (user : User) :
  returns_only upload_call (first_steps w filename file_content user).
Proof.
  apply returns_only_bind; [apply store_file_in_ipfs_footprint|].
  intros [h p l g|error]; [|apply returns_only_ret].
  apply returns_only_bind; [apply process_pdf_footprint|].
  intros [data|error]; [|apply returns_only_ret].
  apply returns_only_bind; [apply store_json_on_chain_footprint|].
  intros [tx a|error]; apply returns_only_ret.
Qed.

(** X19: when BigQuery is not configured an upload makes no call of the
    index: it calls nothing but the blob store, the PDF reader, the ledger
    and the database, and the index report of a stored document says
    success with no chunk. *)
Theorem create_document_without_index (w : world) (user_id : Z)
    (filename file_content : string) (user : User) (t : trace) :
  Endpoints.bigquery_configured w = false ->
  exists o evs,
    create_document w user_id filename file_content user t = (o, t ++ evs) /\
    Forall upload_call evs /\
    forall document ipfs_details blockchain_details extracted_data bigquery_details,
      o = Returns (Created document ipfs_details blockchain_details extracted_data
                           bigquery_details) ->
      bigquery_details = nothing_indexed.
Proof.
  intros Hcfg. unfold Endpoints.bigquery_configured in Hcfg.
  rewrite Ingestion.create_document_after_steps.
  destruct (first_steps_footprint w filename file_content user t)
    as (p & evs & -> & Hevs).
  destruct p as [error|ipfs_details ipfs_hash extracted_data blockchain_details tx].
  { exists (Returns (CreateFailed error)), evs.
    split; [reflexivity | split; [exact Hevs | discriminate]]. }
  unfold record_and_index, index_chunks. rewrite Hcfg.
  unfold bind, call, ret.
  set (d := new_document w user_id filename user ipfs_hash extracted_data tx).
  destruct (db_add w (t ++ evs) d) as [[]|e].
  2: { eexists _, (evs ++ [DbAdd d]). rewrite List.app_assoc.
       split; [reflexivity | split; [|discriminate]].
       apply Forall_app. split; [exact Hevs | repeat constructor]. }
  destruct (db_commit w ((t ++ evs) ++ [DbAdd d])) as [[]|e].
  2: { eexists _, (evs ++ [DbAdd d; DbCommit]). rewrite <- !List.app_assoc.
       split; [reflexivity | split; [|discriminate]].
       apply Forall_app. split; [exact Hevs | repeat constructor]. }
  destruct (db_refresh w (((t ++ evs) ++ [DbAdd d]) ++ [DbCommit]) d) as [d'|e].
  2: { eexists _, (evs ++ [DbAdd d; DbCommit; DbRefresh]). rewrite <- !List.app_assoc.
       split; [reflexivity | split; [|discriminate]].
       apply Forall_app. split; [exact Hevs | repeat constructor]. }
  eexists _, (evs ++ [DbAdd d; DbCommit; DbRefresh]). rewrite <- !List.app_assoc.
  split; [reflexivity | split].
  - apply Forall_app. split; [exact Hevs | repeat constructor].
  - now intros ? ? ? ? ? [= _ _ _ _ <-].
Qed.

Lemma create_document_without_index_witness :
  exists o evs,
    create_document MoreScenario.unconfigured_world 7 "case.pdf" "First. Second."
                    Scenario.an_author [] = (o, [] ++ evs) /\
    Forall upload_call evs /\
    forall document ipfs_details blockchain_details extracted_data bigquery_details,
      o = Returns (Created document ipfs_details blockchain_details extracted_data
                           bigquery_details) ->
      bigquery_details = nothing_indexed.
Proof.
  apply (create_document_without_index MoreScenario.unconfigured_world 7 "case.pdf"
           "First. Second." Scenario.an_author []).
  reflexivity.
Defined.

(** X20: when the commit of the record fails, [create_document] raises
    the error of the database as it is. By then the file is added and
    pinned and the ledger entry is written, and nothing undoes them: the
    calls are those of the three steps, [add] and [commit], with no
    rollback. *)
Theorem create_document_commit_failure (w : world) (user_id : Z)
    (filename file_content : string) (user : User) (t t1 : trace)
    (ipfs_details : ipfs_result) (ipfs_hash : string) (extracted_data : pyval)
    (blockchain_details : blockchain_result) (transaction_hash : string) (e : exn) :
  let d := new_document w user_id filename user ipfs_hash extracted_data
                        transaction_hash in
  first_steps w filename file_content user t
    = (Returns (StepsDone ipfs_details ipfs_hash extracted_data blockchain_details
                          transaction_hash), t1) ->
  db_add w t1 d = Returns tt ->
  db_commit w (t1 ++ [DbAdd d]) = Raises e ->
  create_document w user_id filename file_content user t
    = (Raises e,
       t ++ steps_trace w filename user ipfs_hash extracted_data
         ++ [DbAdd d; DbCommit]).
Proof.
  intros d Hsteps Hadd Hcommit.
  rewrite Ingestion.create_document_after_steps, Hsteps.
  pose proof (first_steps_done _ _ _ _ _ _ _ _ _ _ _ Hsteps) as Ht1.
  unfold record_and_index, bind, call. fold d. rewrite Hadd, Hcommit.
  rewrite Ht1, <- !List.app_assoc. reflexivity.
Qed.

Lemma create_document_commit_failure_witness :
  create_document MoreScenario.uncommitted_world 7 "case.pdf" "First. Second."
                  Scenario.an_author []
    = (Raises (ExternalError "database is locked"),
       [IpfsAddFile "case.pdf"; IpfsPinAdd "Qm1"; PdfExtractText;
        AptosStoreJson (aptos_address Scenario.an_author) "{}";
        DbAdd (new_document MoreScenario.uncommitted_world 7 "case.pdf"
                            Scenario.an_author "Qm1" (PDict []) "0xabc");
        DbCommit]).
Proof.
  eapply (create_document_commit_failure MoreScenario.uncommitted_world 7 "case.pdf"
            "First. Second." Scenario.an_author []);
    reflexivity.
Defined.

End IngestionMore.


(* ===================================================================== *)
(** * The document endpoints *)
(* ===================================================================== *)

Module DocumentsMore.
Import PyStr PyStrFacts Py Trace MonadFacts Crud Properties Documents.
Import Footprint FootprintFacts Invariants.

(** ** [str.endswith] *)

Lemma drop_app (pre s : string) : drop (String.length pre) (pre +:+ s) = s.
Proof. induction pre as [|c pre IH]; [reflexivity | exact IH]. Qed.

Lemma endswith_spec (s suffix : string) :
  endswith s suffix = true <-> exists stem, s = stem +:+ suffix.
Proof.
  unfold endswith. rewrite andb_true_iff, Nat.leb_le, String.eqb_eq. split.
  - intros [_ Hdrop].
    destruct (drop_suffix (String.length s - String.length suffix) s) as (pre & Hpre).
    exists pre. now rewrite Hdrop in Hpre.
  - intros (stem & ->). rewrite PyStrFacts.length_app. split; [lia|].
    replace (String.length stem + String.length suffix - String.length suffix)%nat
      with (String.length stem) by lia.
    apply drop_app.
Qed.

(** ** Reading the results back *)

Lemma call_inv {A} (ev : event) (answer : trace -> outcome A) (t t' : trace) (a : A) :
  call ev answer t = (Returns a, t') -> answer t = Returns a /\ t' = t ++ [ev].
Proof. unfold call. now intros [= -> <-]. Qed.

Lemma respond_inv {R} (s : site R) (w : world) (d : Document) (t t' : trace) (r : R) :
  respond s w d t = (Returns r, t') -> t' = t /\ response_of s w d r.
Proof.
  unfold respond, bind, lift, response_of.
  destruct (json_loads w (doc_extracted_data d)) as [data|e]; [|discriminate].
  intros [= H <-]. eauto.
Qed.

Lemma respond_all_inv {R} (s : site R) (w : world) (documents : list Document)
    (acc rs : list R) (t t' : trace) :
  for_each documents
    (fun documents_response doc =>
       let* doc_response := respond s w doc in
       ret (documents_response ++ [doc_response])) acc t = (Returns rs, t') ->
  t' = t /\ exists rs', rs = acc ++ rs' /\ Forall2 (response_of s w) documents rs'.
Proof.
  revert acc t. induction documents as [|d documents IH]; intros acc t; cbn [for_each].
  - intros [= <- <-]. split; [reflexivity|]. exists []. rewrite app_nil_r.
    split; [reflexivity | constructor].
  - intros H. apply bind_inv in H as (acc' & t1 & Hbody & H).
    apply bind_inv in Hbody as (r & t2 & Hr & Hret).
    apply respond_inv in Hr as [-> Hr]. injection Hret as <- <-.
    apply IH in H as (-> & rs' & -> & Hrs').
    split; [reflexivity|]. exists (r :: rs'). rewrite <- List.app_assoc.
    split; [reflexivity | now constructor].
Qed.

(** ** Uploads *)

(** X21: a file whose name does not end in [.pdf], in lower case, is
    refused with an HTTP 400 before anything is called. *)
Theorem upload_document_only_pdf {R} (s : site R) (w : world) (file : UploadFile)
    (current_user : Account) (t : trace) :
  (exists stem, upload_filename file = stem +:+ ".pdf") \/
  upload_document s w file current_user t
    = (Raises (HTTPException HTTP_400_BAD_REQUEST "Only PDF files are supported"), t).
Proof.
  unfold upload_document.
  destruct (endswith (upload_filename file) ".pdf") eqn:Hpdf.
  - left. now apply endswith_spec.
  - right. reflexivity.
Qed.

Example upload_of_a_picture_is_refused :
  upload_document MoreScenario.a_site MoreScenario.archive_world MoreScenario.a_picture
                  MoreScenario.the_owner []
    = (Raises (HTTPException 400 "Only PDF files are supported"), []).
Proof. reflexivity. Qed.

(** X22: an upload answers only after the record is committed: when
    [upload_document] returns, the file name ends in [.pdf], the calls
    made are those of the three steps and then [add], [commit] and
    [refresh] of the record of the current user, and what follows makes
    no call of the database. *)
Theorem upload_document_answers_after_commit {R} (s : site R) (w : world)
    (file : UploadFile) (current_user : Account) (t t' : trace) (r : R) :
  upload_document s w file current_user t = (Returns r, t') ->
  exists stem ipfs_hash extracted_data transaction_hash evs,
    upload_filename file = stem +:+ ".pdf" /\
    let user := account_user current_user in
    let d := new_document w (account_id current_user) (upload_filename file) user
                          ipfs_hash extracted_data transaction_hash in
    t' = t ++ steps_trace w (upload_filename file) user ipfs_hash extracted_data
           ++ [DbAdd d; DbCommit; DbRefresh] ++ evs /\
    db_calls evs = [].
Proof.
  unfold upload_document.
  destruct (endswith (upload_filename file) ".pdf") eqn:Hpdf; [|discriminate].
  apply endswith_spec in Hpdf as (stem & Hstem). cbn [negb]. intros H.
  apply bind_inv in H as (result & t1 & Hcreate & H).
  destruct result as [error|document ipfs_details blockchain_details data bq];
    [discriminate|].
  apply respond_inv in H as [-> _].
  rewrite Ingestion.create_document_after_steps in Hcreate.
  destruct (first_steps w (upload_filename file) (upload_content file)
              (account_user current_user) t) as [[p|e] t0] eqn:Hsteps; [|discriminate].
  destruct p as [error|ipfs_details' ipfs_hash extracted_data blockchain_details' tx];
    [discriminate|].
  apply IngestionMore.first_steps_done in Hsteps as ->.
  unfold record_and_index in Hcreate.
  apply bind_inv in Hcreate as (? & t2 & Hadd & Hcreate).
  apply call_inv in Hadd as [_ ->].
  apply bind_inv in Hcreate as (? & t3 & Hcommit & Hcreate).
  apply call_inv in Hcommit as [_ ->].
  apply bind_inv in Hcreate as (d' & t4 & Hrefresh & Hcreate).
  apply call_inv in Hrefresh as [_ ->].
  apply bind_inv in Hcreate as (bq' & t5 & Hindex & Hcreate).
  injection Hcreate as _ _ _ _ _ <-.
  match type of Hindex with
  | index_chunks _ _ _ _ _ ?t0 = _ =>
      destruct (Ingestion.index_chunks_quiet w (upload_content file)
                  (upload_filename file) ipfs_hash extracted_data t0)
        as (bq'' & evs & Hindex' & Hquiet)
  end.
  rewrite Hindex in Hindex'. injection Hindex' as _ ->.
  exists stem, ipfs_hash, extracted_data, tx, evs.
  split; [exact Hstem|]. split; [|exact Hquiet].
  rewrite <- !List.app_assoc. reflexivity.
Qed.

Lemma upload_document_answers_after_commit_witness :
  exists stem ipfs_hash extracted_data transaction_hash evs,
    "case.pdf" = stem +:+ ".pdf" /\
    snd (upload_document MoreScenario.a_site MoreScenario.archive_world
           MoreScenario.a_pdf MoreScenario.the_owner [])
      = [] ++ steps_trace MoreScenario.archive_world "case.pdf" Scenario.an_author
                 ipfs_hash extracted_data
           ++ [DbAdd (new_document MoreScenario.archive_world 7 "case.pdf"
                                   Scenario.an_author ipfs_hash extracted_data
                                   transaction_hash);
               DbCommit; DbRefresh] ++ evs /\
    db_calls evs = [].
Proof.
  apply (upload_document_answers_after_commit
           MoreScenario.a_site MoreScenario.archive_world MoreScenario.a_pdf
           MoreScenario.the_owner []
           (snd (upload_document MoreScenario.a_site MoreScenario.archive_world
                   MoreScenario.a_pdf MoreScenario.the_owner []))
           (new_document MoreScenario.archive_world 7 "case.pdf" Scenario.an_author
                         "Qm1" (PDict []) "0xabc", PDict [])).
  vm_compute. reflexivity.
Defined.

(** ** Reading documents *)

(** X23: [get_document_by_id] answers only for a document that exists and
    that the current user owns, unless the user is an administrator; the
    answer is the response built for this document. *)
Theorem get_document_by_id_access {R} (s : site R) (w : world) (document_id : Z)
    (current_user : Account) (t t' : trace) (r : R) :
  get_document_by_id s w document_id current_user t = (Returns r, t') ->
  exists document,
    select_document s t document_id = Returns (Some document) /\
    (doc_user_id document = account_id current_user \/
     account_is_admin current_user = true) /\
    response_of s w document r /\ t' = t.
Proof.
  unfold get_document_by_id, get_document, read. unfold bind at 1.
  destruct (select_document s t document_id) as [[document|]|e] eqn:Hselect;
    [|discriminate..].
  destruct (Z.eqb_spec (doc_user_id document) (account_id current_user)) as [Hown|_];
    cbn [negb andb].
  - intros H. apply respond_inv in H as [-> Hr]. exists document. auto.
  - destruct (account_is_admin current_user) eqn:Hadmin; cbn [negb]; [|discriminate].
    intros H. apply respond_inv in H as [-> Hr]. exists document. auto.
Qed.

Lemma get_document_by_id_access_witness :
  exists document,
    select_document MoreScenario.a_site [] 1 = Returns (Some document) /\
    (doc_user_id document = account_id MoreScenario.the_owner \/
     account_is_admin MoreScenario.the_owner = true) /\
    response_of MoreScenario.a_site MoreScenario.archive_world document
                (MoreScenario.a_document, PDict []) /\
    [] = @nil event.
Proof.
  apply (get_document_by_id_access MoreScenario.a_site MoreScenario.archive_world 1
           MoreScenario.the_owner [] [] (MoreScenario.a_document, PDict [])).
  reflexivity.
Defined.

Example a_stranger_is_refused :
  get_document_by_id MoreScenario.a_site MoreScenario.archive_world 1
                     MoreScenario.a_stranger []
    = (Raises (HTTPException 403 "Not enough permissions"), []).
Proof. reflexivity. Qed.

(** X24: [get_my_documents] answers with one response for each document
    the query of the current user gives, in the order of the query, or
    with none at all: a document whose stored data do not parse fails the
    whole listing. *)
Theorem get_my_documents_all_or_nothing {R} (s : site R) (w : world) (skip limit : Z)
    (current_user : Account) (t t' : trace) (rs : list R) :
  get_my_documents s w skip limit current_user t = (Returns rs, t') ->
  exists documents,
    select_documents_by_user s t (account_id current_user) skip limit
      = Returns documents /\
    Forall2 (response_of s w) documents rs /\ t' = t.
Proof.
  unfold get_my_documents, get_documents_by_user, read, respond_all. unfold bind at 1.
  destruct (select_documents_by_user s t (account_id current_user) skip limit)
    as [documents|e]; [|discriminate].
  intros H. apply respond_all_inv in H as (-> & rs' & -> & Hrs).
  exists documents. auto.
Qed.

Lemma get_my_documents_all_or_nothing_witness :
  exists documents,
    select_documents_by_user MoreScenario.a_site [] (account_id MoreScenario.the_owner)
                             0 100 = Returns documents /\
    Forall2 (response_of MoreScenario.a_site MoreScenario.archive_world) documents
            [(MoreScenario.a_document, PDict [])] /\
    [] = @nil event.
Proof.
  apply (get_my_documents_all_or_nothing MoreScenario.a_site MoreScenario.archive_world
           0 100 MoreScenario.the_owner [] [] [(MoreScenario.a_document, PDict [])]).
  reflexivity.
Defined.

(** X25: in [search_documents] the transaction hash comes first. When
    one is given the query by address has no part in the outcome: two
    sites that answer the query by hash alike and build responses alike
    give the same outcome, whatever their queries by address do, failing
    included. The answer has the one document of this hash, or none. *)
Theorem search_documents_by_hash {R} (s : site R) (w : world) (search : DocumentSearch)
    (current_user : Account) (t : trace) (tx_hash : string) :
  given (search_transaction_hash search) = Some tx_hash ->
  (forall s' : site R,
     select_document_by_tx_hash s' = select_document_by_tx_hash s ->
     DocumentResponse s' = DocumentResponse s ->
     search_documents s' w search current_user t
       = search_documents s w search current_user t) /\
  (forall rs t',
     search_documents s w search current_user t = (Returns rs, t') ->
     exists found,
       select_document_by_tx_hash s t tx_hash = Returns found /\
       Forall2 (response_of s w)
               match found with Some doc => [doc] | None => [] end rs /\
       (length rs <= 1)%nat /\ t' = t).
Proof.
  intros Hgiven. split.
  - intros s' Hhash Hresponse.
    unfold search_documents, respond_all, respond, get_document_by_tx_hash.
    rewrite Hgiven, Hhash, Hresponse. reflexivity.
  - intros rs t'. unfold search_documents, respond_all. rewrite Hgiven.
    unfold get_document_by_tx_hash, read. unfold bind at 1 2.
    destruct (select_document_by_tx_hash s t tx_hash) as [found|e]; [|discriminate].
    intros H. exists found.
    assert (Hrs : t' = t /\
                  Forall2 (response_of s w)
                          match found with Some doc => [doc] | None => [] end rs).
    { destruct found as [doc|]; cbn [ret] in H;
        apply respond_all_inv in H as (-> & rs' & -> & Hrs'); auto. }
    destruct Hrs as [-> Hrs]. repeat split; [exact Hrs|].
    apply List.Forall2_length in Hrs. rewrite <- Hrs. destruct found; cbn; lia.
Qed.

Lemma search_documents_by_hash_witness :
  search_documents MoreScenario.address_down_site MoreScenario.archive_world
                   MoreScenario.both_criteria MoreScenario.a_stranger []
    = search_documents MoreScenario.a_site MoreScenario.archive_world
                       MoreScenario.both_criteria MoreScenario.a_stranger [] /\
  exists found,
    select_document_by_tx_hash MoreScenario.a_site [] "0xabc" = Returns found /\
    Forall2 (response_of MoreScenario.a_site MoreScenario.archive_world)
            match found with Some doc => [doc] | None => [] end
            [(MoreScenario.a_document, PDict [])] /\
    (length [(MoreScenario.a_document, PDict [])] <= 1)%nat /\
    [] = @nil event.
Proof.
  destruct (search_documents_by_hash MoreScenario.a_site MoreScenario.archive_world
              MoreScenario.both_criteria MoreScenario.a_stranger [] "0xabc" eq_refl)
    as [Hsame Hanswer].
  split.
  - apply Hsame; reflexivity.
  - apply Hanswer. reflexivity.
Defined.

(** Without a hash the query by address is made: its failure is the
    outcome. *)
Example search_documents_by_address_fails :
  search_documents MoreScenario.address_down_site MoreScenario.archive_world
                   MoreScenario.by_address MoreScenario.a_stranger []
    = (Raises (ExternalError "database is locked"), []).
Proof. reflexivity. Qed.

End DocumentsMore.
